(** * agent-reg: MCP registry, connection manager and gateway

    A shallow embedding of the parts of the backend that the specification
    talks about:

    - [database.py]     the SQLite repository ([Module Database], over the
                        fragment of SQLite it uses, [Module Sqlite]);
    - [mcp_client.py]   one-shot capability discovery ([Module Client]);
    - [mcp_connection_manager.py]  the session pool ([Module Manager]) and
                        its concurrent callers ([Module Tasks]);
    - [mcp_gateway_routes.py]      the JSON-RPC proxy ([Module Gateway]);
    - [main.py]         the registry routes ([Module Main]).

    [Module Scenario] holds concrete registries, pools and servers on which
    the code is run, [Module Spec] the vocabulary of the statements; the
    properties follow, one section per subject.

    Python objects are modelled by records, dictionaries used as maps by
    [gmap], SQL tables by lists of rows in rowid order, exceptions by a sum
    type, and calls that leave the process (the MCP SDK, the clock) by
    explicit outcomes passed in by the caller. *)

From Stdlib Require Import ZArith List String Ascii Bool Lia Sorted.
From stdpp Require Import base option list strings gmap.
Import ListNotations.

Open Scope string_scope.

Set Warnings "-register-all".

(* ===================================================================== *)
(** ** Python values *)
(* ===================================================================== *)

Module Py.

(** JSON-shaped Python values ([Dict[str, Any]], [List[Any]], ...). *)
Inductive JSON : Type :=
| JNull
| JBool (b : bool)
| JNum (z : Z)
| JStr (s : string)
| JArr (l : list JSON)
| JObj (l : list (string * JSON)).

(** Python truthiness, [bool(v)]. *)
Definition truthy (v : JSON) : bool :=
  match v with
  | JNull => false
  | JBool b => b
  | JNum z => negb (z =? 0)%Z
  | JStr s => negb (s =? "")
  | JArr l => match l with [] => false | _ => true end
  | JObj l => match l with [] => false | _ => true end
  end.

(** Truthiness of an [Optional[...]] value: [None] is falsy. *)
Definition truthy_opt (o : option JSON) : bool :=
  match o with Some v => truthy v | None => false end.

Definition truthy_str (o : option string) : bool :=
  match o with Some s => negb (s =? "") | None => false end.

(** [d.get(k)] on a dict given as an association list (first binding). *)
Fixpoint dict_get (k : string) (d : list (string * JSON)) : option JSON :=
  match d with
  | [] => None
  | (k', v) :: d' => if k' =? k then Some v else dict_get k d'
  end.

(** [x or ''] for an optional string. *)
Definition or_empty (o : option string) : string :=
  match o with Some s => if s =? "" then "" else s | None => "" end.

Definition is_upper (c : ascii) : bool :=
  ((65 <=? nat_of_ascii c) && (nat_of_ascii c <=? 90))%nat.

Definition lower_ascii (c : ascii) : ascii :=
  if is_upper c then ascii_of_nat (nat_of_ascii c + 32) else c.

(** [s.lower()], on strings of 8-bit characters (ASCII case folding). *)
Fixpoint lower (s : string) : string :=
  match s with
  | EmptyString => EmptyString
  | String c s' => String (lower_ascii c) (lower s')
  end.

(** [q in s] on strings: [q] occurs in [s] as a contiguous substring. *)
Fixpoint contains (q s : string) : bool :=
  String.prefix q s ||
  match s with
  | EmptyString => false
  | String _ s' => contains q s'
  end.

(** [l[:n]] for an integer [n] (a negative [n] counts from the end). *)
Definition slice_to {A} (n : Z) (l : list A) : list A :=
  if (n <? 0)%Z then firstn (length l - Z.to_nat (- n)) l
  else firstn (Z.to_nat n) l.

(** The exceptions the modelled code raises or catches. *)
Inductive Exn : Type :=
| ValueError (msg : string)
| ConnectionError (msg : string)
| KeyError (key : string)
| TypeError (msg : string)
| FileNotFoundError (msg : string)
| TimeoutError
| IntegrityError (msg : string)
| MCPClientError (msg : string)
| OtherError (msg : string).

(** A call either raises or returns. *)
Inductive Result (A : Type) : Type :=
| Raise (e : Exn)
| Return (a : A).
Arguments Raise {A} e.
Arguments Return {A} a.

End Py.

(* ===================================================================== *)
(** ** mcp_models.py, mcp_gateway_models.py *)
(* ===================================================================== *)

Module Models.
Import Py.

(** [MCPToolCapability]; [inputSchema] is a JSON object when present. *)
Record MCPToolCapability := {
  tool_name : string;
  tool_description : option string;
  tool_inputSchema : option JSON
}.

Record MCPResourceCapability := {
  res_uri : string;
  res_name : string;
  res_description : option string;
  res_mimeType : option string
}.

(** [MCPPromptCapability]; [arguments] is a JSON array of objects when
    present. *)
Record MCPPromptCapability := {
  prompt_name : string;
  prompt_description : option string;
  prompt_arguments : option JSON
}.

(** [MCPServerCapabilities].  The three fields are [Optional[List[...]]];
    every consumer tests them with [if capabilities.get(kind):], under
    which [None] and [[]] behave alike, so a missing list is the empty
    list here. *)
Record MCPServerCapabilities := {
  tools : list MCPToolCapability;
  resources : list MCPResourceCapability;
  prompts : list MCPPromptCapability
}.

(** [Optional[Union[str, int]]] *)
Inductive RequestId : Type :=
| IdStr (s : string)
| IdInt (z : Z).

Record JSONRPCRequest := {
  req_jsonrpc : string;
  req_id : option RequestId;
  req_method : string;
  req_params : option (list (string * JSON))
}.

Record JSONRPCError := {
  err_code : Z;
  err_message : string;
  err_data : option JSON
}.

Record JSONRPCResponse := {
  resp_jsonrpc : string;
  resp_id : option RequestId;
  resp_result : option JSON;
  resp_error : option JSONRPCError
}.

End Models.

(* ===================================================================== *)
(** ** The fragment of SQLite used by database.py *)
(* ===================================================================== *)

Module Sqlite.
Import Py.

(** A [sqlite3.Connection]: the counter behind [conn.total_changes]
    (rows inserted, updated or deleted since the connection was opened)
    and the [PRAGMA foreign_keys] switch. *)
Record Connection := {
  total_changes : nat;
  foreign_keys : bool
}.

(** [sqlite3.connect(path)].  Foreign-key enforcement is off on a new
    connection until [PRAGMA foreign_keys = ON] is executed on it. *)
Definition connect : Connection :=
  {| total_changes := 0; foreign_keys := false |}.

Definition add_changes (n : nat) (c : Connection) : Connection :=
  {| total_changes := total_changes c + n; foreign_keys := foreign_keys c |}.

(** [text LIKE pattern]: [%] matches any run of characters, [_] any one
    character, every other character matches itself up to ASCII case.
    No escape character is in force unless the statement has an ESCAPE
    clause. *)
Fixpoint like (p s : string) : bool :=
  match p with
  | EmptyString => match s with EmptyString => true | _ => false end
  | String c p' =>
      if Ascii.eqb c "%"%char then
        (fix star (s : string) : bool :=
           like p' s ||
           match s with
           | EmptyString => false
           | String _ s' => star s'
           end) s
      else if Ascii.eqb c "_"%char then
        match s with
        | EmptyString => false
        | String _ s' => like p' s'
        end
      else
        match s with
        | EmptyString => false
        | String d s' => Ascii.eqb (lower_ascii c) (lower_ascii d) && like p' s'
        end
  end.

(** [column LIKE ?] on a nullable column: NULL never matches. *)
Definition like_col (pattern : string) (v : option string) : bool :=
  match v with Some s => like pattern s | None => false end.

(** [LIMIT n]: a negative [n] means no limit. *)
Definition limit {A} (n : Z) (rows : list A) : list A :=
  if (n <? 0)%Z then rows else firstn (Z.to_nat n) rows.

(** [SELECT DISTINCT] on a single text column. *)
Definition distinct (rows : list string) : list string :=
  nodup String.string_dec rows.

End Sqlite.

(* ===================================================================== *)
(** ** database.py *)
(* ===================================================================== *)

Module Database.
Import Py Models Sqlite.

(** A TEXT column holding [json.dumps(v)].  [json.loads] inverts
    [json.dumps] on JSON-shaped values, so the text is represented by the
    value it encodes. *)
Inductive JsonText : Type := Dumped (v : JSON).

Definition json_dumps (v : JSON) : JsonText := Dumped v.
Definition json_loads (t : JsonText) : JSON := match t with Dumped v => v end.

(** Rows of [mcp_servers], [mcp_tools], [mcp_resources], [mcp_prompts]. *)
Record ServerRow := {
  srv_id : string;
  srv_type : string;
  srv_description : option string;
  srv_config : JsonText;
  srv_created_at : string;
  srv_last_verified : option string;
  srv_status : option string
}.

Record ToolRow := {
  tr_server_id : string;
  tr_name : string;
  tr_description : option string;
  tr_input_schema : option JsonText
}.

Record ResourceRow := {
  rr_server_id : string;
  rr_uri : string;
  rr_name : string;
  rr_description : option string;
  rr_mime_type : option string
}.

Record PromptRow := {
  pr_server_id : string;
  pr_name : string;
  pr_description : option string;
  pr_arguments : option JsonText
}.

(** The stored tables, each in rowid (insertion) order. *)
Record Tables := {
  mcp_servers : list ServerRow;
  mcp_tools : list ToolRow;
  mcp_resources : list ResourceRow;
  mcp_prompts : list PromptRow
}.

Definition empty_tables : Tables :=
  {| mcp_servers := []; mcp_tools := []; mcp_resources := []; mcp_prompts := [] |}.

(** [AgentDatabase]: [_connection] is the persistent connection kept only
    for [':memory:']; [tables] is what the database file (or the memory
    database) holds. *)
Record AgentDatabase := {
  db_path : string;
  _connection : option Connection;
  tables : Tables
}.

(** [AgentDatabase.__init__] on a path with no database yet.  The
    [CREATE TABLE] / [CREATE INDEX] statements of [_init_database] change
    no rows. *)
Definition init (path : string) : AgentDatabase :=
  {| db_path := path;
     _connection := if path =? ":memory:" then Some connect else None;
     tables := empty_tables |}.

(** [with self._get_connection() as conn]: the persistent connection if
    there is one, else a fresh one. *)
Definition _get_connection (db : AgentDatabase) : Connection :=
  match _connection db with
  | Some c => c
  | None => connect
  end.

(** Leaving the [with] block after [conn.commit()]: a fresh connection is
    closed and dropped, the persistent one lives on with its counters. *)
Definition leave (db : AgentDatabase) (c : Connection) (t : Tables) : AgentDatabase :=
  {| db_path := db_path db;
     _connection := match _connection db with Some _ => Some c | None => None end;
     tables := t |}.

Definition server_has_id (sid : string) (r : ServerRow) : bool := srv_id r =? sid.
Definition tool_of (sid : string) (r : ToolRow) : bool := tr_server_id r =? sid.
Definition resource_of (sid : string) (r : ResourceRow) : bool := rr_server_id r =? sid.
Definition prompt_of (sid : string) (r : PromptRow) : bool := pr_server_id r =? sid.

Definition keep {A} (f : A -> bool) (l : list A) : list A := List.filter f l.
Definition drop {A} (f : A -> bool) (l : list A) : list A :=
  List.filter (fun x => negb (f x)) l.

(** [DELETE FROM mcp_servers WHERE id = ?].  The capability tables
    declare [FOREIGN KEY (server_id) REFERENCES mcp_servers(id) ON DELETE
    CASCADE]; the action runs only on a connection with foreign keys
    switched on, and the rows it removes are counted in [total_changes]. *)
Definition exec_delete_server (sid : string) (c : Connection) (t : Tables)
  : Connection * Tables :=
  let n := length (keep (server_has_id sid) (mcp_servers t)) in
  if foreign_keys c && (0 <? n)%nat then
    let k := (length (keep (tool_of sid) (mcp_tools t))
              + length (keep (resource_of sid) (mcp_resources t))
              + length (keep (prompt_of sid) (mcp_prompts t)))%nat in
    (add_changes (n + k) c,
     {| mcp_servers := drop (server_has_id sid) (mcp_servers t);
        mcp_tools := drop (tool_of sid) (mcp_tools t);
        mcp_resources := drop (resource_of sid) (mcp_resources t);
        mcp_prompts := drop (prompt_of sid) (mcp_prompts t) |})
  else
    (add_changes n c,
     {| mcp_servers := drop (server_has_id sid) (mcp_servers t);
        mcp_tools := mcp_tools t;
        mcp_resources := mcp_resources t;
        mcp_prompts := mcp_prompts t |}).

(** [UPDATE mcp_servers SET status = ?, last_verified = ? WHERE id = ?] *)
Definition exec_update_status (sid status last_verified : string)
    (c : Connection) (t : Tables) : Connection * Tables :=
  let n := length (keep (server_has_id sid) (mcp_servers t)) in
  (add_changes n c,
   {| mcp_servers :=
        map (fun r =>
               if server_has_id sid r then
                 {| srv_id := srv_id r; srv_type := srv_type r;
                    srv_description := srv_description r;
                    srv_config := srv_config r;
                    srv_created_at := srv_created_at r;
                    srv_last_verified := Some last_verified;
                    srv_status := Some status |}
               else r) (mcp_servers t);
      mcp_tools := mcp_tools t;
      mcp_resources := mcp_resources t;
      mcp_prompts := mcp_prompts t |}).

(** The row each capability is stored as. *)
Definition tool_row (sid : string) (tool : MCPToolCapability) : ToolRow :=
  {| tr_server_id := sid;
     tr_name := tool_name tool;
     tr_description := tool_description tool;
     tr_input_schema :=
       if truthy_opt (tool_inputSchema tool)
       then option_map json_dumps (tool_inputSchema tool)
       else None |}.

Definition resource_row (sid : string) (r : MCPResourceCapability) : ResourceRow :=
  {| rr_server_id := sid;
     rr_uri := res_uri r;
     rr_name := res_name r;
     rr_description := res_description r;
     rr_mime_type := res_mimeType r |}.

Definition prompt_row (sid : string) (p : MCPPromptCapability) : PromptRow :=
  {| pr_server_id := sid;
     pr_name := prompt_name p;
     pr_description := prompt_description p;
     pr_arguments :=
       if truthy_opt (prompt_arguments p)
       then option_map json_dumps (prompt_arguments p)
       else None |}.

(** What [get_mcp_server] returns. *)
Record MCPServer := {
  server_id : string;
  server_type : string;
  server_description : option string;
  server_config : JSON;
  server_created_at : string;
  server_last_verified : option string;
  server_status : option string;
  server_capabilities : MCPServerCapabilities
}.

(** [json.loads(col) if col else None] *)
Definition loads_opt (col : option JsonText) : option JSON :=
  option_map json_loads col.

Definition tool_dict (r : ToolRow) : MCPToolCapability :=
  {| tool_name := tr_name r;
     tool_description := tr_description r;
     tool_inputSchema := loads_opt (tr_input_schema r) |}.

Definition resource_dict (r : ResourceRow) : MCPResourceCapability :=
  {| res_uri := rr_uri r;
     res_name := rr_name r;
     res_description := rr_description r;
     res_mimeType := rr_mime_type r |}.

Definition prompt_dict (r : PromptRow) : MCPPromptCapability :=
  {| prompt_name := pr_name r;
     prompt_description := pr_description r;
     prompt_arguments := loads_opt (pr_arguments r) |}.

Definition get_mcp_server (sid : string) (db : AgentDatabase) : option MCPServer :=
  match keep (server_has_id sid) (mcp_servers (tables db)) with
  | [] => None
  | server_row :: _ =>
      Some {| server_id := srv_id server_row;
              server_type := srv_type server_row;
              server_description := srv_description server_row;
              server_config := json_loads (srv_config server_row);
              server_created_at := srv_created_at server_row;
              server_last_verified := srv_last_verified server_row;
              server_status := srv_status server_row;
              server_capabilities :=
                {| tools := map tool_dict (keep (tool_of sid) (mcp_tools (tables db)));
                   resources := map resource_dict
                                  (keep (resource_of sid) (mcp_resources (tables db)));
                   prompts := map prompt_dict
                                (keep (prompt_of sid) (mcp_prompts (tables db))) |} |}
  end.

(** [insert_mcp_server]; [now] is [datetime.now(timezone.utc).isoformat()].
    [id] is the primary key: a second row with the same id makes the first
    INSERT raise, before anything is written. *)
Definition insert_mcp_server (sid stype : string) (description : option string)
    (config : JSON) (capabilities : MCPServerCapabilities) (now : string)
    (db : AgentDatabase) : Result MCPServer * AgentDatabase :=
  let conn := _get_connection db in
  let t := tables db in
  match keep (server_has_id sid) (mcp_servers t) with
  | _ :: _ => (Raise (IntegrityError "UNIQUE constraint failed: mcp_servers.id"), db)
  | [] =>
      let row := {| srv_id := sid; srv_type := stype;
                    srv_description := description;
                    srv_config := json_dumps config;
                    srv_created_at := now;
                    srv_last_verified := Some now;
                    srv_status := Some "active" |} in
      let t' := {| mcp_servers := mcp_servers t ++ [row];
                   mcp_tools := mcp_tools t ++ map (tool_row sid) (tools capabilities);
                   mcp_resources :=
                     mcp_resources t ++ map (resource_row sid) (resources capabilities);
                   mcp_prompts :=
                     mcp_prompts t ++ map (prompt_row sid) (prompts capabilities) |} in
      let conn' := add_changes (1 + length (tools capabilities)
                                + length (resources capabilities)
                                + length (prompts capabilities)) conn in
      let db' := leave db conn' t' in
      (* return self.get_mcp_server(server_id): the row just written *)
      match get_mcp_server sid db' with
      | Some s => (Return s, db')
      | None => (Raise (OtherError "server row missing after insert"), db')
      end
  end.

(** [delete_mcp_server]: [return conn.total_changes > 0]. *)
Definition delete_mcp_server (sid : string) (db : AgentDatabase)
  : bool * AgentDatabase :=
  let conn := _get_connection db in
  let '(conn', t') := exec_delete_server sid conn (tables db) in
  ((0 <? total_changes conn')%nat, leave db conn' t').

(** [update_mcp_server_status]; [now] stands for the clock read when
    [last_verified] is [None]. *)
Definition update_mcp_server_status (sid status : string)
    (last_verified : option string) (now : string) (db : AgentDatabase)
  : bool * AgentDatabase :=
  let last_verified := match last_verified with Some lv => lv | None => now end in
  let conn := _get_connection db in
  let '(conn', t') := exec_update_status sid status last_verified conn (tables db) in
  ((0 <? total_changes conn')%nat, leave db conn' t').

(** One entry of the list [search_mcp_capabilities] returns. *)
Record SearchEntry := {
  e_server_id : string;
  e_server_type : string;
  e_server_description : option string;
  e_server_config : JSON;
  matched_tools : list MCPToolCapability;
  matched_resources : list MCPResourceCapability;
  matched_prompts : list MCPPromptCapability
}.

(** [WHERE s.status = 'active'{server_filter}] *)
Definition where_server (stype : option string) (s : ServerRow) : bool :=
  match srv_status s with Some st => st =? "active" | None => false end
  && (if truthy_str stype
      then match stype with Some ty => srv_type s =? ty | None => false end
      else true).

(** [f"%{query}%"] *)
Definition like_pattern (q : string) : string := "%" ++ q ++ "%".

(** [if query: ... AND (t.name LIKE ? OR t.description LIKE ?)] *)
Definition where_tool (query : option string) (r : ToolRow) : bool :=
  if truthy_str query then
    match query with
    | Some q => like_col (like_pattern q) (Some (tr_name r))
                || like_col (like_pattern q) (tr_description r)
    | None => false
    end
  else true.

Definition where_resource (query : option string) (r : ResourceRow) : bool :=
  if truthy_str query then
    match query with
    | Some q => like_col (like_pattern q) (Some (rr_name r))
                || like_col (like_pattern q) (rr_description r)
                || like_col (like_pattern q) (Some (rr_uri r))
    | None => false
    end
  else true.

Definition where_prompt (query : option string) (r : PromptRow) : bool :=
  if truthy_str query then
    match query with
    | Some q => like_col (like_pattern q) (Some (pr_name r))
                || like_col (like_pattern q) (pr_description r)
    | None => false
    end
  else true.

(** [SELECT DISTINCT s.id FROM mcp_servers s JOIN <kind> c ON s.id =
    c.server_id WHERE ... LIMIT ?], as a nested loop over the two tables. *)
Definition select_server_ids {Row} (owner : Row -> string)
    (where_row : Row -> bool) (stype : option string) (lim : Z)
    (servers : list ServerRow) (rows : list Row) : list string :=
  limit lim
    (distinct
       (flat_map
          (fun s =>
             flat_map
               (fun c =>
                  if (srv_id s =? owner c) && where_server stype s && where_row c
                  then [srv_id s] else [])
               rows)
          servers)).

(** [query.lower() in (field or '').lower()] *)
Definition field_matches (q : string) (field : option string) : bool :=
  contains (lower q) (lower (or_empty field)).

Definition filter_tools (query : option string) (l : list MCPToolCapability) :=
  if truthy_str query then
    match query with
    | Some q => List.filter (fun t => field_matches q (Some (tool_name t))
                                      || field_matches q (tool_description t)) l
    | None => l
    end
  else l.

Definition filter_resources (query : option string) (l : list MCPResourceCapability) :=
  if truthy_str query then
    match query with
    | Some q => List.filter (fun r => field_matches q (Some (res_name r))
                                      || field_matches q (res_description r)
                                      || field_matches q (Some (res_uri r))) l
    | None => l
    end
  else l.

Definition filter_prompts (query : option string) (l : list MCPPromptCapability) :=
  if truthy_str query then
    match query with
    | Some q => List.filter (fun p => field_matches q (Some (prompt_name p))
                                      || field_matches q (prompt_description p)) l
    | None => l
    end
  else l.

Definition new_entry (server : MCPServer) (mt : list MCPToolCapability)
    (mr : list MCPResourceCapability) (mp : list MCPPromptCapability) : SearchEntry :=
  {| e_server_id := server_id server;
     e_server_type := server_type server;
     e_server_description := server_description server;
     e_server_config := server_config server;
     matched_tools := mt; matched_resources := mr; matched_prompts := mp |}.

(** [existing = next((r for r in results if r['server_id'] == sid), None)]
    followed by an assignment into [existing]: the first entry of [results]
    with that id is updated in place. *)
Fixpoint update_existing (sid : string) (upd : SearchEntry -> SearchEntry)
    (results : list SearchEntry) : option (list SearchEntry) :=
  match results with
  | [] => None
  | r :: rest =>
      if e_server_id r =? sid then Some (upd r :: rest)
      else option_map (cons r) (update_existing sid upd rest)
  end.

Definition set_matched_resources (mr : list MCPResourceCapability) (r : SearchEntry) :=
  {| e_server_id := e_server_id r; e_server_type := e_server_type r;
     e_server_description := e_server_description r;
     e_server_config := e_server_config r;
     matched_tools := matched_tools r; matched_resources := mr;
     matched_prompts := matched_prompts r |}.

Definition set_matched_prompts (mp : list MCPPromptCapability) (r : SearchEntry) :=
  {| e_server_id := e_server_id r; e_server_type := e_server_type r;
     e_server_description := e_server_description r;
     e_server_config := e_server_config r;
     matched_tools := matched_tools r; matched_resources := matched_resources r;
     matched_prompts := mp |}.

(** [not capability_type or capability_type == kind] *)
Definition kind_selected (capability_type : option string) (kind : string) : bool :=
  negb (truthy_str capability_type)
  || match capability_type with Some k => k =? kind | None => false end.

(** The three loops of [search_mcp_capabilities], each over the rows its
    query returned. *)
Definition search_tools (query : option string) (db : AgentDatabase)
    (tool_rows : list string) (results : list SearchEntry) : list SearchEntry :=
  fold_left
    (fun results sid =>
       match get_mcp_server sid db with
       | Some server =>
           (results ++ [new_entry server
                          (filter_tools query (tools (server_capabilities server))) [] []])%list
       | None => results
       end)
    tool_rows results.

Definition search_resources (query : option string) (db : AgentDatabase)
    (resource_rows : list string) (results : list SearchEntry) : list SearchEntry :=
  fold_left
    (fun results sid =>
       match get_mcp_server sid db with
       | Some server =>
           let mr := filter_resources query (resources (server_capabilities server)) in
           match update_existing (server_id server) (set_matched_resources mr) results with
           | Some results' => results'
           | None => (results ++ [new_entry server [] mr []])%list
           end
       | None => results
       end)
    resource_rows results.

Definition search_prompts (query : option string) (db : AgentDatabase)
    (prompt_rows : list string) (results : list SearchEntry) : list SearchEntry :=
  fold_left
    (fun results sid =>
       match get_mcp_server sid db with
       | Some server =>
           let mp := filter_prompts query (prompts (server_capabilities server)) in
           match update_existing (server_id server) (set_matched_prompts mp) results with
           | Some results' => results'
           | None => (results ++ [new_entry server [] [] mp])%list
           end
       | None => results
       end)
    prompt_rows results.

Definition search_mcp_capabilities (query capability_type stype : option string)
    (lim : Z) (db : AgentDatabase) : list SearchEntry :=
  let t := tables db in
  let results := [] in
  let results :=
    if kind_selected capability_type "tool" then
      search_tools query db
        (select_server_ids tr_server_id (where_tool query) stype lim
           (mcp_servers t) (mcp_tools t))
        results
    else results in
  let results :=
    if kind_selected capability_type "resource" then
      search_resources query db
        (select_server_ids rr_server_id (where_resource query) stype lim
           (mcp_servers t) (mcp_resources t))
        results
    else results in
  let results :=
    if kind_selected capability_type "prompt" then
      search_prompts query db
        (select_server_ids pr_server_id (where_prompt query) stype lim
           (mcp_servers t) (mcp_prompts t))
        results
    else results in
  slice_to lim results.

End Database.

(* ===================================================================== *)
(** ** mcp_client.py *)
(* ===================================================================== *)

Module Client.
Import Py Models.

(** The objects in the results of the SDK's list calls, through the
    attributes the client reads. *)
Record Tool := {
  t_name : string;
  t_description : option string;
  t_inputSchema : JSON
}.

Record Resource := {
  r_uri : string;
  r_name : string;
  r_description : option string;
  r_mimeType : option string
}.

Record PromptArgument := {
  a_name : string;
  a_description : option string;
  a_required : option bool
}.

Record Prompt := {
  p_name : string;
  p_description : option string;
  p_arguments : option (list PromptArgument)
}.

(** How the downstream server behaves during one discovery: the outcome
    of entering the transport context ([stdio_client] or
    [streamablehttp_client]), of entering the [ClientSession], of each MCP
    request, and of leaving the two contexts. *)
Record Server := {
  transport_enter : Result unit;
  session_enter : Result unit;
  initialize : Result unit;
  list_tools : Result (list Tool);
  list_resources : Result (list Resource);
  list_prompts : Result (list Prompt);
  session_exit : Result unit;
  transport_exit : Result unit
}.

Definition opt_str (o : option string) : JSON :=
  match o with Some s => JStr s | None => JNull end.

Definition opt_bool (o : option bool) : JSON :=
  match o with Some b => JBool b | None => JNull end.

Definition tool_dict (tool : Tool) : MCPToolCapability :=
  {| tool_name := t_name tool;
     tool_description := t_description tool;
     tool_inputSchema := Some (t_inputSchema tool) |}.

Definition resource_dict (resource : Resource) : MCPResourceCapability :=
  {| res_uri := r_uri resource;
     res_name := r_name resource;
     res_description := r_description resource;
     res_mimeType := r_mimeType resource |}.

Definition argument_dict (arg : PromptArgument) : JSON :=
  JObj [("name", JStr (a_name arg));
        ("description", opt_str (a_description arg));
        ("required", opt_bool (a_required arg))].

(** The inner comprehension iterates [prompt.arguments]; iterating [None]
    raises. *)
Definition prompt_dict (prompt : Prompt) : Result MCPPromptCapability :=
  match p_arguments prompt with
  | None => Raise (TypeError "'NoneType' object is not iterable")
  | Some args =>
      Return {| prompt_name := p_name prompt;
                prompt_description := p_description prompt;
                prompt_arguments := Some (JArr (map argument_dict args)) |}
  end.

Fixpoint prompt_dicts (l : list Prompt) : Result (list MCPPromptCapability) :=
  match l with
  | [] => Return []
  | p :: l' =>
      match prompt_dict p with
      | Raise e => Raise e
      | Return d =>
          match prompt_dicts l' with
          | Raise e => Raise e
          | Return ds => Return (d :: ds)
          end
      end
  end.

(** [x = []; try: x = convert(await call()) except Exception: pass] *)
Definition best_effort {A B} (call : Result A) (convert : A -> Result (list B))
  : list B :=
  match call with
  | Raise _ => []
  | Return a => match convert a with Raise _ => [] | Return l => l end
  end.

(** Leaving an [async with] block: [__aexit__] runs whatever the body did,
    and an exception it raises replaces the body's outcome. *)
Definition leaving {A} (aexit : Result unit) (body : Result A) : Result A :=
  match aexit with
  | Raise e => Raise e
  | Return _ => body
  end.

(** The two nested [async with] blocks, shared by the stdio and the http
    variant. *)
Definition discover_in_session (srv : Server) : Result MCPServerCapabilities :=
  match transport_enter srv with
  | Raise e => Raise e
  | Return _ =>
      leaving (transport_exit srv)
        match session_enter srv with
        | Raise e => Raise e
        | Return _ =>
            leaving (session_exit srv)
              match initialize srv with
              | Raise e => Raise e
              | Return _ =>
                  let tools := best_effort (list_tools srv)
                                 (fun l => Return (map tool_dict l)) in
                  let resources := best_effort (list_resources srv)
                                     (fun l => Return (map resource_dict l)) in
                  let prompts := best_effort (list_prompts srv) prompt_dicts in
                  Return {| tools := tools; resources := resources; prompts := prompts |}
              end
        end
  end.

Definition str (e : Exn) : string :=
  match e with
  | ValueError m | ConnectionError m | TypeError m | FileNotFoundError m
  | IntegrityError m | MCPClientError m | OtherError m => m
  | KeyError k => "'" ++ k ++ "'"
  | TimeoutError => ""
  end.

Definition config_get (key : string) (config : JSON) : option JSON :=
  match config with JObj d => dict_get key d | _ => None end.

Definition _discover_stdio_capabilities (config : JSON) (srv : Server)
  : Result MCPServerCapabilities :=
  let command := config_get "command" config in
  if negb (truthy_opt command) then Raise (MCPClientError "stdio server requires 'command'")
  else
    match discover_in_session srv with
    | Raise (FileNotFoundError _) =>
        Raise (MCPClientError
                 ("Command not found: "
                  ++ match command with Some (JStr c) => c | _ => "" end))
    | Raise (MCPClientError m) => Raise (MCPClientError m)
    | Raise e => Raise (MCPClientError ("Failed to connect to stdio server: " ++ str e))
    | Return caps => Return caps
    end.

Definition _discover_http_capabilities (config : JSON) (srv : Server)
  : Result MCPServerCapabilities :=
  let url := config_get "url" config in
  if negb (truthy_opt url) then Raise (MCPClientError "http/sse server requires 'url'")
  else
    match discover_in_session srv with
    | Raise (MCPClientError m) => Raise (MCPClientError m)
    | Raise e => Raise (MCPClientError ("Failed to connect to HTTP server: " ++ str e))
    | Return caps => Return caps
    end.

(** [MCPClient(server_type, config).discover_capabilities()] *)
Definition discover_capabilities (server_type : string) (config : JSON) (srv : Server)
  : Result MCPServerCapabilities :=
  if server_type =? "stdio" then _discover_stdio_capabilities config srv
  else if (server_type =? "http") || (server_type =? "sse")
  then _discover_http_capabilities config srv
  else Raise (MCPClientError ("Unsupported server type: " ++ server_type)).

End Client.

(* ===================================================================== *)
(** ** mcp_connection_manager.py *)
(* ===================================================================== *)

Module Manager.
Import Py Models Database.

(** [MCPConnection].  [session], [client_context] and [session_context]
    hold the identity of the SDK object they refer to; a context field is
    [None] when the Python attribute is falsy. *)
Record MCPConnection := {
  conn_server_id : string;
  conn_server_type : string;
  conn_config : JSON;
  session : nat;
  client_context : option nat;
  session_context : option nat;
  connected_at : Z;
  last_activity : Z;
  request_count : nat;
  is_healthy : bool;
  error_message : option string
}.

(** Calls that leave the manager, and the error lines it logs, in the
    order they happen. *)
Inductive Event : Type :=
| ClientEnter (sid : string) (ctx : nat)   (* client_context.__aenter__() *)
| SessionEnter (sid : string) (ctx : nat)  (* session_context.__aenter__() *)
| SessionInitialize (sid : string) (ctx : nat)
| SessionExit (ctx : nat)                  (* session_context.__aexit__(None, None, None) *)
| ClientExit (ctx : nat)                   (* client_context.__aexit__(None, None, None) *)
| LogFailedToConnect (sid : string)
| LogErrorClosing (ctx : nat).

(** The manager together with what it has done so far: [connections] and
    [_locks] are the two dictionaries of [MCPConnectionManager] (a lock is
    [true] while held), [log] the events so far, [next_object] the next
    unused object identity. *)
Record State := {
  connections : gmap string MCPConnection;
  _locks : gmap string bool;
  log : list Event;
  next_object : nat
}.

(** What the outside world answers while one call runs. *)
Inductive OpenOutcome : Type :=
| OpenOk
| TransportFails (e : Exn)
| SessionFails (e : Exn)
| InitializeFails (e : Exn).

Record Env := {
  clock : Z;                    (* datetime.now(timezone.utc) *)
  open_outcome : OpenOutcome;   (* of the transport/session open *)
  aexit_raises : nat -> bool    (* does __aexit__ of this context raise? *)
}.

Definition set_connections (f : gmap string MCPConnection -> gmap string MCPConnection)
    (st : State) : State :=
  {| connections := f (connections st); _locks := _locks st;
     log := log st; next_object := next_object st |}.

Definition set_locks (f : gmap string bool -> gmap string bool) (st : State) : State :=
  {| connections := connections st; _locks := f (_locks st);
     log := log st; next_object := next_object st |}.

Definition emit (evs : list Event) (st : State) : State :=
  {| connections := connections st; _locks := _locks st;
     log := (log st ++ evs)%list; next_object := next_object st |}.

Definition allocate (n : nat) (st : State) : State :=
  {| connections := connections st; _locks := _locks st;
     log := log st; next_object := next_object st + n |}.

(** [MCPConnection.update_activity] *)
Definition update_activity (now : Z) (conn : MCPConnection) : MCPConnection :=
  {| conn_server_id := conn_server_id conn;
     conn_server_type := conn_server_type conn;
     conn_config := conn_config conn;
     session := session conn;
     client_context := client_context conn;
     session_context := session_context conn;
     connected_at := connected_at conn;
     last_activity := now;
     request_count := request_count conn + 1;
     is_healthy := is_healthy conn;
     error_message := error_message conn |}.

(** The pooled object is updated where it lives, and handed to the
    caller. *)
Definition touch (env : Env) (sid : string) (conn : MCPConnection) (st : State)
  : MCPConnection * State :=
  let conn' := update_activity (clock env) conn in
  (conn', set_connections (insert sid conn') st).

(** [_get_lock]: the lock of [sid], created unlocked on first use. *)
Definition _get_lock (sid : string) (st : State) : State :=
  match _locks st !! sid with
  | Some _ => st
  | None => set_locks (insert sid false) st
  end.

Definition locked (sid : string) (st : State) : bool :=
  match _locks st !! sid with Some b => b | None => false end.

Definition acquire (sid : string) (st : State) : State := set_locks (insert sid true) st.
Definition release (sid : string) (st : State) : State := set_locks (insert sid false) st.

(** The two guarded [__aexit__] calls of [_close_connection], in program
    order; an exception from either is logged and swallowed. *)
Definition exit_session (env : Env) (conn : MCPConnection) : list Event :=
  match session_context conn with
  | Some ctx => SessionExit ctx :: (if aexit_raises env ctx then [LogErrorClosing ctx] else [])
  | None => []
  end.

Definition exit_client (env : Env) (conn : MCPConnection) : list Event :=
  match client_context conn with
  | Some ctx => ClientExit ctx :: (if aexit_raises env ctx then [LogErrorClosing ctx] else [])
  | None => []
  end.

Definition teardown (env : Env) (conn : MCPConnection) : list Event :=
  (exit_session env conn ++ exit_client env conn)%list.

(** [_close_connection], run from its guard to the [del] with no other
    task in between.  The two [__aexit__] calls are awaited, so another
    task can run before the [del]; that interleaving is the [Closing] state
    of the callers' model below. *)
Definition _close_connection (env : Env) (sid : string) (st : State) : State :=
  match connections st !! sid with
  | None => st
  | Some conn => set_connections (delete sid) (emit (teardown env conn) st)
  end.

(** [close_all_connections]: over a snapshot of the keys. *)
Definition close_all_connections (env : Env) (st : State) : State :=
  fold_left (fun st sid => _close_connection env sid st)
            (map fst (map_to_list (connections st))) st.

Definition config_get (key : string) (config : JSON) : option JSON :=
  match config with JObj d => dict_get key d | _ => None end.

(** The key [_create_stdio_connection] / [_create_http_connection] index
    the config with, by server type. *)
Definition required_key (stype : string) : option string :=
  if stype =? "stdio" then Some "command"
  else if (stype =? "http") || (stype =? "sse") then Some "url"
  else None.

Definition connect_error (sid detail : string) (st : State)
  : Result MCPConnection * State :=
  (Raise (ConnectionError ("Failed to connect to server: " ++ detail)),
   emit [LogFailedToConnect sid] st).

(** [_create_connection] up to its first suspension: the repository
    lookup, the dispatch on the server type and the config lookup.  It
    ends by calling [client_context.__aenter__()]. *)
Definition begin_open (sid : string) (db : AgentDatabase) (st : State)
  : (Result MCPConnection + MCPServer * nat) * State :=
  match get_mcp_server sid db with
  | None => (inl (Raise (ValueError ("Server not found: " ++ sid))), st)
  | Some server =>
      match required_key (server_type server) with
      | None =>
          let '(r, st') := connect_error sid
                             ("Unsupported server type: " ++ server_type server) st in
          (inl r, st')
      | Some key =>
          match config_get key (server_config server) with
          | None => let '(r, st') := connect_error sid ("'" ++ key ++ "'") st in (inl r, st')
          | Some _ =>
              let ctx := next_object st in
              (inr (server, ctx), emit [ClientEnter sid ctx] (allocate 1 st))
          end
      end
  end.

Definition new_connection (sid : string) (server : MCPServer) (now : Z)
    (client_ctx session_ctx : nat) : MCPConnection :=
  {| conn_server_id := sid;
     conn_server_type := server_type server;
     conn_config := server_config server;
     session := session_ctx;
     client_context := Some client_ctx;
     session_context := Some session_ctx;
     connected_at := now;
     last_activity := now;
     request_count := 0;
     is_healthy := true;
     error_message := None |}.

(** The rest of [_create_connection], once [client_context.__aenter__()]
    has been answered: the session context is entered ([__aenter__] returns
    the session itself), the session initialised, the connection stored. *)
Definition finish_open (env : Env) (sid : string) (server : MCPServer)
    (client_ctx : nat) (st : State) : Result MCPConnection * State :=
  match open_outcome env with
  | TransportFails e => connect_error sid (Client.str e) st
  | SessionFails e =>
      connect_error sid (Client.str e)
        (emit [SessionEnter sid (next_object st)] (allocate 1 st))
  | InitializeFails e =>
      connect_error sid (Client.str e)
        (emit [SessionEnter sid (next_object st);
               SessionInitialize sid (next_object st)] (allocate 1 st))
  | OpenOk =>
      let session_ctx := next_object st in
      let conn := new_connection sid server (clock env) client_ctx session_ctx in
      (Return conn,
       set_connections (insert sid conn)
         (emit [SessionEnter sid session_ctx; SessionInitialize sid session_ctx]
            (allocate 1 st)))
  end.

(** [_create_connection] *)
Definition _create_connection (env : Env) (db : AgentDatabase) (sid : string)
    (st : State) : Result MCPConnection * State :=
  match begin_open sid db st with
  | (inl r, st') => (r, st')
  | (inr (server, ctx), st') => finish_open env sid server ctx st'
  end.

(** The body of [async with lock:] in [get_connection], run in one go. *)
Definition under_lock (env : Env) (db : AgentDatabase) (sid : string) (st : State)
  : Result MCPConnection * State :=
  match connections st !! sid with
  | Some conn => let '(conn', st') := touch env sid conn st in (Return conn', st')
  | None => _create_connection env db sid st
  end.

(** [get_connection] run from start to end with no other task in between
    (the per-server lock is free when it is reached). *)
Definition get_connection (env : Env) (db : AgentDatabase) (sid : string) (st : State)
  : Result MCPConnection * State :=
  let fall_through st :=
    let '(r, st') := under_lock env db sid (acquire sid (_get_lock sid st)) in
    (r, release sid st') in
  match connections st !! sid with
  | Some conn =>
      if is_healthy conn then
        let '(conn', st') := touch env sid conn st in (Return conn', st')
      else fall_through (_close_connection env sid st)
  | None => fall_through st
  end.

End Manager.

(* ===================================================================== *)
(** ** Concurrent callers of get_connection *)
(* ===================================================================== *)

(** The event loop runs one task at a time and switches task only where the
  running one suspends.  In [get_connection] these places are: the
  [__aexit__] calls inside [_close_connection], [lock.acquire()] when the
  lock is held, and the awaits of the open ([__aenter__] of the two
  contexts and [session.initialize()]).  [update_activity] has no await in
  its body, so awaiting it does not suspend.  The awaits of the open are
  taken as one suspension, the task touching no shared state between
  them, and likewise the two [__aexit__] calls. *)

Module Tasks.
Import Py Models Database Manager.

(** Where a caller of [get_connection(sid)] stands. *)
Inductive Pc : Type :=
| Ready                                        (* not started *)
| Closing                                      (* inside _close_connection, before the del *)
| Waiting                                      (* inside lock.acquire() *)
| Opening (server : MCPServer) (client_ctx : nat)  (* holds the lock, inside the open *)
| Finished (r : Result MCPConnection).

(** From the moment the lock is taken to the next suspension. *)
Definition enter_lock (env : Env) (db : AgentDatabase) (sid : string) (st : State)
  : Pc * State :=
  let st := acquire sid st in
  match connections st !! sid with
  | Some conn =>
      let '(conn', st') := touch env sid conn st in
      (Finished (Return conn'), release sid st')
  | None =>
      match begin_open sid db st with
      | (inl r, st') => (Finished r, release sid st')
      | (inr (server, ctx), st') => (Opening server ctx, st')
      end
  end.

(** [lock = self._get_lock(server_id); async with lock:] *)
Definition reach_lock (env : Env) (db : AgentDatabase) (sid : string) (st : State)
  : Pc * State :=
  let st := _get_lock sid st in
  if locked sid st then (Waiting, st) else enter_lock env db sid st.

(** One task runs from where it stands to its next suspension, or to its
    end.  [None]: the task cannot run now. *)
Definition task_step (env : Env) (db : AgentDatabase) (sid : string)
    (pc : Pc) (st : State) : option (Pc * State) :=
  match pc with
  | Ready =>
      match connections st !! sid with
      | Some conn =>
          if is_healthy conn then
            let '(conn', st') := touch env sid conn st in
            Some (Finished (Return conn'), st')
          else Some (Closing, emit (teardown env conn) st)
      | None => Some (reach_lock env db sid st)
      end
  | Closing =>
      (* finally: del self.connections[server_id] *)
      match connections st !! sid with
      | Some _ => Some (reach_lock env db sid (set_connections (delete sid) st))
      | None => Some (Finished (Raise (KeyError sid)), st)
      end
  | Waiting =>
      if locked sid st then None else Some (enter_lock env db sid st)
  | Opening server ctx =>
      let '(r, st') := finish_open env sid server ctx st in
      Some (Finished r, release sid st')
  | Finished _ => None
  end.

(** The manager and the callers of [get_connection(sid)] in flight. *)
Record Sys := {
  manager : State;
  tasks : list Pc
}.

(** The scheduler picks a task that can run; the outside world picks what
    it answers. *)
Inductive step (db : AgentDatabase) (sid : string) : Sys -> Sys -> Prop :=
| step_task (sys : Sys) (i : nat) (env : Env) (pc pc' : Pc) (st' : State) :
    tasks sys !! i = Some pc ->
    task_step env db sid pc (manager sys) = Some (pc', st') ->
    step db sid sys {| manager := st'; tasks := <[i := pc']> (tasks sys) |}.

(** The same, as a function: run task [i] under [env]. *)
Definition run_task (db : AgentDatabase) (sid : string) (i : nat) (env : Env)
    (sys : Sys) : option Sys :=
  match tasks sys !! i with
  | None => None
  | Some pc =>
      match task_step env db sid pc (manager sys) with
      | None => None
      | Some (pc', st') => Some {| manager := st'; tasks := <[i := pc']> (tasks sys) |}
      end
  end.

Fixpoint run_schedule (db : AgentDatabase) (sid : string)
    (schedule : list (nat * Env)) (sys : Sys) : option Sys :=
  match schedule with
  | [] => Some sys
  | (i, env) :: rest =>
      match run_task db sid i env sys with
      | None => None
      | Some sys' => run_schedule db sid rest sys'
      end
  end.

(** One caller run to its end with nobody else around, under the same
    [env] at every resumption. *)
Fixpoint run_alone (fuel : nat) (env : Env) (db : AgentDatabase) (sid : string)
    (pc : Pc) (st : State) : option (Result MCPConnection * State) :=
  match pc with
  | Finished r => Some (r, st)
  | _ =>
      match fuel with
      | 0 => None
      | S fuel' =>
          match task_step env db sid pc st with
          | Some (pc', st') => run_alone fuel' env db sid pc' st'
          | None => None
          end
      end
  end.

(** [n] callers about to call [get_connection(sid)] on a manager that has
    done nothing yet. *)
Definition start (st : State) (n : nat) : Sys :=
  {| manager := st; tasks := replicate n Ready |}.

(** Counting in the log. *)
Definition is_open_of (sid : string) (e : Event) : bool :=
  match e with ClientEnter s _ => s =? sid | _ => false end.

Definition is_failure_of (sid : string) (e : Event) : bool :=
  match e with LogFailedToConnect s => s =? sid | _ => false end.

Definition opens (sid : string) (st : State) : nat :=
  length (List.filter (is_open_of sid) (log st)).

Definition failures (sid : string) (st : State) : nat :=
  length (List.filter (is_failure_of sid) (log st)).

Definition is_opening (pc : Pc) : bool :=
  match pc with Opening _ _ => true | _ => false end.

Definition in_flight (sys : Sys) : nat :=
  length (List.filter is_opening (tasks sys)).

End Tasks.

(* ===================================================================== *)
(** ** HTTP handlers *)
(* ===================================================================== *)

Module Http.

(** What a route does: return a body with the route's success status, or
    raise [HTTPException]. *)
Inductive Response (A : Type) : Type :=
| Respond (status_code : Z) (body : A)
| HTTPException (status_code : Z) (detail : string).
Arguments Respond {A} status_code body.
Arguments HTTPException {A} status_code detail.

End Http.

(* ===================================================================== *)
(** ** mcp_gateway_routes.py *)
(* ===================================================================== *)

Module Gateway.
Import Py Models Database Manager Http.

(** What a pooled [ClientSession] answers; list results are given as the
    already dumped JSON arrays. *)
Record Session := {
  list_tools : Result JSON;
  list_resources : Result JSON;
  list_prompts : Result JSON;
  call_tool : JSON -> JSON -> Result (JSON * bool);
  read_resource : JSON -> Result JSON;
  get_prompt : JSON -> JSON -> Result JSON
}.

Definition rpc_result (id : option RequestId) (result : JSON) : JSONRPCResponse :=
  {| resp_jsonrpc := "2.0"; resp_id := id;
     resp_result := Some result; resp_error := None |}.

Definition rpc_error (id : option RequestId) (code : Z) (message : string)
  : JSONRPCResponse :=
  {| resp_jsonrpc := "2.0"; resp_id := id; resp_result := None;
     resp_error := Some {| err_code := code; err_message := message;
                           err_data := None |} |}.

(** [message.params or {}] *)
Definition params_or_empty (params : option (list (string * JSON)))
  : list (string * JSON) :=
  match params with Some (b :: d) => b :: d | _ => [] end.

(** [params.get("arguments", {})] *)
Definition get_arguments (params : list (string * JSON)) : JSON :=
  match dict_get "arguments" params with Some a => a | None => JObj [] end.

(** The [if]/[elif] chain on [message.method]. *)
Definition dispatch (s : Session) (message : JSONRPCRequest) : Result JSONRPCResponse :=
  let method := req_method message in
  let id := req_id message in
  if method =? "tools/list" then
    match list_tools s with
    | Raise e => Raise e
    | Return l => Return (rpc_result id (JObj [("tools", l)]))
    end
  else if method =? "resources/list" then
    match list_resources s with
    | Raise e => Raise e
    | Return l => Return (rpc_result id (JObj [("resources", l)]))
    end
  else if method =? "prompts/list" then
    match list_prompts s with
    | Raise e => Raise e
    | Return l => Return (rpc_result id (JObj [("prompts", l)]))
    end
  else if method =? "tools/call" then
    let params := params_or_empty (req_params message) in
    let tool_name := dict_get "name" params in
    let arguments := get_arguments params in
    if negb (truthy_opt tool_name) then
      Return (rpc_error id (-32602) "Missing required parameter: name")
    else
      match call_tool s (default JNull tool_name) arguments with
      | Raise e => Raise e
      | Return (content, isError) =>
          Return (rpc_result id (JObj [("content", content); ("isError", JBool isError)]))
      end
  else if method =? "resources/read" then
    let params := params_or_empty (req_params message) in
    let uri := dict_get "uri" params in
    if negb (truthy_opt uri) then
      Return (rpc_error id (-32602) "Missing required parameter: uri")
    else
      match read_resource s (default JNull uri) with
      | Raise e => Raise e
      | Return contents => Return (rpc_result id (JObj [("contents", contents)]))
      end
  else if method =? "prompts/get" then
    let params := params_or_empty (req_params message) in
    let name := dict_get "name" params in
    let arguments := get_arguments params in
    if negb (truthy_opt name) then
      Return (rpc_error id (-32602) "Missing required parameter: name")
    else
      match get_prompt s (default JNull name) arguments with
      | Raise e => Raise e
      | Return messages => Return (rpc_result id (JObj [("messages", messages)]))
      end
  else
    Return (rpc_error id (-32601) ("Method not found: " ++ method)).

(** The [except] clauses of the route. *)
Definition http_error {A} (e : Exn) : Response A :=
  match e with
  | ValueError m => HTTPException 404 m
  | ConnectionError m => HTTPException 503 ("Server unavailable: " ++ m)
  | TimeoutError => HTTPException 504 "Server timeout"
  | e => HTTPException 500 ("Internal server error: " ++ Client.str e)
  end.

(** [gateway_message_proxy]; [sessions] gives the behaviour of each session
    object. *)
Definition gateway_message_proxy (env : Env) (db : AgentDatabase)
    (sessions : nat -> Session) (server_id : string) (message : JSONRPCRequest)
    (st : State) : Response JSONRPCResponse * State :=
  let '(got, st') := get_connection env db server_id st in
  (match got with
   | Raise e => http_error e
   | Return conn =>
       match dispatch (sessions (session conn)) message with
       | Raise e => http_error e
       | Return r => Respond 200 r
       end
   end, st').

End Gateway.

(* ===================================================================== *)
(** ** main.py: the registry routes over MCP servers *)
(* ===================================================================== *)

Module Main.
Import Py Models Database Http.

(** The module-level [db] and [connection_manager]. *)
Record App := {
  db : AgentDatabase;
  connection_manager : Manager.State
}.

Definition with_db (app : App) (db' : AgentDatabase) : App :=
  {| db := db'; connection_manager := connection_manager app |}.

(** [DELETE /mcp/servers/{server_id}] *)
Definition delete_mcp_server (server_id : string) (app : App)
  : Response unit * App :=
  let '(success, db') := Database.delete_mcp_server server_id (db app) in
  if negb success then (HTTPException 404 "MCP server not found", with_db app db')
  else (Respond 204 tt, with_db app db').

Record Verified := {
  v_server_id : string;
  v_status : string;
  v_message : string;
  v_capabilities : MCPServerCapabilities
}.

(** [POST /mcp/servers/{server_id}/verify]; [srv] is how the server
    behaves during the rediscovery, [now] the clock. *)
Definition verify_mcp_server (server_id : string) (srv : Client.Server)
    (now : string) (app : App) : Response Verified * App :=
  match get_mcp_server server_id (db app) with
  | None => (HTTPException 404 "MCP server not found", app)
  | Some server =>
      match Client.discover_capabilities (server_type server) (server_config server) srv with
      | Return capabilities =>
          let '(_, db') := update_mcp_server_status server_id "active" None now (db app) in
          (Respond 200 {| v_server_id := server_id;
                          v_status := "active";
                          v_message := "Server is reachable and responding";
                          v_capabilities := capabilities |},
           with_db app db')
      | Raise (MCPClientError m) =>
          let '(_, db') := update_mcp_server_status server_id "error" None now (db app) in
          (HTTPException 503 ("Server verification failed: " ++ m), with_db app db')
      | Raise e => (HTTPException 500 (Client.str e), app)
      end
  end.

(** [POST /mcp/servers/register] once the request body is validated;
    [server_id] is the fresh [uuid4()]. *)
Definition register_mcp_server (server_id stype : string)
    (description : option string) (config : JSON) (srv : Client.Server)
    (now : string) (app : App) : Response MCPServer * App :=
  match Client.discover_capabilities stype config srv with
  | Raise e => (HTTPException 500 (Client.str e), app)
  | Return capabilities =>
      match insert_mcp_server server_id stype description config capabilities now (db app) with
      | (Return result, db') => (Respond 201 result, with_db app db')
      | (Raise e, db') =>
          (HTTPException 500 ("Failed to store MCP server: " ++ Client.str e),
           with_db app db')
      end
  end.

End Main.

(* ===================================================================== *)
(** ** Scenarios *)
(* ===================================================================== *)

(** Concrete registries, pools and servers used to run the code. *)

Module Scenario.
Import Py Models Database.

Definition t0 : string := "2026-01-01T00:00:00+00:00".
Definition t1 : string := "2026-01-02T00:00:00+00:00".

(** The mock of the round-trip scenario: one tool [echo]. *)
Definition echo_tool : MCPToolCapability :=
  {| tool_name := "echo";
     tool_description := Some "Echo";
     tool_inputSchema := Some (JObj [("type", JStr "object")]) |}.

Definition echo_caps : MCPServerCapabilities :=
  {| tools := [echo_tool]; resources := []; prompts := [] |}.

Definition echo_config : JSON :=
  JObj [("command", JStr "echo-mcp"); ("args", JArr []); ("env", JObj [])].

(** A registry file holding that one server under the id [s1]. *)
Definition echo_registry : AgentDatabase :=
  (insert_mcp_server "s1" "stdio" None echo_config echo_caps t0
     (init "agent_reg.db")).2.

(** The same registration on an in-memory database. *)
Definition echo_registry_in_memory : AgentDatabase :=
  (insert_mcp_server "s1" "stdio" None echo_config echo_caps t0
     (init ":memory:")).2.

Definition calm : Manager.Env :=
  {| Manager.clock := 0; Manager.open_outcome := Manager.OpenOk;
     Manager.aexit_raises := fun _ => false |}.

Definition unreachable : Manager.Env :=
  {| Manager.clock := 0;
     Manager.open_outcome := Manager.TransportFails (OtherError "connection refused");
     Manager.aexit_raises := fun _ => false |}.

Definition idle_manager : Manager.State :=
  {| Manager.connections := ∅; Manager._locks := ∅;
     Manager.log := []; Manager.next_object := 0 |}.

(** The pool after one gateway call to [s1]. *)
Definition echo_pool : Manager.State :=
  (Manager.get_connection calm echo_registry "s1" idle_manager).2.

Definition echo_app : Main.App :=
  {| Main.db := echo_registry; Main.connection_manager := echo_pool |}.

(** A downstream server that answers everything, with no capabilities. *)
Definition bare_server : Client.Server :=
  {| Client.transport_enter := Return tt;
     Client.session_enter := Return tt;
     Client.initialize := Return tt;
     Client.list_tools := Return [];
     Client.list_resources := Return [];
     Client.list_prompts := Return [];
     Client.session_exit := Return tt;
     Client.transport_exit := Return tt |}.


(** A tool whose schema is the empty object, and a prompt that takes no
    argument (discovery gives it the empty list). *)
Definition ping_tool : MCPToolCapability :=
  {| tool_name := "ping"; tool_description := None;
     tool_inputSchema := Some (JObj []) |}.

Definition hello_prompt : MCPPromptCapability :=
  {| prompt_name := "hello"; prompt_description := None;
     prompt_arguments := Some (JArr []) |}.

Definition ping_caps : MCPServerCapabilities :=
  {| tools := [ping_tool]; resources := []; prompts := [hello_prompt] |}.

(** A server that answers [tools/list] and [prompts/list] but errors on
    [resources/list]. *)
Definition no_resources_server : Client.Server :=
  {| Client.transport_enter := Return tt;
     Client.session_enter := Return tt;
     Client.initialize := Return tt;
     Client.list_tools :=
       Return [ {| Client.t_name := "echo"; Client.t_description := Some "Echo";
                   Client.t_inputSchema := JObj [("type", JStr "object")] |} ];
     Client.list_resources := Raise (OtherError "Method not found");
     Client.list_prompts := Return [];
     Client.session_exit := Return tt;
     Client.transport_exit := Return tt |}.

(** A pooled session whose every request fails. *)
Definition deaf_session : Gateway.Session :=
  {| Gateway.list_tools := Raise TimeoutError;
     Gateway.list_resources := Raise TimeoutError;
     Gateway.list_prompts := Raise TimeoutError;
     Gateway.call_tool := fun _ _ => Raise TimeoutError;
     Gateway.read_resource := fun _ => Raise TimeoutError;
     Gateway.get_prompt := fun _ _ => Raise TimeoutError |}.

(** [{"jsonrpc":"2.0","id":7,"method":"bogus/method"}] *)
Definition bogus_request : JSONRPCRequest :=
  {| req_jsonrpc := "2.0"; req_id := Some (IdInt 7);
     req_method := "bogus/method"; req_params := None |}.


(** The same two callers with the server up: caller 0 starts the open,
    caller 1 waits, the open succeeds, caller 1 gets the lock and finds the
    entry. *)
Definition two_callers_server_up : list (nat * Manager.Env) :=
  [(0, calm); (1, calm); (0, calm); (1, calm)].

(** The manager and the two callers once that schedule has run. *)
Definition after_two_callers : Tasks.Sys :=
  match Tasks.run_schedule echo_registry "s1" two_callers_server_up
          (Tasks.start idle_manager 2) with
  | Some sys => sys
  | None => Tasks.start idle_manager 2
  end.

End Scenario.

(* ===================================================================== *)
(** ** Vocabulary of the statements *)
(* ===================================================================== *)

Module Spec.
Import Py Models Database.

(** A stored optional JSON value survives [json.dumps(v) if v else None]
    when it is absent or truthy. *)
Definition survives (o : option JSON) : Prop :=
  match o with Some v => truthy v = true | None => True end.

Definition storable (caps : MCPServerCapabilities) : Prop :=
  Forall (fun t => survives (tool_inputSchema t)) (tools caps)
  /\ Forall (fun p => survives (prompt_arguments p)) (prompts caps).

(** No row of any table carries the id. *)
Definition unused (sid : string) (t : Tables) : Prop :=
  keep (server_has_id sid) (mcp_servers t) = []
  /\ keep (tool_of sid) (mcp_tools t) = []
  /\ keep (resource_of sid) (mcp_resources t) = []
  /\ keep (prompt_of sid) (mcp_prompts t) = [].

(** A server record with status and verification time replaced. *)
Definition reverified (status now : string) (s : MCPServer) : MCPServer :=
  {| server_id := server_id s;
     server_type := server_type s;
     server_description := server_description s;
     server_config := server_config s;
     server_created_at := server_created_at s;
     server_last_verified := Some now;
     server_status := Some status;
     server_capabilities := server_capabilities s |}.

(** The transport type and the config go together: a command for stdio,
    a url for http and sse. *)
Definition well_configured (stype : string) (config : JSON) : Prop :=
  (stype = "stdio" /\ truthy_opt (Client.config_get "command" config) = true)
  \/ ((stype = "http" \/ stype = "sse")
      /\ truthy_opt (Client.config_get "url" config) = true).

(** The same server with another answer to one of the list calls. *)
Definition with_list_tools (r : Result (list Client.Tool)) (srv : Client.Server)
  : Client.Server :=
  {| Client.transport_enter := Client.transport_enter srv;
     Client.session_enter := Client.session_enter srv;
     Client.initialize := Client.initialize srv;
     Client.list_tools := r;
     Client.list_resources := Client.list_resources srv;
     Client.list_prompts := Client.list_prompts srv;
     Client.session_exit := Client.session_exit srv;
     Client.transport_exit := Client.transport_exit srv |}.

Definition with_list_resources (r : Result (list Client.Resource)) (srv : Client.Server)
  : Client.Server :=
  {| Client.transport_enter := Client.transport_enter srv;
     Client.session_enter := Client.session_enter srv;
     Client.initialize := Client.initialize srv;
     Client.list_tools := Client.list_tools srv;
     Client.list_resources := r;
     Client.list_prompts := Client.list_prompts srv;
     Client.session_exit := Client.session_exit srv;
     Client.transport_exit := Client.transport_exit srv |}.

Definition with_list_prompts (r : Result (list Client.Prompt)) (srv : Client.Server)
  : Client.Server :=
  {| Client.transport_enter := Client.transport_enter srv;
     Client.session_enter := Client.session_enter srv;
     Client.initialize := Client.initialize srv;
     Client.list_tools := Client.list_tools srv;
     Client.list_resources := Client.list_resources srv;
     Client.list_prompts := r;
     Client.session_exit := Client.session_exit srv;
     Client.transport_exit := Client.transport_exit srv |}.

(** The six MCP methods the gateway forwards. *)
Definition supported_methods : list string :=
  ["tools/list"; "resources/list"; "prompts/list";
   "tools/call"; "resources/read"; "prompts/get"].

(** The parameter [key] of a JSON-RPC request, if it has one. *)
Definition param (key : string) (message : JSONRPCRequest) : option JSON :=
  match req_params message with
  | Some d => dict_get key d
  | None => None
  end.

(** A JSON-RPC error reply: the given id, the given code, no result. *)
Definition is_error_reply (id : option RequestId) (code : Z)
    (reply : Http.Response JSONRPCResponse) : Prop :=
  exists r e,
    reply = Http.Respond 200 r
    /\ resp_jsonrpc r = "2.0" /\ resp_id r = id /\ resp_result r = None
    /\ resp_error r = Some e /\ err_code e = code.

(** The query has no character that LIKE reads as a wildcard. *)
Fixpoint wildcard_free (q : string) : bool :=
  match q with
  | EmptyString => true
  | String c q' =>
      negb (Ascii.eqb c "%"%char) && negb (Ascii.eqb c "_"%char) && wildcard_free q'
  end.

(** [s] contains [q], case-insensitively. *)
Definition contains_ci (q s : string) : bool := contains (lower q) (lower s).

(** A tool whose name or description contains the query. *)
Definition tool_contains (q : string) (t : MCPToolCapability) : bool :=
  contains_ci q (tool_name t)
  || match tool_description t with Some d => contains_ci q d | None => false end.

(** [id] is the primary key of [mcp_servers]. *)
Definition primary_key (t : Tables) : Prop :=
  List.NoDup (map srv_id (mcp_servers t)).

(** Suspensions a caller may still go through before it ends. *)
Definition remaining (pc : Tasks.Pc) : nat :=
  match pc with
  | Tasks.Ready => 4
  | Tasks.Closing => 3
  | Tasks.Waiting => 2
  | Tasks.Opening _ _ => 1
  | Tasks.Finished _ => 0
  end.

Definition work_left (sys : Tasks.Sys) : nat :=
  list_sum (map remaining (Tasks.tasks sys)).

Definition is_finished (pc : Tasks.Pc) : bool :=
  match pc with Tasks.Finished _ => true | _ => false end.

(** The session object of the pool entry of [sid], if there is one. *)
Definition pooled_session (sid : string) (st : Manager.State) : option nat :=
  Manager.session <$> Manager.connections st !! sid.


Definition pooled (sid : string) (st : Manager.State) : nat :=
  match Manager.connections st !! sid with Some _ => 1 | None => 0 end.

(** A caller that has its connection holds the pooled session; no caller is
    inside [_close_connection]. *)
Definition task_ok (sid : string) (st : Manager.State) (pc : Tasks.Pc) : Prop :=
  match pc with
  | Tasks.Closing => False
  | Tasks.Finished (Return c) => pooled_session sid st = Some (Manager.session c)
  | _ => True
  end.

(** What holds of the callers of [get_connection(sid)] and the manager at
    every moment, counting opens and logged failures from [o0] and [f0]:
    the lock is held exactly while one caller is inside the open, at which
    time the pool has no entry for [sid]; every open is accounted for by a
    logged failure, the open in flight, or the pool entry; the entry is
    healthy. *)
Record single_flight (sid : string) (o0 f0 : nat) (sys : Tasks.Sys) : Prop := {
  sf_flight :
    Tasks.in_flight sys = if Manager.locked sid (Tasks.manager sys) then 1 else 0;
  sf_cold :
    Manager.locked sid (Tasks.manager sys) = true ->
    Manager.connections (Tasks.manager sys) !! sid = None;
  sf_count :
    Tasks.opens sid (Tasks.manager sys) + f0
    <= o0 + Tasks.failures sid (Tasks.manager sys)
       + Tasks.in_flight sys + pooled sid (Tasks.manager sys);
  sf_healthy :
    forall conn, Manager.connections (Tasks.manager sys) !! sid = Some conn ->
                 Manager.is_healthy conn = true;
  sf_tasks : Forall (task_ok sid (Tasks.manager sys)) (Tasks.tasks sys)
}.

End Spec.

(* ===================================================================== *)
(** ** database.py: the agents table *)
(* ===================================================================== *)

Module Agents.
Import Py Models Sqlite Database.

(** A row of [agents].  The TEXT column [agent_card] holds
    [json.dumps(agent_card)] of a dictionary and is represented by that
    dictionary; the generated columns [name] and [capabilities] are
    functions of it. *)
Record AgentRow := {
  ag_id : string;
  ag_card : list (string * JSON);
  ag_owner : option string;
  ag_created_at : string;
  ag_last_heartbeat : option string
}.

(** The database with its [agents] table. *)
Record AgentStore := {
  base : AgentDatabase;
  agents : list AgentRow
}.

Definition agent_has_id (aid : string) (r : AgentRow) : bool := ag_id r =? aid.

(** [d[k] = v] on a dictionary: an existing key keeps its place. *)
Fixpoint dict_set (k : string) (v : JSON) (d : list (string * JSON))
  : list (string * JSON) :=
  match d with
  | [] => [(k, v)]
  | (k', v') :: d' => if k' =? k then (k, v) :: d' else (k', v') :: dict_set k v d'
  end.

(** [d.update(other)] *)
Definition dict_update (other d : list (string * JSON)) : list (string * JSON) :=
  fold_left (fun d kv => dict_set (fst kv) (snd kv) d) other d.

Definition opt_str (o : option string) : JSON :=
  match o with Some s => JStr s | None => JNull end.

(** The four keys [get_agent] lays over the card. *)
Definition metadata_keys : list string :=
  ["id"; "owner"; "created_at"; "last_heartbeat"].

Definition metadata (r : AgentRow) : list (string * JSON) :=
  [("id", JStr (ag_id r)); ("owner", opt_str (ag_owner r));
   ("created_at", JStr (ag_created_at r));
   ("last_heartbeat", opt_str (ag_last_heartbeat r))].

(** [agent_data = json.loads(row['agent_card']); agent_data.update({...})] *)
Definition agent_data (r : AgentRow) : list (string * JSON) :=
  dict_update (metadata r) (ag_card r).

(** [get_agent] *)
Definition get_agent (aid : string) (s : AgentStore) : option (list (string * JSON)) :=
  match keep (agent_has_id aid) (agents s) with
  | [] => None
  | row :: _ => Some (agent_data row)
  end.

Definition leave_agents (s : AgentStore) (c : Connection) (rows : list AgentRow)
  : AgentStore :=
  {| base := leave (base s) c (tables (base s)); agents := rows |}.

(** [insert_agent]; [id] is the primary key of [agents]. *)
Definition insert_agent (aid : string) (agent_card : list (string * JSON))
    (owner : option string) (now : string) (s : AgentStore)
  : Result (list (string * JSON)) * AgentStore :=
  let conn := _get_connection (base s) in
  match keep (agent_has_id aid) (agents s) with
  | _ :: _ => (Raise (IntegrityError "UNIQUE constraint failed: agents.id"), s)
  | [] =>
      let row := {| ag_id := aid; ag_card := agent_card; ag_owner := owner;
                    ag_created_at := now; ag_last_heartbeat := Some now |} in
      let s' := leave_agents s (add_changes 1 conn) (agents s ++ [row]) in
      (* return self.get_agent(agent_id): the row just written *)
      match get_agent aid s' with
      | Some d => (Return d, s')
      | None => (Raise (OtherError "agent row missing after insert"), s')
      end
  end.

(** [UPDATE agents SET last_heartbeat = ? WHERE id = ?] and
    [return conn.total_changes > 0] *)
Definition update_heartbeat (aid now : string) (s : AgentStore) : bool * AgentStore :=
  let conn := _get_connection (base s) in
  let n := length (keep (agent_has_id aid) (agents s)) in
  let conn' := add_changes n conn in
  ((0 <? total_changes conn')%nat,
   leave_agents s conn'
     (map (fun r =>
             if agent_has_id aid r then
               {| ag_id := ag_id r; ag_card := ag_card r; ag_owner := ag_owner r;
                  ag_created_at := ag_created_at r; ag_last_heartbeat := Some now |}
             else r) (agents s))).

(** [DELETE FROM agents WHERE id = ?] and [return conn.total_changes > 0] *)
Definition delete_agent (aid : string) (s : AgentStore) : bool * AgentStore :=
  let conn := _get_connection (base s) in
  let n := length (keep (agent_has_id aid) (agents s)) in
  let conn' := add_changes n conn in
  ((0 <? total_changes conn')%nat,
   leave_agents s conn' (drop (agent_has_id aid) (agents s))).

(** [SELECT COUNT( * ) FROM agents] *)
Definition count_agents (s : AgentStore) : nat := length (agents s).

(** [{k: v for k, v in agent.items() if k not in [...]}] *)
Definition without_metadata (d : list (string * JSON)) : list (string * JSON) :=
  List.filter (fun kv => negb (existsb (String.eqb (fst kv)) metadata_keys)) d.

Section UpdateAgent.

(** Python's [str(value)] on the value stored under ["url"]. *)
Variable py_str : JSON -> string.

(** The loop over [updates.items()], on plain values (none has a
    [model_dump]). *)
Definition apply_updates (updates card : list (string * JSON)) : list (string * JSON) :=
  fold_left
    (fun card kv =>
       if fst kv =? "url" then dict_set (fst kv) (JStr (py_str (snd kv))) card
       else dict_set (fst kv) (snd kv) card)
    updates card.

(** [update_agent] *)
Definition update_agent (aid : string) (updates : list (string * JSON))
    (s : AgentStore) : bool * AgentStore :=
  match get_agent aid s with
  | None => (false, s)
  | Some agent =>
      let agent_card := apply_updates updates (without_metadata agent) in
      let conn := _get_connection (base s) in
      let n := length (keep (agent_has_id aid) (agents s)) in
      let conn' := add_changes n conn in
      ((0 <? total_changes conn')%nat,
       leave_agents s conn'
         (map (fun r =>
                 if agent_has_id aid r then
                   {| ag_id := ag_id r; ag_card := agent_card; ag_owner := ag_owner r;
                      ag_created_at := ag_created_at r;
                      ag_last_heartbeat := ag_last_heartbeat r |}
                 else r) (agents s)))
  end.

End UpdateAgent.

End Agents.

(* ===================================================================== *)
(** ** database.py: listing the servers *)
(* ===================================================================== *)

Module Catalog.
Import Py Models Sqlite Database.

(** [WHERE type = ? AND status = ?], each condition present only when its
    argument is truthy. *)
Definition where_listed (stype status : option string) (r : ServerRow) : bool :=
  (if truthy_str stype
   then match stype with Some ty => srv_type r =? ty | None => false end
   else true)
  && (if truthy_str status
      then match status, srv_status r with
           | Some st, Some st' => st' =? st
           | _, _ => false
           end
      else true).

(** [ORDER BY created_at DESC]: TEXT values compare byte by byte.  Rows with
    equal timestamps are left in rowid order. *)
Fixpoint insert_desc (r : ServerRow) (l : list ServerRow) : list ServerRow :=
  match l with
  | [] => [r]
  | x :: l' =>
      if String.leb (srv_created_at x) (srv_created_at r) then r :: x :: l'
      else x :: insert_desc r l'
  end.

Definition order_by_created_at_desc (l : list ServerRow) : list ServerRow :=
  fold_right insert_desc [] l.

(** [list_mcp_servers]: one [get_mcp_server] per selected id. *)
Definition list_mcp_servers (stype status : option string) (db : AgentDatabase)
  : list (option MCPServer) :=
  map (fun r => get_mcp_server (srv_id r) db)
      (order_by_created_at_desc
         (keep (where_listed stype status) (mcp_servers (tables db)))).

End Catalog.

(* ===================================================================== *)
(** ** mcp_connection_manager.py: health, status, idle cleanup *)
(* ===================================================================== *)

(** Times are counted in microseconds, the resolution of [datetime]; the
    probe sent by a health check and the line it logs are not entered in
    [log], which keeps to opens and closes. *)

Module Monitor.
Import Py Models Database Manager.

(** [ConnectionStatus] of mcp_gateway_models.py *)
Record ConnectionStatus := {
  cs_server_id : string;
  cs_status : string;
  cs_connected_at : option Z;
  cs_last_activity : option Z;
  cs_error_message : option string;
  cs_request_count : nat
}.

(** [MCPConnection.health_check]; [probe] is the outcome of
    [session.list_tools()] under its five-second timeout. *)
Definition conn_health_check (probe : Result unit) (conn : MCPConnection)
  : bool * MCPConnection :=
  match probe with
  | Return _ =>
      (true,
       {| conn_server_id := conn_server_id conn;
          conn_server_type := conn_server_type conn;
          conn_config := conn_config conn;
          session := session conn;
          client_context := client_context conn;
          session_context := session_context conn;
          connected_at := connected_at conn;
          last_activity := last_activity conn;
          request_count := request_count conn;
          is_healthy := true;
          error_message := None |})
  | Raise e =>
      (false,
       {| conn_server_id := conn_server_id conn;
          conn_server_type := conn_server_type conn;
          conn_config := conn_config conn;
          session := session conn;
          client_context := client_context conn;
          session_context := session_context conn;
          connected_at := connected_at conn;
          last_activity := last_activity conn;
          request_count := request_count conn;
          is_healthy := false;
          error_message := Some (Client.str e) |})
  end.

(** [MCPConnectionManager.health_check] *)
Definition health_check (probe : Result unit) (sid : string) (st : State)
  : bool * State :=
  match connections st !! sid with
  | None => (false, st)
  | Some conn =>
      let '(ok, conn') := conn_health_check probe conn in
      (ok, set_connections (insert sid conn') st)
  end.

(** [MCPConnection.get_status] *)
Definition get_status (conn : MCPConnection) : ConnectionStatus :=
  {| cs_server_id := conn_server_id conn;
     cs_status := if is_healthy conn then "connected" else "error";
     cs_connected_at := Some (connected_at conn);
     cs_last_activity := Some (last_activity conn);
     cs_error_message := error_message conn;
     cs_request_count := request_count conn |}.

Definition get_connection_status (sid : string) (st : State) : option ConnectionStatus :=
  match connections st !! sid with
  | None => None
  | Some conn => Some (get_status conn)
  end.

Definition get_all_connection_statuses (st : State) : gmap string ConnectionStatus :=
  get_status <$> connections st.

Definition get_connection_count (st : State) : nat := size (connections st).

(** [(now - conn.last_activity).total_seconds() > self.idle_timeout], with
    [idle_timeout] in seconds. *)
Definition is_idle (idle_timeout now : Z) (conn : MCPConnection) : bool :=
  (idle_timeout * 1000000 <? now - last_activity conn)%Z.

(** [_cleanup_idle_connections]: the ids to close are collected first, then
    closed one by one. *)
Definition _cleanup_idle_connections (env : Env) (idle_timeout : Z) (st : State) : State :=
  let to_close :=
    map fst (List.filter (fun kv => is_idle idle_timeout (clock env) (snd kv))
                         (map_to_list (connections st))) in
  fold_left (fun st sid => _close_connection env sid st) to_close st.

End Monitor.

(* ===================================================================== *)
(** ** mcp_gateway_routes.py: the REST shortcuts, status, health, SSE *)
(* ===================================================================== *)

Module Routes.
Import Py Models Database Manager Http Gateway Monitor.

Record ToolCallResponse := {
  tc_tool : string;
  tc_content : JSON;
  tc_isError : bool
}.

Record ResourceReadResponse := {
  rd_uri : string;
  rd_contents : JSON
}.

Record PromptGetResponse := {
  pg_name : string;
  pg_messages : JSON
}.

(** The [except] clauses of the three shortcut routes; only the 504 text
    differs between them. *)
Definition direct_error {A} (timeout_detail : string) (e : Exn) : Response A :=
  match e with
  | ValueError m => HTTPException 404 m
  | ConnectionError m => HTTPException 503 ("Server unavailable: " ++ m)
  | TimeoutError => HTTPException 504 timeout_detail
  | e => HTTPException 500 (Client.str e)
  end.

(** [POST /{server_id}/tools/{tool_name}] *)
Definition call_tool_direct (env : Env) (db : AgentDatabase)
    (sessions : nat -> Session) (server_id tool_name : string) (arguments : JSON)
    (st : State) : Response ToolCallResponse * State :=
  let '(got, st') := get_connection env db server_id st in
  (match got with
   | Raise e => direct_error "Tool execution timeout" e
   | Return conn =>
       match call_tool (sessions (session conn)) (JStr tool_name) arguments with
       | Raise e => direct_error "Tool execution timeout" e
       | Return (content, isError) =>
           Respond 200 {| tc_tool := tool_name; tc_content := content;
                          tc_isError := isError |}
       end
   end, st').

(** [POST /{server_id}/resources/read] *)
Definition read_resource_direct (env : Env) (db : AgentDatabase)
    (sessions : nat -> Session) (server_id uri : string)
    (st : State) : Response ResourceReadResponse * State :=
  let '(got, st') := get_connection env db server_id st in
  (match got with
   | Raise e => direct_error "Resource read timeout" e
   | Return conn =>
       match read_resource (sessions (session conn)) (JStr uri) with
       | Raise e => direct_error "Resource read timeout" e
       | Return contents => Respond 200 {| rd_uri := uri; rd_contents := contents |}
       end
   end, st').

(** [POST /{server_id}/prompts/get]; [arguments] is optional and passed on
    as it is. *)
Definition get_prompt_direct (env : Env) (db : AgentDatabase)
    (sessions : nat -> Session) (server_id name : string) (arguments : option JSON)
    (st : State) : Response PromptGetResponse * State :=
  let '(got, st') := get_connection env db server_id st in
  (match got with
   | Raise e => direct_error "Prompt get timeout" e
   | Return conn =>
       match get_prompt (sessions (session conn)) (JStr name) (default JNull arguments) with
       | Raise e => direct_error "Prompt get timeout" e
       | Return messages => Respond 200 {| pg_name := name; pg_messages := messages |}
       end
   end, st').

(** [GET /{server_id}/status] *)
Definition get_connection_status_route (server_id : string) (st : State)
  : ConnectionStatus :=
  match Monitor.get_connection_status server_id st with
  | None =>
      {| cs_server_id := server_id; cs_status := "disconnected";
         cs_connected_at := None; cs_last_activity := None;
         cs_error_message := None; cs_request_count := 0 |}
  | Some status => status
  end.

Record GatewayHealthResponse := {
  gh_status : string;
  gh_total_connections : nat;
  gh_active_servers : nat;
  gh_connections : list ConnectionStatus
}.

(** [GET /health] *)
Definition gateway_health (st : State) : GatewayHealthResponse :=
  let statuses := map snd (map_to_list (get_all_connection_statuses st)) in
  let total_connections := length statuses in
  let active_servers :=
    length (List.filter (fun s => cs_status s =? "connected") statuses) in
  let overall_status :=
    if (total_connections =? 0)%nat then "healthy"
    else if (active_servers =? total_connections)%nat then "healthy"
    else if (0 <? active_servers)%nat then "degraded"
    else "unhealthy" in
  {| gh_status := overall_status;
     gh_total_connections := total_connections;
     gh_active_servers := active_servers;
     gh_connections := statuses |}.

(** The events of [GET /{server_id}/sse], by their [event] field, with the
    error text of an [error] event. *)
Inductive SseEvent : Type :=
| Connected
| Ping
| Error (detail : string)
| Disconnected.

(** How a stream that the client does not leave comes to its end: the task
    is cancelled, or something raises inside the loop. *)
Inductive Ending : Type :=
| Cancelled
| Fails (e : Exn).

(** The [except] clauses of the generator. *)
Definition error_event (e : Exn) : SseEvent :=
  match e with
  | ValueError m => Error m
  | ConnectionError m => Error ("Server unavailable: " ++ m)
  | e => Error (Client.str e)
  end.

(** The [while True] loop; [polls] are the answers of
    [request.is_disconnected()], one per iteration.  The [finally] clause
    yields [disconnected] on every way out. *)
Fixpoint keep_alive (polls : list bool) (ending : Ending) : list SseEvent :=
  match polls with
  | [] =>
      match ending with
      | Cancelled => [Disconnected]
      | Fails e => [error_event e; Disconnected]
      end
  | true :: _ => [Disconnected]
  | false :: polls' => Ping :: keep_alive polls' ending
  end.

(** [event_generator] of [gateway_sse_proxy] *)
Definition event_generator (env : Env) (db : AgentDatabase) (server_id : string)
    (polls : list bool) (ending : Ending) (st : State) : list SseEvent * State :=
  let '(got, st') := get_connection env db server_id st in
  (match got with
   | Raise e => [error_event e; Disconnected]
   | Return _ => Connected :: keep_alive polls ending
   end, st').

End Routes.

(* ===================================================================== *)
(** ** mcp_models.py: the registration request; main.py: more routes *)
(* ===================================================================== *)

Module Registry.
Import Py Models Database Http.

(** [MCPServerRegister] *)
Record MCPServerRegister := {
  rq_type : string;
  rq_description : option string;
  rq_command : option string;
  rq_args : option (list string);
  rq_env : option (list (string * string));
  rq_url : option string;
  rq_headers : option (list (string * string))
}.

(** [validate_stdio_command], given the [type] already validated *)
Definition validate_stdio_command (v : option string) (type : string)
  : Result (option string) :=
  if (type =? "stdio") && negb (truthy_str v)
  then Raise (ValueError "command is required for stdio type")
  else Return v.

(** [validate_http_url] *)
Definition validate_http_url (v : option string) (type : string)
  : Result (option string) :=
  if ((type =? "http") || (type =? "sse")) && negb (truthy_str v)
  then Raise (ValueError "url is required for http and sse types")
  else Return v.

Definition opt_str (o : option string) : JSON :=
  match o with Some s => JStr s | None => JNull end.

Definition str_dict (d : list (string * string)) : JSON :=
  JObj (map (fun kv => (fst kv, JStr (snd kv))) d).

(** [get_config]: [x or []] and [x or {}] for the optional fields *)
Definition get_config (r : MCPServerRegister) : JSON :=
  if rq_type r =? "stdio" then
    JObj [("command", opt_str (rq_command r));
          ("args", JArr (map JStr (default [] (rq_args r))));
          ("env", str_dict (default [] (rq_env r)))]
  else
    JObj [("url", opt_str (rq_url r));
          ("headers", str_dict (default [] (rq_headers r)))].

(** [POST /mcp/servers/register] on a validated request *)
Definition register (server_id : string) (r : MCPServerRegister)
    (srv : Client.Server) (now : string) (app : Main.App)
  : Response MCPServer * Main.App :=
  Main.register_mcp_server server_id (rq_type r) (rq_description r) (get_config r)
    srv now app.

(** [GET /mcp/servers/{server_id}] *)
Definition get_mcp_server_route (server_id : string) (app : Main.App)
  : Response MCPServer :=
  match get_mcp_server server_id (Main.db app) with
  | None => HTTPException 404 "MCP server not found"
  | Some result => Respond 200 result
  end.

(** [GET /mcp/servers] *)
Definition list_mcp_servers_route (server_type status_filter : option string)
    (app : Main.App) : Response (list (option MCPServer)) :=
  Respond 200 (Catalog.list_mcp_servers server_type status_filter (Main.db app)).

(** [GET /mcp/search]; [limit] is declared [Query(100, ge=1, le=1000)], a
    value outside the range is refused with 422 before the handler runs. *)
Definition search_mcp_capabilities_route (query capability_type server_type : option string)
    (limit : Z) (app : Main.App) : Response (list SearchEntry) :=
  if ((limit <? 1) || (1000 <? limit))%Z
  then HTTPException 422 "limit out of range"
  else Respond 200
         (search_mcp_capabilities query capability_type server_type limit (Main.db app)).

End Registry.

(* ===================================================================== *)
(** ** More vocabulary and scenarios *)
(* ===================================================================== *)

Module Terms.
Import Py Models Sqlite Database.

(** A call of the repository that writes. *)
Inductive RepoOp : Type :=
| OpInsert (sid stype : string) (description : option string) (config : JSON)
           (capabilities : MCPServerCapabilities) (now : string)
| OpDelete (sid : string)
| OpUpdateStatus (sid status : string) (last_verified : option string) (now : string).

Definition apply_op (op : RepoOp) (db : AgentDatabase) : AgentDatabase :=
  match op with
  | OpInsert sid stype description config capabilities now =>
      (insert_mcp_server sid stype description config capabilities now db).2
  | OpDelete sid => (delete_mcp_server sid db).2
  | OpUpdateStatus sid status last_verified now =>
      (update_mcp_server_status sid status last_verified now db).2
  end.

(** The id a writing call is about. *)
Definition target (op : RepoOp) : string :=
  match op with
  | OpInsert sid _ _ _ _ _ => sid
  | OpDelete sid => sid
  | OpUpdateStatus sid _ _ _ => sid
  end.

(** The database after a sequence of writing calls, the first call first. *)
Definition run_ops (ops : list RepoOp) (db : AgentDatabase) : AgentDatabase :=
  fold_left (fun db op => apply_op op db) ops db.

(** Foreign keys are off on the connection the database works on. *)
Definition as_opened (db : AgentDatabase) : Prop :=
  match _connection db with
  | Some c => foreign_keys c = false
  | None => True
  end.

(** The records of a listing, newest first by [created_at]. *)
Definition newer_or_same (a b : option MCPServer) : Prop :=
  match a, b with
  | Some x, Some y => String.leb (server_created_at y) (server_created_at x) = true
  | _, _ => False
  end.

Definition newest_first (l : list (option MCPServer)) : Prop :=
  Sorted newer_or_same l.

Definition newer_row (a b : ServerRow) : Prop :=
  String.leb (srv_created_at b) (srv_created_at a) = true.

(** A search entry describes a stored, active server of the requested
    type, with that server's transport information. *)
Definition entry_of_active_server (db : AgentDatabase) (stype : option string)
    (e : SearchEntry) : Prop :=
  exists server,
    get_mcp_server (e_server_id e) db = Some server
    /\ server_status server = Some "active"
    /\ e_server_type e = server_type server
    /\ e_server_description e = server_description server
    /\ e_server_config e = server_config server
    /\ (truthy_str stype = true -> stype = Some (server_type server)).

(** What the search loops keep true of [results]: each server once, every
    entry that of a stored active server of the requested type. *)
Definition scoped (db : AgentDatabase) (stype : option string)
    (results : list SearchEntry) : Prop :=
  List.NoDup (map e_server_id results)
  /\ Forall (entry_of_active_server db stype) results.

End Terms.

(* ===================================================================== *)
(** ** main.py: the agent routes; mcp_client.py: the connection test *)
(* ===================================================================== *)

Module AgentRoutes.
Import Py Models Sqlite Database Http Agents.

(** [fetch_agent] *)
Definition fetch_agent (agent_id : string) (s : AgentStore)
  : Response (list (string * JSON)) :=
  match get_agent agent_id s with
  | None => HTTPException 404 "Agent not found"
  | Some result => Respond 200 result
  end.

(** [POST /agents/{agent_id}/heartbeat] *)
Definition heartbeat (agent_id now : string) (s : AgentStore)
  : Response (list (string * JSON)) * AgentStore :=
  let '(success, s') := update_heartbeat agent_id now s in
  if negb success then (HTTPException 404 "Agent not found", s')
  else (fetch_agent agent_id s', s').

(** [DELETE /agents/{agent_id}] *)
Definition delete_agent (agent_id : string) (s : AgentStore)
  : Response unit * AgentStore :=
  let '(success, s') := Agents.delete_agent agent_id s in
  if negb success then (HTTPException 404 "Agent not found", s')
  else (Respond 204 tt, s').

End AgentRoutes.

Module Checks.
Import Py Models Database Manager.

(** What [test_mcp_connection] returns: [{"status": "success",
    "capabilities": ...}] or [{"status": "error", "error": ...}]. *)
Inductive TestResult : Type :=
| Success (capabilities : MCPServerCapabilities)
| Failure (error : string).

(** [test_mcp_connection] *)
Definition test_mcp_connection (server_type : string) (config : JSON)
    (srv : Client.Server) : TestResult :=
  match Client.discover_capabilities server_type config srv with
  | Return capabilities => Success capabilities
  | Raise (MCPClientError m) => Failure m
  | Raise e => Failure ("Unexpected error: " ++ Client.str e)
  end.

(** [health_check_all]: one [health_check] per pooled id; [probes] gives
    the outcome of the probe sent to each server. *)
Definition health_check_all (probes : string -> Result unit) (st : State)
  : gmap string bool * State :=
  fold_left
    (fun acc sid =>
       let '(ok, st') := Monitor.health_check (probes sid) sid acc.2 in
       (<[sid := ok]> acc.1, st'))
    (map fst (map_to_list (connections st)))
    (∅, st).

End Checks.

(* ===================================================================== *)
(** ** More scenarios and vocabulary *)
(* ===================================================================== *)

Module Cases.
Import Py Models Sqlite Database.

(** An agents table with nothing in it, on a file and in memory. *)
Definition no_agents : Agents.AgentStore :=
  {| Agents.base := init "agent_reg.db"; Agents.agents := [] |}.

Definition no_agents_in_memory : Agents.AgentStore :=
  {| Agents.base := init ":memory:"; Agents.agents := [] |}.

(** A card that has a field named like one of the metadata columns. *)
Definition planner_card : list (string * JSON) :=
  [("name", JStr "planner"); ("id", JStr "forged"); ("version", JStr "1.0")].

(** The table after [insert_agent("a1", planner_card, "ops")], then
    [insert_agent("a2", {}, None)]. *)
Definition one_agent : Agents.AgentStore :=
  (Agents.insert_agent "a1" planner_card (Some "ops") Scenario.t0 no_agents).2.

Definition two_agents : Agents.AgentStore :=
  (Agents.insert_agent "a2" [] None Scenario.t1 one_agent).2.

Definition one_agent_in_memory : Agents.AgentStore :=
  (Agents.insert_agent "a1" planner_card (Some "ops") Scenario.t0 no_agents_in_memory).2.

(** [str(value)] on the values of the scenarios: a string is itself. *)
Definition str_of (v : JSON) : string :=
  match v with JStr s => s | _ => "" end.

(** What the loop of [update_agent] stores for one item of [updates]. *)
Definition stored_value (py_str : JSON -> string) (kv : string * JSON) : JSON :=
  if fst kv =? "url" then JStr (py_str (snd kv)) else snd kv.

(** The value the loop leaves under [k]: that of the last item of
    [updates] with this key, if there is one. *)
Definition assigned (py_str : JSON -> string) (k : string)
    (updates : list (string * JSON)) : option JSON :=
  match List.filter (fun kv => fst kv =? k) (rev updates) with
  | [] => None
  | kv :: _ => Some (stored_value py_str kv)
  end.

(** A registry with the echo server and an http server [s2]. *)
Definition docs_config : JSON :=
  JObj [("url", JStr "http://docs.local/mcp"); ("headers", JObj [])].

Definition two_registry : AgentDatabase :=
  (insert_mcp_server "s2" "http" (Some "docs") docs_config
     {| tools := []; resources := []; prompts := [] |} Scenario.t1
     Scenario.echo_registry).2.

(** The world 200 and 400 seconds after [calm]. *)
Definition at_200s : Manager.Env :=
  {| Manager.clock := 200000000; Manager.open_outcome := Manager.OpenOk;
     Manager.aexit_raises := fun _ => false |}.

Definition at_400s : Manager.Env :=
  {| Manager.clock := 400000000; Manager.open_outcome := Manager.OpenOk;
     Manager.aexit_raises := fun _ => false |}.

(** The pool after a gateway call to [s1] at time 0 and one to [s2] at
    200 seconds. *)
Definition two_pool : Manager.State :=
  (Manager.get_connection at_200s two_registry "s2" Scenario.echo_pool).2.

(** The pooled connection of [s1] in [echo_pool]. *)
Definition echo_connection : Manager.MCPConnection :=
  {| Manager.conn_server_id := "s1";
     Manager.conn_server_type := "stdio";
     Manager.conn_config := Scenario.echo_config;
     Manager.session := 1;
     Manager.client_context := Some 0;
     Manager.session_context := Some 1;
     Manager.connected_at := 0;
     Manager.last_activity := 0;
     Manager.request_count := 0;
     Manager.is_healthy := true;
     Manager.error_message := None |}.

(** Calling [get_connection(sid)] once per element of [envs], one call
    after the other: the results, first call first, and the manager
    afterwards. *)
Fixpoint get_connections (envs : list Manager.Env) (db : AgentDatabase) (sid : string)
    (st : Manager.State) : list (Result Manager.MCPConnection) * Manager.State :=
  match envs with
  | [] => ([], st)
  | env :: envs' =>
      let '(r, st1) := Manager.get_connection env db sid st in
      let '(rs, st2) := get_connections envs' db sid st1 in
      (r :: rs, st2)
  end.

(** The result is the pooled connection of the given session object, in
    use for the [n]-th time. *)
Definition reuses (session n : nat) (r : Result Manager.MCPConnection) : Prop :=
  match r with
  | Return c => Manager.session c = session /\ Manager.request_count c = n
  | Raise _ => False
  end.

(** [reuses] of the results of successive calls, counting from [n]. *)
Fixpoint reused_from (session n : nat) (rs : list (Result Manager.MCPConnection)) : Prop :=
  match rs with
  | [] => True
  | r :: rs' => reuses session (S n) r /\ reused_from session (S n) rs'
  end.

(** The [tools/call] and [resources/read] requests that say what the REST
    shortcuts say. *)
Definition tools_call (id : option RequestId) (name : string) (arguments : JSON)
  : JSONRPCRequest :=
  {| req_jsonrpc := "2.0"; req_id := id; req_method := "tools/call";
     req_params := Some [("name", JStr name); ("arguments", arguments)] |}.

Definition resources_read (id : option RequestId) (uri : string) : JSONRPCRequest :=
  {| req_jsonrpc := "2.0"; req_id := id; req_method := "resources/read";
     req_params := Some [("uri", JStr uri)] |}.

(** The status code of a response. *)
Definition status_of {A} (r : Http.Response A) : Z :=
  match r with
  | Http.Respond code _ => code
  | Http.HTTPException code _ => code
  end.

(** A session that echoes the arguments of a tool call and knows one
    resource. *)
Definition echo_session : Gateway.Session :=
  {| Gateway.list_tools := Return (JArr []);
     Gateway.list_resources := Return (JArr []);
     Gateway.list_prompts := Return (JArr []);
     Gateway.call_tool := fun _ arguments => Return (JArr [arguments], false);
     Gateway.read_resource := fun _ => Return (JArr [JStr "contents"]);
     Gateway.get_prompt := fun _ _ => Raise (OtherError "Unknown prompt") |}.

(** The pool [echo_pool] after a failed health check of [s1]. *)
Definition echo_pool_unhealthy : Manager.State :=
  (Monitor.health_check (Raise (OtherError "broken pipe")) "s1" Scenario.echo_pool).2.

(** [two_pool] after a failed health check of [s1]. *)
Definition two_pool_degraded : Manager.State :=
  (Monitor.health_check (Raise (OtherError "broken pipe")) "s1" two_pool).2.

Definition is_connected_event (e : Routes.SseEvent) : bool :=
  match e with Routes.Connected => true | _ => false end.

Definition is_disconnected_event (e : Routes.SseEvent) : bool :=
  match e with Routes.Disconnected => true | _ => false end.

Definition is_ping_event (e : Routes.SseEvent) : bool :=
  match e with Routes.Ping => true | _ => false end.

Definition count_events (f : Routes.SseEvent -> bool) (l : list Routes.SseEvent) : nat :=
  length (List.filter f l).

(** The iterations of the keep-alive loop that find the client still
    there: the polls answered [False] before the first [True]. *)
Fixpoint polls_before_leave (polls : list bool) : nat :=
  match polls with
  | false :: polls' => S (polls_before_leave polls')
  | _ => 0
  end.

(** A stdio request that also carries fields of the other transport, and
    an sse request with the optional fields left out. *)
Definition echo_request : Registry.MCPServerRegister :=
  {| Registry.rq_type := "stdio";
     Registry.rq_description := Some "echo";
     Registry.rq_command := Some "echo-mcp";
     Registry.rq_args := None;
     Registry.rq_env := None;
     Registry.rq_url := Some "http://ignored";
     Registry.rq_headers := Some [("x-key", "1")] |}.

Definition docs_request : Registry.MCPServerRegister :=
  {| Registry.rq_type := "sse";
     Registry.rq_description := None;
     Registry.rq_command := None;
     Registry.rq_args := None;
     Registry.rq_env := None;
     Registry.rq_url := Some "http://docs.local/mcp";
     Registry.rq_headers := None |}.

(** A server whose transport cannot be entered. *)
Definition refusing_server : Client.Server :=
  {| Client.transport_enter := Raise (OtherError "connection refused");
     Client.session_enter := Return tt;
     Client.initialize := Return tt;
     Client.list_tools := Return [];
     Client.list_resources := Return [];
     Client.list_prompts := Return [];
     Client.session_exit := Return tt;
     Client.transport_exit := Return tt |}.

(** The config is a JSON object. *)
Definition is_object (config : JSON) : Prop :=
  match config with JObj _ => True | _ => False end.

(** The outcome of a probe, as [health_check] reports it. *)
Definition probe_ok (probe : Result unit) : bool :=
  match probe with Return _ => true | Raise _ => false end.

(** The application with an empty registry file and an idle manager. *)
Definition new_app : Main.App :=
  {| Main.db := init "agent_reg.db"; Main.connection_manager := Scenario.idle_manager |}.

(** Probes that fail for [s1] and succeed for every other server. *)
Definition s1_down (sid : string) : Result unit :=
  if sid =? "s1" then Raise (OtherError "broken pipe") else Return tt.

(** Two callers of [get_connection("s1")] while the pooled connection is
    unhealthy: both pass the [is_healthy] test and enter [_close_connection]
    before either has come back from the [__aexit__] calls; then caller 0
    deletes the entry and starts the reopen, caller 1 comes back to its own
    [del], and the open of caller 0 completes. *)
Definition two_closers : list (nat * Manager.Env) :=
  [(0, Scenario.calm); (1, Scenario.calm); (0, Scenario.calm);
   (1, Scenario.calm); (0, Scenario.calm)].

End Cases.

(* ===================================================================== *)
(** * Properties *)
(* ===================================================================== *)

Import Py Models Sqlite Database.

(** ** The repository *)

Section DatabaseFacts.

Lemma keep_app {A} (f : A -> bool) (l1 l2 : list A) :
  keep f (l1 ++ l2) = (keep f l1 ++ keep f l2)%list.
Proof. unfold keep. apply List.filter_app. Qed.

Lemma keep_drop_nil {A} (f : A -> bool) (l : list A) : keep f (drop f l) = [].
Proof.
  unfold keep, drop. induction l as [|x l IH]; simpl; [reflexivity|].
  destruct (f x) eqn:E; simpl; [exact IH|]. rewrite E. exact IH.
Qed.

Lemma keep_all {A} (f : A -> bool) (l : list A) :
  (forall x, In x l -> f x = true) -> keep f l = l.
Proof.
  unfold keep. induction l as [|x l IH]; simpl; intros H; [reflexivity|].
  rewrite (H x (or_introl eq_refl)). f_equal. apply IH. intros y Hy. apply H. now right.
Qed.

Lemma keep_nil_length {A} (f : A -> bool) (l : list A) :
  keep f l = [] <-> length (keep f l) = 0.
Proof. destruct (keep f l); simpl; split; congruence. Qed.

(** Deleting a server leaves no row with its id, on any connection. *)
Lemma exec_delete_server_gone sid c t :
  keep (server_has_id sid) (mcp_servers (exec_delete_server sid c t).2) = [].
Proof.
  unfold exec_delete_server.
  destruct (foreign_keys c && _); simpl; apply keep_drop_nil.
Qed.

(** ... and the connection's counter moves by at least the number of
    server rows deleted. *)
Lemma exec_delete_server_changes sid c t :
  total_changes c + length (keep (server_has_id sid) (mcp_servers t))
  <= total_changes (exec_delete_server sid c t).1.
Proof.
  unfold exec_delete_server.
  destruct (foreign_keys c && _); simpl; lia.
Qed.

Lemma get_mcp_server_None sid db :
  get_mcp_server sid db = None <-> keep (server_has_id sid) (mcp_servers (tables db)) = [].
Proof.
  unfold get_mcp_server.
  destruct (keep (server_has_id sid) (mcp_servers (tables db))); split; congruence.
Qed.

Lemma delete_mcp_server_gone sid db :
  get_mcp_server sid (delete_mcp_server sid db).2 = None.
Proof.
  apply get_mcp_server_None. unfold delete_mcp_server.
  pose proof (exec_delete_server_gone sid (_get_connection db) (tables db)) as H.
  destruct (exec_delete_server sid (_get_connection db) (tables db)) as [c' t'].
  simpl in *. exact H.
Qed.

Lemma delete_mcp_server_registered sid db :
  get_mcp_server sid db <> None -> (delete_mcp_server sid db).1 = true.
Proof.
  intros Hreg. unfold delete_mcp_server.
  pose proof (exec_delete_server_changes sid (_get_connection db) (tables db)) as H.
  destruct (exec_delete_server sid (_get_connection db) (tables db)) as [c' t'].
  simpl in *. apply Nat.ltb_lt.
  assert (length (keep (server_has_id sid) (mcp_servers (tables db))) <> 0).
  { intros E. apply keep_nil_length in E. apply get_mcp_server_None in E. contradiction. }
  lia.
Qed.

End DatabaseFacts.

(** ** Deleting a server *)

Section DeleteServer.
Import Http Scenario.

(** After [DELETE /mcp/servers/s1] on the echo registry with a pooled
    session for [s1]: the route answers 204, the tool row of [s1] is still
    in [mcp_tools], and the pool still holds the healthy session, no
    [__aexit__] having been called. *)
Lemma C1_rows_and_session_survive_delete :
  (Main.delete_mcp_server "s1" echo_app).1 = Respond 204 tt
  /\ map tr_name
       (keep (tool_of "s1")
          (mcp_tools (tables (Main.db (Main.delete_mcp_server "s1" echo_app).2))))
     = ["echo"]
  /\ (Manager.is_healthy <$>
        Manager.connections
          (Main.connection_manager (Main.delete_mcp_server "s1" echo_app).2) !! "s1")
     = Some true
  /\ Manager.log (Main.connection_manager (Main.delete_mcp_server "s1" echo_app).2)
     = Manager.log (Main.connection_manager echo_app).
Proof. vm_compute. repeat split; reflexivity. Qed.

(** C1, as the code has it: for every registered server id, the delete
    route answers 204, no server row with that id remains (the joined
    lookup finds nothing), and the connection manager is left exactly as it
    was. *)
Theorem C1_delete_removes_server_row (app : Main.App) (sid : string) :
  get_mcp_server sid (Main.db app) <> None ->
  (Main.delete_mcp_server sid app).1 = Respond 204 tt
  /\ get_mcp_server sid (Main.db (Main.delete_mcp_server sid app).2) = None
  /\ Main.connection_manager (Main.delete_mcp_server sid app).2
     = Main.connection_manager app.
Proof.
  intros Hreg. unfold Main.delete_mcp_server.
  pose proof (delete_mcp_server_registered sid (Main.db app) Hreg) as Hok.
  pose proof (delete_mcp_server_gone sid (Main.db app)) as Hgone.
  destruct (delete_mcp_server sid (Main.db app)) as [success db'].
  simpl in Hok, Hgone. subst success. simpl. auto.
Qed.

Lemma C1_delete_removes_server_row_witness :
  (Main.delete_mcp_server "s1" echo_app).1 = Respond 204 tt
  /\ get_mcp_server "s1" (Main.db (Main.delete_mcp_server "s1" echo_app).2) = None
  /\ Main.connection_manager (Main.delete_mcp_server "s1" echo_app).2
     = Main.connection_manager echo_app.
Proof. apply (C1_delete_removes_server_row echo_app "s1"). vm_compute. discriminate. Defined.

End DeleteServer.

(** ** Verifying a server *)

Section VerifyServer.
Import Http Scenario Spec.

Lemma keep_map_status sid status lv (rows : list ServerRow) :
  keep (server_has_id sid)
    (map (fun r =>
            if server_has_id sid r then
              {| srv_id := srv_id r; srv_type := srv_type r;
                 srv_description := srv_description r;
                 srv_config := srv_config r;
                 srv_created_at := srv_created_at r;
                 srv_last_verified := Some lv;
                 srv_status := Some status |}
            else r) rows)
  = map (fun r =>
           {| srv_id := srv_id r; srv_type := srv_type r;
              srv_description := srv_description r;
              srv_config := srv_config r;
              srv_created_at := srv_created_at r;
              srv_last_verified := Some lv;
              srv_status := Some status |})
        (keep (server_has_id sid) rows).
Proof.
  unfold keep. induction rows as [|r rows IH]; simpl; [reflexivity|].
  destruct (server_has_id sid r) eqn:E; simpl.
  - unfold server_has_id in *. simpl. rewrite E. simpl. f_equal. exact IH.
  - rewrite E. exact IH.
Qed.

(** [update_mcp_server_status] rewrites status and timestamp of the
    record and nothing else. *)
Lemma update_status_get sid status now db s :
  get_mcp_server sid db = Some s ->
  get_mcp_server sid (update_mcp_server_status sid status None now db).2
  = Some (reverified status now s).
Proof.
  unfold get_mcp_server, update_mcp_server_status, exec_update_status. simpl.
  rewrite keep_map_status.
  destruct (keep (server_has_id sid) (mcp_servers (tables db))) as [|r rest];
    [discriminate|].
  intros [= <-]. reflexivity.
Qed.

(** Verifying [s1] against a server that now exposes no capability: the
    route answers 200 with the empty triple, and the stored record still
    lists the tool [echo]. *)
Lemma C2_verify_keeps_stored_capabilities :
  (Main.verify_mcp_server "s1" bare_server t1 echo_app).1
  = Respond 200 {| Main.v_server_id := "s1"; Main.v_status := "active";
                   Main.v_message := "Server is reachable and responding";
                   Main.v_capabilities :=
                     {| tools := []; resources := []; prompts := [] |} |}
  /\ (server_capabilities <$>
        get_mcp_server "s1"
          (Main.db (Main.verify_mcp_server "s1" bare_server t1 echo_app).2))
     = Some echo_caps
  /\ echo_caps <> {| tools := []; resources := []; prompts := [] |}.
Proof. vm_compute. repeat split; try reflexivity. discriminate. Qed.

(** C2, as the code has it: when the rediscovery of a registered server
    succeeds, the route answers 200 carrying the rediscovered triple, and
    the stored record changes in its status (now [active]) and its
    [last_verified] timestamp (now the time of the call) only: the stored
    capabilities are the ones it had before. *)
Theorem C2_verify_updates_status_and_timestamp
    (app : Main.App) (sid now : string) (srv : Client.Server)
    (s : MCPServer) (found : MCPServerCapabilities) :
  get_mcp_server sid (Main.db app) = Some s ->
  Client.discover_capabilities (server_type s) (server_config s) srv = Return found ->
  (Main.verify_mcp_server sid srv now app).1
  = Respond 200 {| Main.v_server_id := sid; Main.v_status := "active";
                   Main.v_message := "Server is reachable and responding";
                   Main.v_capabilities := found |}
  /\ get_mcp_server sid (Main.db (Main.verify_mcp_server sid srv now app).2)
     = Some (reverified "active" now s)
  /\ server_capabilities (reverified "active" now s) = server_capabilities s.
Proof.
  intros Hs Hd. unfold Main.verify_mcp_server. rewrite Hs, Hd.
  pose proof (update_status_get sid "active" now (Main.db app) s Hs) as Hu.
  destruct (update_mcp_server_status sid "active" None now (Main.db app)) as [b db'].
  simpl in *. auto.
Qed.

Lemma C2_verify_updates_status_and_timestamp_witness :
  (Main.verify_mcp_server "s1" bare_server t1 echo_app).1
  = Respond 200 {| Main.v_server_id := "s1"; Main.v_status := "active";
                   Main.v_message := "Server is reachable and responding";
                   Main.v_capabilities :=
                     {| tools := []; resources := []; prompts := [] |} |}
  /\ get_mcp_server "s1"
       (Main.db (Main.verify_mcp_server "s1" bare_server t1 echo_app).2)
     = Some (reverified "active" t1
               {| server_id := "s1"; server_type := "stdio";
                  server_description := None; server_config := echo_config;
                  server_created_at := t0; server_last_verified := Some t0;
                  server_status := Some "active";
                  server_capabilities := echo_caps |})
  /\ server_capabilities
       (reverified "active" t1
          {| server_id := "s1"; server_type := "stdio";
             server_description := None; server_config := echo_config;
             server_created_at := t0; server_last_verified := Some t0;
             server_status := Some "active";
             server_capabilities := echo_caps |})
     = echo_caps.
Proof.
  apply (C2_verify_updates_status_and_timestamp echo_app "s1" t1 bare_server);
    vm_compute; reflexivity.
Defined.

End VerifyServer.

(** ** Registering and reading back *)

Section RoundTrip.
Import Scenario Spec.

Lemma tool_round_trip sid (t : MCPToolCapability) :
  survives (tool_inputSchema t) -> Database.tool_dict (tool_row sid t) = t.
Proof.
  destruct t as [n d [v|]]; unfold Database.tool_dict, tool_row, survives; simpl.
  - intros ->. reflexivity.
  - reflexivity.
Qed.

Lemma resource_round_trip sid (r : MCPResourceCapability) :
  Database.resource_dict (resource_row sid r) = r.
Proof. destruct r; reflexivity. Qed.

Lemma prompt_round_trip sid (p : MCPPromptCapability) :
  survives (prompt_arguments p) -> Database.prompt_dict (prompt_row sid p) = p.
Proof.
  destruct p as [n d [v|]]; unfold Database.prompt_dict, prompt_row, survives; simpl.
  - intros ->. reflexivity.
  - reflexivity.
Qed.

Lemma map_round_trip {A B} (f : A -> B) (g : B -> A) (P : A -> Prop) (l : list A) :
  (forall a, P a -> g (f a) = a) -> Forall P l -> map g (map f l) = l.
Proof.
  intros Hgf. induction 1 as [|a l Ha _ IH]; simpl; [reflexivity|].
  rewrite Hgf by assumption. f_equal. exact IH.
Qed.

Lemma keep_own_rows {A B} (owner : B -> string) (mk : string -> A -> B)
    (sid : string) (l : list A) :
  (forall a, owner (mk sid a) = sid) ->
  keep (fun r => owner r =? sid) (map (mk sid) l) = map (mk sid) l.
Proof.
  intros Hown. apply keep_all. intros r Hr.
  apply in_map_iff in Hr as [a [<- _]]. rewrite Hown. apply String.eqb_refl.
Qed.

(** Registering [ping_caps]: what is read back has [null] where the empty
    schema and the empty argument list were. *)
Lemma C9_empty_schema_and_arguments_come_back_null :
  (server_capabilities <$>
     get_mcp_server "s2"
       (insert_mcp_server "s2" "stdio" None echo_config ping_caps t0
          (init "agent_reg.db")).2)
  = Some {| tools := [ {| tool_name := "ping"; tool_description := None;
                          tool_inputSchema := None |} ];
            resources := [];
            prompts := [ {| prompt_name := "hello"; prompt_description := None;
                            prompt_arguments := None |} ] |}
  /\ {| tools := [ {| tool_name := "ping"; tool_description := None;
                      tool_inputSchema := None |} ];
        resources := [];
        prompts := [ {| prompt_name := "hello"; prompt_description := None;
                        prompt_arguments := None |} ] |}
     <> ping_caps.
Proof. vm_compute. split; [reflexivity | discriminate]. Qed.

(** C9, as the code has it: for an id that no stored row carries, and a
    triple in which every [inputSchema] and every [arguments] is either
    absent or non-empty, [insert_mcp_server] returns the record that
    [get_mcp_server] then reads, and its capability lists are the inserted
    ones, element for element and in order. *)
Theorem C9_insert_then_get_returns_the_triple
    (db : AgentDatabase) (sid stype : string) (description : option string)
    (config : JSON) (caps : MCPServerCapabilities) (now : string) :
  unused sid (tables db) ->
  storable caps ->
  let stored := {| server_id := sid; server_type := stype;
                   server_description := description; server_config := config;
                   server_created_at := now; server_last_verified := Some now;
                   server_status := Some "active";
                   server_capabilities := caps |} in
  (insert_mcp_server sid stype description config caps now db).1 = Return stored
  /\ get_mcp_server sid (insert_mcp_server sid stype description config caps now db).2
     = Some stored.
Proof.
  intros (Hs & Ht & Hr & Hp) (Hst & Hsp) stored.
  assert (Hget :
    get_mcp_server sid
      (leave db
         (add_changes (1 + length (tools caps) + length (resources caps)
                       + length (prompts caps)) (_get_connection db))
         {| mcp_servers :=
              mcp_servers (tables db) ++
              [ {| srv_id := sid; srv_type := stype; srv_description := description;
                   srv_config := json_dumps config; srv_created_at := now;
                   srv_last_verified := Some now; srv_status := Some "active" |} ];
            mcp_tools := mcp_tools (tables db) ++ map (tool_row sid) (tools caps);
            mcp_resources :=
              mcp_resources (tables db) ++ map (resource_row sid) (resources caps);
            mcp_prompts :=
              mcp_prompts (tables db) ++ map (prompt_row sid) (prompts caps) |})
    = Some stored).
  { unfold get_mcp_server, leave. simpl.
    rewrite !keep_app, Hs, Ht, Hr, Hp. simpl.
    unfold server_has_id at 1. simpl. rewrite String.eqb_refl. simpl.
    unfold tool_of, resource_of, prompt_of.
    rewrite (keep_own_rows tr_server_id tool_row) by reflexivity.
    rewrite (keep_own_rows rr_server_id resource_row) by reflexivity.
    rewrite (keep_own_rows pr_server_id prompt_row) by reflexivity.
    rewrite (map_round_trip (tool_row sid) Database.tool_dict
               (fun t => survives (tool_inputSchema t)))
      by (auto using tool_round_trip).
    rewrite (map_round_trip (resource_row sid) Database.resource_dict (fun _ => True))
      by (auto using resource_round_trip, Forall_true).
    rewrite (map_round_trip (prompt_row sid) Database.prompt_dict
               (fun p => survives (prompt_arguments p)))
      by (auto using prompt_round_trip).
    unfold stored. destruct caps; reflexivity. }
  unfold insert_mcp_server. rewrite Hs. cbv zeta. rewrite Hget. simpl. auto.
Qed.

Lemma C9_insert_then_get_returns_the_triple_witness :
  let stored := {| server_id := "s1"; server_type := "stdio";
                   server_description := None; server_config := echo_config;
                   server_created_at := t0; server_last_verified := Some t0;
                   server_status := Some "active";
                   server_capabilities := echo_caps |} in
  (insert_mcp_server "s1" "stdio" None echo_config echo_caps t0
     (init "agent_reg.db")).1 = Return stored
  /\ get_mcp_server "s1"
       (insert_mcp_server "s1" "stdio" None echo_config echo_caps t0
          (init "agent_reg.db")).2
     = Some stored.
Proof.
  apply (C9_insert_then_get_returns_the_triple (init "agent_reg.db") "s1" "stdio"
           None echo_config echo_caps t0).
  - repeat split; reflexivity.
  - split; repeat constructor.
Defined.

End RoundTrip.

(** ** What [delete_mcp_server] returns *)

Section DeleteResult.
Import Scenario.

(** On a database opened on a file, every call runs on a connection of
    its own, and the result says whether this call deleted a row. *)
Lemma delete_result_on_file (db : AgentDatabase) (sid : string) :
  _connection db = None ->
  (delete_mcp_server sid db).1 = true <-> get_mcp_server sid db <> None.
Proof.
  intros Hc. split; [|apply delete_mcp_server_registered].
  unfold delete_mcp_server, _get_connection, exec_delete_server. rewrite Hc. simpl.
  intros H Hnone. apply get_mcp_server_None, keep_nil_length in Hnone.
  rewrite Hnone in H. simpl in H. discriminate.
Qed.

(** C10 at the failing input: on the in-memory database that has seen the
    registration of [s1], deleting the unknown id [s2] removes nothing and
    returns [True]. *)
Theorem C10_delete_of_unknown_id_returns_true_in_memory :
  get_mcp_server "s2" echo_registry_in_memory = None
  /\ (delete_mcp_server "s2" echo_registry_in_memory).1 = true
  /\ tables (delete_mcp_server "s2" echo_registry_in_memory).2
     = tables echo_registry_in_memory.
Proof. vm_compute. repeat split; reflexivity. Qed.

End DeleteResult.

(** ** Discovery *)

Section Discovery.
Import Client Scenario Spec.

(** A list call that fails is indistinguishable from one that returns
    nothing. *)
Lemma best_effort_failure {A B} (e : Exn) (convert : A -> Result (list B)) :
  best_effort (Raise e) convert = [].
Proof. reflexivity. Qed.


(** Whatever else happens during the discovery, a list call that raises
    has the effect of one that returns the empty list. *)
Lemma failed_list_call_counts_as_empty stype config srv e :
  discover_capabilities stype config (with_list_tools (Raise e) srv)
  = discover_capabilities stype config (with_list_tools (Return []) srv)
  /\ discover_capabilities stype config (with_list_resources (Raise e) srv)
     = discover_capabilities stype config (with_list_resources (Return []) srv)
  /\ discover_capabilities stype config (with_list_prompts (Raise e) srv)
     = discover_capabilities stype config (with_list_prompts (Return []) srv).
Proof. repeat split. Qed.



End Discovery.

(** ** The JSON-RPC proxy *)

Section Proxy.
Import Http Manager Gateway Scenario Spec.

Lemma dict_get_params key (message : JSONRPCRequest) :
  dict_get key (params_or_empty (req_params message)) = param key message.
Proof.
  unfold param, params_or_empty. destruct (req_params message) as [[|b d]|]; reflexivity.
Qed.

Lemma unsupported_method (m : string) :
  ~ In m supported_methods ->
  (m =? "tools/list") = false /\ (m =? "resources/list") = false
  /\ (m =? "prompts/list") = false /\ (m =? "tools/call") = false
  /\ (m =? "resources/read") = false /\ (m =? "prompts/get") = false.
Proof.
  intros Hn. repeat split; apply String.eqb_neq; intros ->; apply Hn; simpl; tauto.
Qed.

(** C8: when the server id resolves to a pooled session, a request with a
    method outside the six supported ones is answered by a JSON-RPC error
    -32601 under the request's own id; [tools/call] and [prompts/get]
    without a [name] parameter, and [resources/read] without a [uri]
    parameter, by a JSON-RPC error -32602 under the request's own id. *)
Theorem C8_proxy_error_replies
    (env : Env) (db : AgentDatabase) (sessions : nat -> Session)
    (server_id : string) (message : JSONRPCRequest) (st : State)
    (conn : MCPConnection) :
  (get_connection env db server_id st).1 = Return conn ->
  let reply := (gateway_message_proxy env db sessions server_id message st).1 in
  (~ In (req_method message) supported_methods ->
   reply = Respond 200
             (rpc_error (req_id message) (-32601)
                ("Method not found: " ++ req_method message))
   /\ is_error_reply (req_id message) (-32601) reply)
  /\ (req_method message = "tools/call" \/ req_method message = "prompts/get" ->
      param "name" message = None ->
      is_error_reply (req_id message) (-32602) reply)
  /\ (req_method message = "resources/read" ->
      param "uri" message = None ->
      is_error_reply (req_id message) (-32602) reply).
Proof.
  intros Hconn reply. subst reply. unfold gateway_message_proxy.
  destruct (get_connection env db server_id st) as [got st']. simpl in Hconn. subst got.
  simpl. unfold dispatch. rewrite !dict_get_params.
  split; [|split].
  - intros Hn. destruct (unsupported_method _ Hn) as (-> & -> & -> & -> & -> & ->).
    split; [reflexivity|]. unfold is_error_reply, rpc_error. eauto 10.
  - intros [-> | ->] ->; simpl; unfold is_error_reply, rpc_error; eauto 10.
  - intros -> ->; simpl; unfold is_error_reply, rpc_error; eauto 10.
Qed.

Lemma C8_proxy_error_replies_witness :
  (gateway_message_proxy calm echo_registry (fun _ => deaf_session) "s1"
     bogus_request idle_manager).1
  = Respond 200
      {| resp_jsonrpc := "2.0"; resp_id := Some (IdInt 7); resp_result := None;
         resp_error := Some {| err_code := -32601;
                               err_message := "Method not found: bogus/method";
                               err_data := None |} |}.
Proof.
  refine (proj1 (proj1 (C8_proxy_error_replies calm echo_registry
                          (fun _ => deaf_session) "s1" bogus_request idle_manager
                          (new_connection "s1"
                             {| server_id := "s1"; server_type := "stdio";
                                server_description := None;
                                server_config := echo_config;
                                server_created_at := t0;
                                server_last_verified := Some t0;
                                server_status := Some "active";
                                server_capabilities := echo_caps |} 0 0 1) _) _)).
  - vm_compute. reflexivity.
  - vm_compute. intuition discriminate.
Defined.

End Proxy.

(** ** The connection pool: closing and failed opens *)

Section Pool.
Import Manager Scenario Spec.

(** Every connection the manager creates carries both contexts, and is
    the pool entry of its server from then on. *)
Lemma created_connection_has_both_contexts env db sid st conn st' :
  _create_connection env db sid st = (Return conn, st') ->
  connections st' !! sid = Some conn
  /\ (exists s c, session_context conn = Some s /\ client_context conn = Some c
                  /\ session conn = s).
Proof.
  unfold _create_connection, begin_open, connect_error.
  destruct (get_mcp_server sid db) as [server|]; [|discriminate].
  destruct (required_key (server_type server)) as [key|]; [|discriminate].
  destruct (config_get key (server_config server)); [|discriminate].
  unfold finish_open, connect_error. destruct (open_outcome env); try discriminate.
  intros [= <- <-]. simpl. rewrite lookup_insert_eq. split; [reflexivity|].
  eexists _, _. repeat split; reflexivity.
Qed.

(** Using a connection does not change its contexts. *)
Lemma touch_keeps_contexts env sid conn st :
  session_context (touch env sid conn st).1 = session_context conn
  /\ client_context (touch env sid conn st).1 = client_context conn.
Proof. split; reflexivity. Qed.

(** A close that runs with no other task in between: on a pooled
    connection that carries its two contexts it calls [__aexit__] of the
    session context first and of the client (transport) context second,
    whether or not either call raises, and removes the entry; a close of
    the same server id that starts after it has ended does nothing at
    all. *)
Lemma close_alone_session_then_transport_once
    (env env' : Env) (sid : string) (st : State) (conn : MCPConnection)
    (s c : nat) :
  connections st !! sid = Some conn ->
  session_context conn = Some s ->
  client_context conn = Some c ->
  log (_close_connection env sid st)
  = (log st
     ++ SessionExit s :: (if aexit_raises env s then [LogErrorClosing s] else [])
     ++ ClientExit c :: (if aexit_raises env c then [LogErrorClosing c] else []))%list
  /\ connections (_close_connection env sid st) !! sid = None
  /\ _close_connection env' sid (_close_connection env sid st)
     = _close_connection env sid st.
Proof.
  intros Hconn Hs Hc.
  assert (Hclose : _close_connection env sid st
                   = set_connections (delete sid) (emit (teardown env conn) st)).
  { unfold _close_connection. rewrite Hconn. reflexivity. }
  rewrite Hclose. unfold teardown, exit_session, exit_client. rewrite Hs, Hc.
  simpl. rewrite lookup_delete_eq. repeat split.
  unfold _close_connection. simpl. rewrite lookup_delete_eq. reflexivity.
Qed.

Lemma close_alone_on_echo_pool :
  log (_close_connection calm "s1" echo_pool)
  = (log echo_pool ++ [SessionExit 1; ClientExit 0])%list
  /\ connections (_close_connection calm "s1" echo_pool) !! "s1" = None
  /\ _close_connection unreachable "s1" (_close_connection calm "s1" echo_pool)
     = _close_connection calm "s1" echo_pool.
Proof.
  apply (close_alone_session_then_transport_once calm unreachable "s1" echo_pool
           (new_connection "s1"
              {| server_id := "s1"; server_type := "stdio";
                 server_description := None; server_config := echo_config;
                 server_created_at := t0; server_last_verified := Some t0;
                 server_status := Some "active";
                 server_capabilities := echo_caps |} 0 0 1) 1 0);
    vm_compute; reflexivity.
Qed.

(** A failed open answers [ConnectionError] and leaves the dictionary of
    connections as it found it. *)
Lemma create_connection_failure env db sid st server :
  get_mcp_server sid db = Some server ->
  open_outcome env <> OpenOk ->
  (exists m, (_create_connection env db sid st).1 = Raise (ConnectionError m))
  /\ connections (_create_connection env db sid st).2 = connections st.
Proof.
  intros Hserver Hfail. unfold _create_connection, begin_open, connect_error.
  rewrite Hserver.
  destruct (required_key (server_type server)) as [key|]; [|simpl; eauto].
  destruct (config_get key (server_config server)); [|simpl; eauto].
  unfold finish_open, connect_error.
  destruct (open_outcome env); [contradiction| | |]; simpl; eauto.
Qed.

(** When [get_connection] gets to open (the pool holds no healthy entry for
    the id) and the open fails, it raises [ConnectionError], and the pool is
    as it was when the open began: as before the call when there was no
    entry, and without the unhealthy entry, closed in the step before, when
    there was one. *)
Lemma get_connection_failure env db sid st server :
  get_mcp_server sid db = Some server ->
  open_outcome env <> OpenOk ->
  (forall conn, connections st !! sid = Some conn -> is_healthy conn = false) ->
  (exists m, (get_connection env db sid st).1 = Raise (ConnectionError m))
  /\ connections (get_connection env db sid st).2
     = connections (_close_connection env sid st).
Proof.
  intros Hserver Hfail Hbad.
  assert (Hrun : get_connection env db sid st
                 = let '(r, st') :=
                     under_lock env db sid
                       (acquire sid (_get_lock sid (_close_connection env sid st))) in
                   (r, release sid st')).
  { unfold get_connection, _close_connection.
    destruct (connections st !! sid) as [conn|] eqn:Hentry; [|reflexivity].
    rewrite (Hbad conn eq_refl). reflexivity. }
  rewrite Hrun. clear Hrun. unfold under_lock.
  set (st0 := _close_connection env sid st).
  assert (Hgone : connections st0 !! sid = None).
  { unfold st0, _close_connection.
    destruct (connections st !! sid) eqn:Hentry; [|exact Hentry].
    simpl. apply lookup_delete_eq. }
  assert (Hc : connections (acquire sid (_get_lock sid st0)) = connections st0).
  { unfold acquire, _get_lock. destruct (_locks st0 !! sid); reflexivity. }
  rewrite Hc, Hgone.
  destruct (create_connection_failure env db sid (acquire sid (_get_lock sid st0))
              server Hserver Hfail) as [[m Hm] Hsame].
  destruct (_create_connection env db sid (acquire sid (_get_lock sid st0))) as [r st'].
  simpl in *. subst r. split; [eauto|]. congruence.
Qed.

(** C5: if the open fails for a registered server, [_create_connection]
    raises [ConnectionError] and the pool map is the one it was called
    with: nothing is inserted, no entry is modified.  So does
    [get_connection] whenever it gets to open: it raises [ConnectionError]
    and leaves the pool map as the open found it, which on a pool with no
    entry for the id is the map before the call. *)
Theorem C5_failed_open_leaves_pool_unchanged
    (env : Env) (db : AgentDatabase) (sid : string) (st : State)
    (server : MCPServer) :
  get_mcp_server sid db = Some server ->
  open_outcome env <> OpenOk ->
  ((exists m, (_create_connection env db sid st).1 = Raise (ConnectionError m))
   /\ connections (_create_connection env db sid st).2 = connections st)
  /\ ((forall conn, connections st !! sid = Some conn -> is_healthy conn = false) ->
      (exists m, (get_connection env db sid st).1 = Raise (ConnectionError m))
      /\ connections (get_connection env db sid st).2
         = connections (_close_connection env sid st))
  /\ (connections st !! sid = None ->
      (exists m, (get_connection env db sid st).1 = Raise (ConnectionError m))
      /\ connections (get_connection env db sid st).2 = connections st).
Proof.
  intros Hserver Hfail. split; [eapply create_connection_failure; eassumption|].
  split.
  - intros Hbad. eapply get_connection_failure; eassumption.
  - intros Hcold.
    destruct (get_connection_failure env db sid st server Hserver Hfail) as [Hm Hsame].
    { intros conn Hconn. congruence. }
    split; [exact Hm|]. rewrite Hsame. unfold _close_connection. rewrite Hcold.
    reflexivity.
Qed.

Lemma C5_failed_open_leaves_pool_unchanged_witness :
  (exists m, (get_connection unreachable echo_registry "s1" idle_manager).1
             = Raise (ConnectionError m))
  /\ connections (get_connection unreachable echo_registry "s1" idle_manager).2
     = connections idle_manager.
Proof.
  refine (proj2 (proj2 (C5_failed_open_leaves_pool_unchanged unreachable echo_registry
                          "s1" idle_manager
                          {| server_id := "s1"; server_type := "stdio";
                             server_description := None; server_config := echo_config;
                             server_created_at := t0; server_last_verified := Some t0;
                             server_status := Some "active";
                             server_capabilities := echo_caps |} _ _)) _).
  - vm_compute. reflexivity.
  - simpl. discriminate.
  - vm_compute. reflexivity.
Defined.

(** With an unhealthy entry for the id in the pool, that is: the entry is
    gone after the failed reopen, the other entries are untouched. *)
Lemma failed_reopen_after_eviction env db sid st server conn :
  get_mcp_server sid db = Some server ->
  open_outcome env <> OpenOk ->
  connections st !! sid = Some conn ->
  is_healthy conn = false ->
  (exists m, (get_connection env db sid st).1 = Raise (ConnectionError m))
  /\ connections (get_connection env db sid st).2 = delete sid (connections st).
Proof.
  intros Hserver Hfail Hconn Hbad.
  destruct (get_connection_failure env db sid st server Hserver Hfail) as [Hm Hsame].
  { intros c Hc. congruence. }
  split; [exact Hm|]. rewrite Hsame. unfold _close_connection. rewrite Hconn.
  reflexivity.
Qed.

End Pool.

(** ** Searching capabilities *)

Section Search.
Import Scenario Spec.

(** C7 at the failing input: the query [%] with [capability_type = tool]
    on the echo registry.  No tool of [s1] has a percent sign in its name
    or description, yet the search returns an entry for [s1], with no
    matched tool in it: the SQL pattern [%%%] matches every name, and the
    Python filter that follows empties the list without dropping the
    entry. *)
Theorem C7_wildcard_query_returns_server_without_matching_tool :
  search_mcp_capabilities (Some "%") (Some "tool") None 10 echo_registry
  = [ {| e_server_id := "s1"; e_server_type := "stdio";
         e_server_description := None; e_server_config := echo_config;
         matched_tools := []; matched_resources := []; matched_prompts := [] |} ]
  /\ existsb (fun t => field_matches "%" (Some (tool_name t))
                       || field_matches "%" (tool_description t))
       (tools echo_caps) = false
  /\ (server_capabilities <$> get_mcp_server "s1" echo_registry) = Some echo_caps.
Proof. vm_compute. repeat split; reflexivity. Qed.

(** The underscore does the same: it stands for any one character. *)
Lemma underscore_query_returns_server_without_matching_tool :
  map (fun e => (e_server_id e, matched_tools e))
    (search_mcp_capabilities (Some "_") (Some "tool") None 10 echo_registry)
  = [("s1", [])].
Proof. vm_compute. reflexivity. Qed.

(** A query without wildcard characters finds the server through the tool
    that contains it, and nothing when no tool contains it. *)
Lemma plain_query_on_echo_registry :
  map (fun e => (e_server_id e, map tool_name (matched_tools e)))
    (search_mcp_capabilities (Some "ECH") (Some "tool") None 10 echo_registry)
  = [("s1", ["echo"])]
  /\ search_mcp_capabilities (Some "zzz") (Some "tool") None 10 echo_registry = [].
Proof. vm_compute. split; reflexivity. Qed.

End Search.

(** ** Concurrent callers *)

Section SingleFlight.
Import Manager Tasks Scenario Spec.

Variable db : AgentDatabase.
Variable sid : string.



Lemma locked_get_lock st : locked sid (_get_lock sid st) = locked sid st.
Proof.
  unfold locked, _get_lock. destruct (_locks st !! sid) eqn:E; simpl; rewrite ?E;
    [reflexivity|]. rewrite lookup_insert_eq. reflexivity.
Qed.







Lemma pooled_session_touch env conn st :
  connections st !! sid = Some conn ->
  pooled_session sid (touch env sid conn st).2 = Some (session conn)
  /\ pooled_session sid st = Some (session conn).
Proof.
  intros H. unfold pooled_session, touch. simpl. rewrite lookup_insert_eq, H. auto.
Qed.









(** A schedule is a path of the step relation, and every path is the run of
    some schedule. *)
Lemma run_task_step i env sys sys' :
  run_task db sid i env sys = Some sys' -> step db sid sys sys'.
Proof.
  unfold run_task. destruct (tasks sys !! i) as [pc|] eqn:Hi; [|discriminate].
  destruct (task_step env db sid pc (manager sys)) as [[pc' st']|] eqn:Hts; [|discriminate].
  intros [= <-]. econstructor; eassumption.
Qed.


Lemma reachable_run_schedule sys sys' :
  rtc (step db sid) sys sys' ->
  exists schedule, run_schedule db sid schedule sys = Some sys'.
Proof.
  induction 1 as [sys|sys1 sys2 sys3 H12 _ [schedule IH]].
  - exists []. reflexivity.
  - destruct H12 as [sys i env pc pc' st' Hi Hts].
    exists ((i, env) :: schedule). simpl. unfold run_task. rewrite Hi, Hts. exact IH.
Qed.


End SingleFlight.



(** With the server up, the same two callers end with one open executed and
    the same session in both hands. *)
Lemma two_callers_share_one_open :
  Tasks.opens "s1" (Tasks.manager Scenario.after_two_callers) = 1
  /\ map (fun pc => match pc with
                    | Tasks.Finished (Return c) => Some (Manager.session c)
                    | _ => None
                    end) (Tasks.tasks Scenario.after_two_callers)
     = [Some 1; Some 1].
Proof. vm_compute. split; reflexivity. Qed.

(** ** One caller alone *)

Section LoneCaller.
Import Manager Tasks.

(** Run alone (the lock being free), a caller of the task model goes through
    at most three suspensions and ends exactly as [get_connection] does. *)
Lemma lone_caller_agrees env db sid st :
  locked sid st = false ->
  run_alone 3 env db sid Ready st = Some (get_connection env db sid st).
Proof.
  intros Hfree.
  assert (Hlock : forall k st1, locked sid st1 = false ->
            run_alone (S k) env db sid (reach_lock env db sid st1).1
              (reach_lock env db sid st1).2
            = Some (let '(r, st') := under_lock env db sid (acquire sid (_get_lock sid st1))
                    in (r, release sid st'))).
  { intros k st1 Hfree1. unfold reach_lock. rewrite locked_get_lock, Hfree1.
    unfold enter_lock, under_lock, _create_connection.
    destruct (connections (acquire sid (_get_lock sid st1)) !! sid) as [conn|];
      [reflexivity|].
    destruct (begin_open sid db (acquire sid (_get_lock sid st1)))
      as [[r|[server ctx]] st2]; [reflexivity|].
    simpl. destruct (finish_open env sid server ctx st2) as [r st3].
    destruct k; reflexivity. }
  unfold get_connection.
  destruct (connections st !! sid) as [conn|] eqn:Hentry.
  - destruct (is_healthy conn) eqn:Hh.
    + simpl. rewrite Hentry, Hh. reflexivity.
    + assert (Hclose : _close_connection env sid st
                       = set_connections (delete sid) (emit (teardown env conn) st)).
      { unfold _close_connection. rewrite Hentry. reflexivity. }
      rewrite Hclose.
      specialize (Hlock 0 (set_connections (delete sid) (emit (teardown env conn) st))
                    Hfree).
      rewrite <- Hlock.
      change (run_alone 3 env db sid Ready st)
        with (match task_step env db sid Ready st with
              | Some (pc', st') => run_alone 2 env db sid pc' st'
              | None => None
              end).
      simpl task_step. rewrite Hentry, Hh.
      change (run_alone 2 env db sid Closing (emit (teardown env conn) st))
        with (match task_step env db sid Closing (emit (teardown env conn) st) with
              | Some (pc', st') => run_alone 1 env db sid pc' st'
              | None => None
              end).
      simpl task_step. rewrite Hentry.
      destruct (reach_lock env db sid _) as [pc1 st1]. reflexivity.
  - specialize (Hlock 1 st Hfree). rewrite <- Hlock.
    change (run_alone 3 env db sid Ready st)
      with (match task_step env db sid Ready st with
            | Some (pc', st') => run_alone 2 env db sid pc' st'
            | None => None
            end).
    simpl task_step. rewrite Hentry.
    destruct (reach_lock env db sid st) as [pc1 st1]. reflexivity.
Qed.

End LoneCaller.

(** ** What a search by tool does return *)

Section SearchScope.
Import Spec.

Lemma like_after_percent (p q : string) :
  (forall t, like p t = true -> String.prefix q (lower t) = true) ->
  forall s, like (String "%"%char p) s = true -> contains q (lower s) = true.
Proof.
  intros Hp. induction s as [|c s IH]; intros H.
  - assert (H0 : like p "" = true).
    { simpl in H. rewrite orb_false_r in H. exact H. }
    change (contains q (lower "")) with (String.prefix q (lower "") || false).
    rewrite (Hp "" H0). reflexivity.
  - change (contains q (lower (String c s)))
      with (String.prefix q (lower (String c s)) || contains q (lower s)).
    simpl in H. apply orb_true_iff in H as [H|H].
    + rewrite (Hp _ H). reflexivity.
    + rewrite (IH H). apply orb_true_r.
Qed.

Lemma like_literal_prefix (q : string) :
  wildcard_free q = true ->
  forall t, like (q ++ "%") t = true -> String.prefix (lower q) (lower t) = true.
Proof.
  induction q as [|c q IH]; intros Hfree t; [intros _; destruct t; reflexivity|].
  simpl in Hfree. apply andb_true_iff in Hfree as [Hc Hq].
  apply andb_true_iff in Hc as [Hc1 Hc2].
  apply negb_true_iff in Hc1, Hc2.
  change (like (String c q ++ "%") t) with (like (String c (q ++ "%")) t).
  simpl. rewrite Hc1, Hc2. destruct t as [|d t]; [discriminate|].
  intros H. apply andb_true_iff in H as [Hcd Hrest].
  apply Ascii.eqb_eq in Hcd. simpl. rewrite Hcd.
  destruct (ascii_dec (lower_ascii d) (lower_ascii d)) as [_|Hne]; [|congruence].
  apply IH; assumption.
Qed.

(** On a query without wildcard characters, a LIKE match is a
    case-insensitive substring match. *)
Lemma like_pattern_contains (q s : string) :
  wildcard_free q = true ->
  like (like_pattern q) s = true -> contains_ci q s = true.
Proof.
  intros Hfree. unfold like_pattern, contains_ci.
  change ("%" ++ q ++ "%") with (String "%"%char (q ++ "%")).
  apply like_after_percent. apply like_literal_prefix. exact Hfree.
Qed.

Lemma or_empty_Some (s : string) : or_empty (Some s) = s.
Proof. unfold or_empty. destruct (String.eqb_spec s ""); congruence. Qed.

Lemma contains_nothing (q : string) : q <> "" -> contains (lower q) "" = false.
Proof. destruct q; [congruence|reflexivity]. Qed.

(** The Python filter of the tool loop keeps the tools whose name or
    description contains the query. *)
Lemma filter_tools_contains (q : string) (l : list MCPToolCapability) :
  q <> "" -> filter_tools (Some q) l = List.filter (tool_contains q) l.
Proof.
  intros Hq. unfold filter_tools. simpl.
  destruct (String.eqb_spec q ""); [contradiction|]. simpl.
  apply List.filter_ext. intros t. unfold field_matches, tool_contains, contains_ci.
  rewrite or_empty_Some. destruct (tool_description t) as [d|].
  - rewrite or_empty_Some. reflexivity.
  - change (lower (or_empty None)) with "".
    rewrite contains_nothing by assumption. reflexivity.
Qed.

Lemma in_firstn {A} (n : nat) (l : list A) (x : A) : In x (firstn n l) -> In x l.
Proof.
  revert l. induction n as [|n IH]; intros [|y l]; simpl; try tauto.
  intros [->|H]; [left; reflexivity | right; apply IH, H].
Qed.

Lemma in_limit {A} (n : Z) (l : list A) (x : A) : In x (limit n l) -> In x l.
Proof. unfold limit. destruct (n <? 0)%Z; [tauto | apply in_firstn]. Qed.

Lemma NoDup_firstn {A} (n : nat) (l : list A) :
  List.NoDup l -> List.NoDup (firstn n l).
Proof.
  revert l. induction n as [|n IH]; intros [|x l] H; simpl; try constructor.
  - apply List.NoDup_cons_iff in H as [Hx _]. intros Hin. apply Hx.
    eapply in_firstn, Hin.
  - apply List.NoDup_cons_iff in H as [_ H]. apply IH, H.
Qed.

Lemma NoDup_limit {A} (n : Z) (l : list A) : List.NoDup l -> List.NoDup (limit n l).
Proof. unfold limit. destruct (n <? 0)%Z; [tauto | apply NoDup_firstn]. Qed.

(** The ids a capability query returns are those of active servers of the
    requested type that own a row passing the row filter, each once. *)
Lemma select_server_ids_sound {Row} (owner : Row -> string) (where_row : Row -> bool)
    stype lim servers rows sid :
  In sid (select_server_ids owner where_row stype lim servers rows) ->
  exists s c, In s servers /\ In c rows /\ srv_id s = sid /\ owner c = sid
              /\ where_server stype s = true /\ where_row c = true.
Proof.
  unfold select_server_ids, distinct. intros H.
  apply in_limit, nodup_In, in_flat_map in H as (s & Hs & H).
  apply in_flat_map in H as (c & Hc & H).
  destruct ((srv_id s =? owner c) && where_server stype s && where_row c) eqn:E;
    [|contradiction].
  destruct H as [<-|[]].
  apply andb_true_iff in E as [E Hrow]. apply andb_true_iff in E as [Hid Hsrv].
  apply String.eqb_eq in Hid. exists s, c. repeat split; auto.
Qed.

Lemma select_server_ids_NoDup {Row} (owner : Row -> string) (where_row : Row -> bool)
    stype lim servers rows :
  List.NoDup (select_server_ids owner where_row stype lim servers rows).
Proof. apply NoDup_limit, List.NoDup_nodup. Qed.

Lemma keep_none {A} (f : A -> bool) (l : list A) :
  (forall x, In x l -> f x = false) -> keep f l = [].
Proof.
  unfold keep. induction l as [|x l IH]; simpl; intros H; [reflexivity|].
  rewrite (H x (or_introl eq_refl)). apply IH. intros y Hy. apply H. now right.
Qed.

(** Under the primary key, the lookup of an id finds its one row. *)
Lemma keep_primary_key (l : list ServerRow) (s : ServerRow) :
  List.NoDup (map srv_id l) -> In s l -> keep (server_has_id (srv_id s)) l = [s].
Proof.
  induction l as [|x l IH]; simpl; intros Hnd Hin; [contradiction|].
  apply List.NoDup_cons_iff in Hnd as [Hx Hnd]. unfold keep in *. simpl.
  destruct Hin as [->|Hin].
  - unfold server_has_id at 1. rewrite String.eqb_refl. f_equal.
    apply keep_none. intros y Hy. unfold server_has_id. apply String.eqb_neq.
    intros E. apply Hx. rewrite <- E. apply in_map, Hy.
  - assert (Hne : server_has_id (srv_id s) x = false).
    { unfold server_has_id. apply String.eqb_neq. intros E. apply Hx.
      rewrite E. apply in_map, Hin. }
    rewrite Hne. apply IH; assumption.
Qed.

Lemma get_mcp_server_primary_key db s :
  primary_key (tables db) -> In s (mcp_servers (tables db)) ->
  exists server,
    get_mcp_server (srv_id s) db = Some server
    /\ server_id server = srv_id s
    /\ server_status server = srv_status s
    /\ tools (server_capabilities server)
       = map Database.tool_dict (keep (tool_of (srv_id s)) (mcp_tools (tables db))).
Proof.
  intros Hpk Hin. unfold get_mcp_server.
  rewrite (keep_primary_key _ _ Hpk Hin). eexists. repeat split.
Qed.

(** The tool loop appends one entry per row whose server is found. *)
Lemma search_tools_app query db ids results :
  search_tools query db ids results
  = (results ++
     flat_map (fun sid =>
                 match get_mcp_server sid db with
                 | Some server =>
                     [new_entry server
                        (filter_tools query (tools (server_capabilities server))) [] []]
                 | None => []
                 end) ids)%list.
Proof.
  unfold search_tools. revert results.
  induction ids as [|sid ids IH]; intros results; simpl.
  - rewrite app_nil_r. reflexivity.
  - rewrite IH. destruct (get_mcp_server sid db); [|reflexivity].
    rewrite <- app_assoc. reflexivity.
Qed.

Lemma where_server_active stype s :
  where_server stype s = true -> srv_status s = Some "active".
Proof.
  unfold where_server. intros H. apply andb_true_iff in H as [H _].
  destruct (srv_status s) as [st|]; [|discriminate].
  apply String.eqb_eq in H. congruence.
Qed.

(** A stored tool row that passes the SQL filter of a wildcard-free query
    reads back as a tool that contains the query. *)
Lemma where_tool_contains q (c : ToolRow) :
  q <> "" -> wildcard_free q = true ->
  where_tool (Some q) c = true -> tool_contains q (Database.tool_dict c) = true.
Proof.
  intros Hq Hfree. unfold where_tool. simpl.
  destruct (String.eqb_spec q ""); [contradiction|]. simpl.
  unfold tool_contains. simpl. intros H. apply orb_true_iff in H as [H|H].
  - rewrite (like_pattern_contains _ _ Hfree H). reflexivity.
  - destruct (tr_description c) as [d|]; [|discriminate]. simpl in *.
    rewrite (like_pattern_contains _ _ Hfree H). apply orb_true_r.
Qed.

(** What a search by tool returns, for every store that respects the
    primary key, every non-empty query and every limit from 0 up: entries of
    active servers only, each server once, no more than [limit] of them,
    each carrying the tools of its server that contain the query and no
    resource and no prompt.  When the query has no wildcard character, every
    entry carries at least one tool. *)
Lemma search_by_tool_scope db q stype lim :
  q <> "" -> (0 <= lim)%Z -> primary_key (tables db) ->
  let found := search_mcp_capabilities (Some q) (Some "tool") stype lim db in
  Forall (fun e =>
            matched_resources e = [] /\ matched_prompts e = []
            /\ exists server,
                 get_mcp_server (e_server_id e) db = Some server
                 /\ server_status server = Some "active"
                 /\ matched_tools e
                    = List.filter (tool_contains q) (tools (server_capabilities server))
                 /\ (wildcard_free q = true -> matched_tools e <> []))
         found
  /\ List.NoDup (map e_server_id found)
  /\ (Z.of_nat (length found) <= lim)%Z.
Proof.
  intros Hq Hlim Hpk found. subst found. unfold search_mcp_capabilities.
  change (kind_selected (Some "tool") "tool") with true.
  change (kind_selected (Some "tool") "resource") with false.
  change (kind_selected (Some "tool") "prompt") with false.
  cbv iota zeta. rewrite search_tools_app. simpl app.
  unfold slice_to. destruct (Z.ltb_spec lim 0) as [Hneg|_]; [lia|].
  set (ids := select_server_ids tr_server_id (where_tool (Some q)) stype lim
                (mcp_servers (tables db)) (mcp_tools (tables db))).
  set (entry := fun sid : string =>
                  match get_mcp_server sid db with
                  | Some server =>
                      [new_entry server
                         (filter_tools (Some q) (tools (server_capabilities server)))
                         [] []]
                  | None => []
                  end).
  assert (Hids : forall sid, In sid ids ->
            exists s c server,
              In c (mcp_tools (tables db)) /\ tr_server_id c = sid
              /\ where_tool (Some q) c = true
              /\ srv_status s = Some "active"
              /\ get_mcp_server sid db = Some server
              /\ server_id server = sid
              /\ server_status server = srv_status s
              /\ tools (server_capabilities server)
                 = map Database.tool_dict (keep (tool_of sid) (mcp_tools (tables db)))).
  { intros sid Hin.
    apply select_server_ids_sound in Hin as (s & c & Hs & Hc & <- & Hown & Hsrv & Hrow).
    destruct (get_mcp_server_primary_key db s Hpk Hs) as (server & Hg & Hid & Hst & Ht).
    exists s, c, server. repeat split; auto. eapply where_server_active, Hsrv. }
  assert (Hmap : map e_server_id (flat_map entry ids) = ids).
  { clear -Hids. induction ids as [|sid ids IH]; [reflexivity|]. simpl.
    rewrite map_app, IH by (intros; apply Hids; now right).
    destruct (Hids sid (or_introl eq_refl)) as (s & c & server & _ & _ & _ & _ & Hg & Hid & _).
    unfold entry. rewrite Hg. simpl. rewrite Hid. reflexivity. }
  split; [|split].
  - apply List.Forall_forall. intros e He.
    apply in_firstn, in_flat_map in He as (sid & Hsid & He).
    destruct (Hids sid Hsid) as (s & c & server & Hc & Hown & Hrow & Hact & Hg & Hid & Hst & Ht).
    unfold entry in He. rewrite Hg in He. destruct He as [<-|[]]. simpl.
    repeat split. exists server. rewrite Hid, Hg.
    rewrite filter_tools_contains by assumption.
    repeat split; [congruence|].
    intros Hfree Hnil.
    assert (Hin : In (Database.tool_dict c)
                    (List.filter (tool_contains q) (tools (server_capabilities server)))).
    { apply List.filter_In. split.
      - rewrite Ht. apply in_map. apply List.filter_In. split; [exact Hc|].
        unfold tool_of. rewrite Hown. apply String.eqb_refl.
      - apply where_tool_contains; assumption. }
    rewrite Hnil in Hin. exact Hin.
  - rewrite <- firstn_map, Hmap. apply NoDup_firstn, select_server_ids_NoDup.
  - pose proof (firstn_le_length (Z.to_nat lim) (flat_map entry ids)). lia.
Qed.

End SearchScope.

(** ** Every caller ends *)

Section Liveness.
Import Manager Tasks Scenario Spec.

Variable db : AgentDatabase.
Variable sid : string.

(** Each step of a caller brings it nearer to its end. *)
Lemma task_step_decreases env pc st pc' st' :
  task_step env db sid pc st = Some (pc', st') -> remaining pc' < remaining pc.
Proof.
  assert (Henter : forall st1, remaining (enter_lock env db sid st1).1 <= 1).
  { intros st1. unfold enter_lock.
    destruct (connections (acquire sid st1) !! sid); [simpl; lia|].
    destruct (begin_open sid db (acquire sid st1)) as [[r|[server ctx]] st2]; simpl; lia. }
  assert (Hreach : forall st1, remaining (reach_lock env db sid st1).1 <= 2).
  { intros st1. unfold reach_lock. destruct (locked sid (_get_lock sid st1)); [simpl; lia|].
    specialize (Henter (_get_lock sid st1)). lia. }
  destruct pc as [| | |server ctx|r]; simpl.
  - destruct (connections st !! sid) as [conn|].
    + destruct (is_healthy conn); intros [= <- <-]; simpl; lia.
    + intros [= H]. specialize (Hreach st). rewrite H in Hreach. simpl in Hreach. lia.
  - destruct (connections st !! sid).
    + intros [= H]. specialize (Hreach (set_connections (delete sid) st)).
      rewrite H in Hreach. simpl in Hreach. lia.
    + intros [= <- <-]. simpl. lia.
  - destruct (locked sid st); [discriminate|].
    intros [= H]. specialize (Henter st). rewrite H in Henter. simpl in Henter. lia.
  - destruct (finish_open env sid server ctx st). intros [= <- <-]. simpl. lia.
  - discriminate.
Qed.

Lemma list_sum_insert (l : list Pc) i pc pc' :
  l !! i = Some pc ->
  list_sum (map remaining (<[i:=pc']> l)) + remaining pc
  = list_sum (map remaining l) + remaining pc'.
Proof.
  revert i. induction l as [|x l IH]; intros [|i] H; simpl in *; try discriminate.
  - injection H as ->. lia.
  - specialize (IH i H). lia.
Qed.

Lemma step_decreases sys sys' : step db sid sys sys' -> work_left sys' < work_left sys.
Proof.
  intros [sys0 i env pc pc' st' Hi Hts]. unfold work_left. simpl.
  pose proof (task_step_decreases _ _ _ _ _ Hts).
  pose proof (list_sum_insert _ _ _ pc' Hi). lia.
Qed.

(** No schedule of [n] callers is longer than [4 n] steps. *)
Lemma schedules_are_bounded schedule sys sys' :
  run_schedule db sid schedule sys = Some sys' ->
  length schedule + work_left sys' <= work_left sys.
Proof.
  revert sys. induction schedule as [|[i env] rest IH]; intros sys; simpl.
  - intros [= <-]. lia.
  - destruct (run_task db sid i env sys) as [sys1|] eqn:H1; [|discriminate].
    intros Hrest. specialize (IH _ Hrest).
    pose proof (step_decreases _ _ (run_task_step _ _ _ _ _ _ H1)). lia.
Qed.

Lemma work_left_start st0 n : work_left (start st0 n) = 4 * n.
Proof. unfold work_left, start. simpl. induction n; simpl; lia. Qed.

Lemma some_opening (l : list Pc) :
  1 <= length (List.filter is_opening l) ->
  exists i server ctx, l !! i = Some (Opening server ctx).
Proof.
  induction l as [|x l IH]; simpl; [lia|].
  destruct x as [| | |server ctx|r]; simpl; intros H;
    try (destruct (IH H) as (i & server & ctx & Hi); exists (S i), server, ctx; exact Hi).
  exists 0, server, ctx. reflexivity.
Qed.

(** As long as some caller has not ended, some caller can run: the callers
    never block each other for good. *)
Lemma some_caller_can_run o0 f0 sys i pc :
  single_flight sid o0 f0 sys ->
  tasks sys !! i = Some pc ->
  is_finished pc = false ->
  exists sys', step db sid sys sys'.
Proof.
  intros [Hflight _ _ _ Htasks] Hi Hpc.
  assert (Hgo : forall j pcj, tasks sys !! j = Some pcj ->
            is_Some (task_step calm db sid pcj (manager sys)) ->
            exists sys', step db sid sys sys').
  { intros j pcj Hj [[pc' st'] Hts]. eexists. econstructor; eassumption. }
  destruct pc as [| | |server ctx|r]; try discriminate.
  - apply (Hgo i Ready Hi). simpl.
    destruct (connections (manager sys) !! sid) as [conn|];
      [destruct (is_healthy conn)|]; eauto.
  - apply (Hgo i Closing Hi). simpl.
    destruct (connections (manager sys) !! sid); eauto.
  - destruct (locked sid (manager sys)) eqn:Hheld.
    + unfold in_flight in Hflight.
      destruct (some_opening (tasks sys)) as (j & server & ctx & Hj); [lia|].
      apply (Hgo j _ Hj). simpl.
      destruct (finish_open calm sid server ctx (manager sys)). eauto.
    + apply (Hgo i Waiting Hi). simpl. rewrite Hheld. eauto.
  - apply (Hgo i _ Hi). simpl.
    destruct (finish_open calm sid server ctx (manager sys)). eauto.
Qed.

End Liveness.

(** ** The primary key of [mcp_servers] *)

Section PrimaryKey.
Import Spec.

Lemma NoDup_map_filter {A B} (f : A -> B) (g : A -> bool) (l : list A) :
  List.NoDup (map f l) -> List.NoDup (map f (List.filter g l)).
Proof.
  induction l as [|x l IH]; simpl; intros H; [constructor|].
  apply List.NoDup_cons_iff in H as [Hx H].
  destruct (g x); simpl; [|apply IH, H].
  constructor; [|apply IH, H].
  intros Hin. apply Hx. apply in_map_iff in Hin as (y & Hy & Hin).
  apply List.filter_In in Hin as [Hin _]. rewrite <- Hy. apply in_map, Hin.
Qed.

Lemma primary_key_init path : primary_key (tables (init path)).
Proof. constructor. Qed.

Lemma primary_key_insert sid stype description config caps now db :
  primary_key (tables db) ->
  primary_key (tables (insert_mcp_server sid stype description config caps now db).2).
Proof.
  intros Hpk. unfold insert_mcp_server.
  destruct (keep (server_has_id sid) (mcp_servers (tables db))) as [|r rest] eqn:Hfresh;
    [|exact Hpk].
  assert (Hpk' : primary_key
                   {| mcp_servers :=
                        mcp_servers (tables db) ++
                        [ {| srv_id := sid; srv_type := stype;
                             srv_description := description;
                             srv_config := json_dumps config; srv_created_at := now;
                             srv_last_verified := Some now;
                             srv_status := Some "active" |} ];
                      mcp_tools := mcp_tools (tables db) ++ map (tool_row sid) (tools caps);
                      mcp_resources :=
                        mcp_resources (tables db) ++ map (resource_row sid) (resources caps);
                      mcp_prompts :=
                        mcp_prompts (tables db) ++ map (prompt_row sid) (prompts caps) |}).
  { unfold primary_key in *. simpl. rewrite map_app. simpl.
    apply List.NoDup_app.
    - exact Hpk.
    - repeat constructor. intros [].
    - intros x Hx [<-|[]]. apply in_map_iff in Hx as (r & Hr & Hin).
      assert (Hk : In r (keep (server_has_id sid) (mcp_servers (tables db)))).
      { apply List.filter_In. split; [exact Hin|]. unfold server_has_id.
        rewrite Hr. apply String.eqb_refl. }
      rewrite Hfresh in Hk. exact Hk. }
  cbv zeta. destruct (get_mcp_server sid _); exact Hpk'.
Qed.

Lemma primary_key_delete sid db :
  primary_key (tables db) -> primary_key (tables (delete_mcp_server sid db).2).
Proof.
  intros Hpk. unfold delete_mcp_server, exec_delete_server, primary_key.
  destruct (foreign_keys (_get_connection db) && _); simpl;
    apply NoDup_map_filter, Hpk.
Qed.

Lemma primary_key_update sid status lv now db :
  primary_key (tables db) ->
  primary_key (tables (update_mcp_server_status sid status lv now db).2).
Proof.
  intros Hpk. unfold update_mcp_server_status, exec_update_status, primary_key. simpl.
  rewrite map_map.
  erewrite map_ext; [exact Hpk|]. intros r. destruct (server_has_id sid r); reflexivity.
Qed.

End PrimaryKey.

(* ===================================================================== *)
(** * More of the code *)
(* ===================================================================== *)

(** ** The repository: results, frames, what every database satisfies *)

Section RepositoryMore.
Import Scenario Spec Terms.

Lemma keep_drop_other {A} (f g : A -> bool) (l : list A) :
  (forall x, g x = true -> f x = false) -> keep g (drop f l) = keep g l.
Proof.
  intros H. unfold keep, drop. induction l as [|x l IH]; simpl; [reflexivity|].
  destruct (f x) eqn:Ef; simpl.
  - destruct (g x) eqn:Eg; [rewrite (H x Eg) in Ef; discriminate | exact IH].
  - destruct (g x); [f_equal|]; exact IH.
Qed.

Lemma keep_foreign_rows {A B} (owner : B -> string) (mk : string -> A -> B)
    (sid sid' : string) (l : list A) :
  (forall a, owner (mk sid a) = sid) -> sid' <> sid ->
  keep (fun r => owner r =? sid') (map (mk sid) l) = [].
Proof.
  intros Hown Hne. apply keep_none. intros r Hr.
  apply in_map_iff in Hr as [a [<- _]]. rewrite Hown. apply String.eqb_neq. congruence.
Qed.

Lemma other_id sid sid' (x : string) :
  sid' <> sid -> (x =? sid') = true -> (x =? sid) = false.
Proof.
  intros Hne H. apply String.eqb_eq in H. subst x. apply String.eqb_neq. exact Hne.
Qed.

(** X1: on a database opened on a file, [delete_mcp_server] returns [True]
    exactly when a server with that id was stored, the server is gone
    afterwards, and no connection is kept. *)
Theorem X1_delete_on_file_reports_the_deletion (db : AgentDatabase) (sid : string) :
  _connection db = None ->
  ((delete_mcp_server sid db).1 = true <-> get_mcp_server sid db <> None)
  /\ get_mcp_server sid (delete_mcp_server sid db).2 = None
  /\ _connection (delete_mcp_server sid db).2 = None.
Proof.
  intros Hc. split; [|split].
  - split; [|apply delete_mcp_server_registered].
    unfold delete_mcp_server, _get_connection, exec_delete_server. rewrite Hc. simpl.
    intros H Hnone. apply get_mcp_server_None, keep_nil_length in Hnone.
    rewrite Hnone in H. simpl in H. discriminate.
  - apply delete_mcp_server_gone.
  - unfold delete_mcp_server.
    destruct (exec_delete_server sid (_get_connection db) (tables db)). simpl.
    rewrite Hc. reflexivity.
Qed.

Lemma X1_delete_on_file_reports_the_deletion_witness :
  ((delete_mcp_server "s1" echo_registry).1 = true
   <-> get_mcp_server "s1" echo_registry <> None)
  /\ get_mcp_server "s1" (delete_mcp_server "s1" echo_registry).2 = None
  /\ _connection (delete_mcp_server "s1" echo_registry).2 = None.
Proof. apply (X1_delete_on_file_reports_the_deletion echo_registry "s1"). reflexivity. Defined.

(** The tables after an insert under an id not stored yet. *)
Lemma tables_after_insert sid stype description config caps now db :
  keep (server_has_id sid) (mcp_servers (tables db)) = [] ->
  tables (insert_mcp_server sid stype description config caps now db).2
  = {| mcp_servers :=
         mcp_servers (tables db) ++
         [ {| srv_id := sid; srv_type := stype; srv_description := description;
              srv_config := json_dumps config; srv_created_at := now;
              srv_last_verified := Some now; srv_status := Some "active" |} ];
       mcp_tools := mcp_tools (tables db) ++ map (tool_row sid) (tools caps);
       mcp_resources :=
         mcp_resources (tables db) ++ map (resource_row sid) (resources caps);
       mcp_prompts :=
         mcp_prompts (tables db) ++ map (prompt_row sid) (prompts caps) |}.
Proof.
  intros Hfresh. unfold insert_mcp_server. rewrite Hfresh. cbv zeta.
  match goal with |- context [get_mcp_server sid ?d] =>
    destruct (get_mcp_server sid d) end; reflexivity.
Qed.

Lemma tables_after_refused_insert sid stype description config caps now db :
  keep (server_has_id sid) (mcp_servers (tables db)) <> [] ->
  (insert_mcp_server sid stype description config caps now db).2 = db.
Proof.
  intros Hstored. unfold insert_mcp_server.
  destruct (keep (server_has_id sid) (mcp_servers (tables db))); [contradiction|reflexivity].
Qed.

(** X3: a write under one id does not change what is read under another:
    after inserting, deleting or re-statusing [sid], the record of every
    other id, capabilities included, is the one it was. *)
Theorem X3_writes_leave_other_servers_alone
    (db : AgentDatabase) (other : string) (op : RepoOp) :
  other <> target op ->
  get_mcp_server other (apply_op op db) = get_mcp_server other db.
Proof.
  intros Hne. remember (target op) as sid eqn:Hop. symmetry in Hop.
  unfold get_mcp_server.
  assert (Hno : (sid =? other) = false) by (apply String.eqb_neq; congruence).
  assert (Hrows :
    keep (server_has_id other) (mcp_servers (tables (apply_op op db)))
    = keep (server_has_id other) (mcp_servers (tables db))
    /\ keep (tool_of other) (mcp_tools (tables (apply_op op db)))
       = keep (tool_of other) (mcp_tools (tables db))
    /\ keep (resource_of other) (mcp_resources (tables (apply_op op db)))
       = keep (resource_of other) (mcp_resources (tables db))
    /\ keep (prompt_of other) (mcp_prompts (tables (apply_op op db)))
       = keep (prompt_of other) (mcp_prompts (tables db))).
  { destruct op as [s stype d cfg caps now | s | s status lv now];
      simpl in Hop; subst s; simpl.
    - destruct (keep (server_has_id sid) (mcp_servers (tables db))) as [|r rest] eqn:E.
      + rewrite (tables_after_insert _ _ _ _ _ _ _ E). simpl.
        rewrite !keep_app. unfold tool_of, resource_of, prompt_of.
        rewrite (keep_foreign_rows tr_server_id tool_row) by (auto; reflexivity).
        rewrite (keep_foreign_rows rr_server_id resource_row) by (auto; reflexivity).
        rewrite (keep_foreign_rows pr_server_id prompt_row) by (auto; reflexivity).
        rewrite !app_nil_r. repeat split.
        unfold keep at 2. simpl. unfold server_has_id at 2. simpl. rewrite Hno.
        apply app_nil_r.
      + rewrite tables_after_refused_insert by (rewrite E; discriminate). auto.
    - unfold delete_mcp_server, exec_delete_server.
      destruct (foreign_keys (_get_connection db) && _); simpl;
        repeat split; try reflexivity; apply keep_drop_other; intros x;
        apply other_id; exact Hne.
    - unfold update_mcp_server_status, exec_update_status. simpl.
      repeat split. unfold keep.
      induction (mcp_servers (tables db)) as [|r rows IH]; simpl; [reflexivity|].
      destruct (server_has_id sid r) eqn:E; simpl.
      + unfold server_has_id in *. simpl.
        apply String.eqb_eq in E. rewrite E, Hno. exact IH.
      + destruct (server_has_id other r); [f_equal|]; exact IH. }
  destruct Hrows as (-> & -> & -> & ->). reflexivity.
Qed.

Lemma X3_writes_leave_other_servers_alone_witness :
  get_mcp_server "s1" (apply_op (OpDelete "s2") echo_registry)
  = get_mcp_server "s1" echo_registry.
Proof.
  apply (X3_writes_leave_other_servers_alone echo_registry "s1" (OpDelete "s2")).
  simpl. discriminate.
Defined.

Lemma as_opened_leave db n t :
  as_opened db -> as_opened (leave db (add_changes n (_get_connection db)) t).
Proof.
  unfold as_opened, leave, _get_connection. simpl.
  destruct (_connection db); simpl; auto.
Qed.

Lemma as_opened_apply_op op db : as_opened db -> as_opened (apply_op op db).
Proof.
  intros H. destruct op as [s stype d cfg caps now | s | s status lv now]; simpl.
  - unfold insert_mcp_server.
    destruct (keep (server_has_id s) (mcp_servers (tables db))); [|exact H].
    cbv zeta.
    match goal with |- context [get_mcp_server s ?d] =>
      destruct (get_mcp_server s d) end; simpl; apply as_opened_leave, H.
  - unfold delete_mcp_server, exec_delete_server.
    destruct (foreign_keys (_get_connection db) && _); simpl; apply as_opened_leave, H.
  - unfold update_mcp_server_status, exec_update_status. simpl. apply as_opened_leave, H.
Qed.

Lemma primary_key_apply_op op db :
  primary_key (tables db) -> primary_key (tables (apply_op op db)).
Proof.
  destruct op; simpl;
    [apply primary_key_insert | apply primary_key_delete | apply primary_key_update].
Qed.

Lemma run_ops_invariant (P : AgentDatabase -> Prop) ops db :
  (forall op d, P d -> P (apply_op op d)) -> P db -> P (run_ops ops db).
Proof.
  intros Hstep. unfold run_ops. revert db.
  induction ops as [|op ops IH]; simpl; auto.
Qed.

Lemma built_database path ops :
  primary_key (tables (run_ops ops (init path)))
  /\ as_opened (run_ops ops (init path)).
Proof.
  split.
  - apply (run_ops_invariant (fun d => primary_key (tables d)));
      [apply primary_key_apply_op | apply primary_key_init].
  - apply run_ops_invariant; [apply as_opened_apply_op|].
    unfold as_opened, init. simpl. destruct (path =? ":memory:"); reflexivity.
Qed.

(** X4: whatever sequence of inserts, deletes and status updates a database
    has gone through since it was created, its server ids are pairwise
    different and foreign keys are off on its connection. *)
Theorem X4_every_database_keeps_ids_unique (path : string) (ops : list RepoOp) :
  primary_key (tables (run_ops ops (init path)))
  /\ as_opened (run_ops ops (init path)).
Proof. apply built_database. Qed.

(** X5: on every such database, [delete_mcp_server] removes server rows
    only: the three capability tables are, row for row, what they were, the
    rows of the deleted server included. *)
Theorem X5_delete_leaves_capability_tables (path : string) (ops : list RepoOp)
    (sid : string) :
  let db := run_ops ops (init path) in
  mcp_tools (tables (delete_mcp_server sid db).2) = mcp_tools (tables db)
  /\ mcp_resources (tables (delete_mcp_server sid db).2) = mcp_resources (tables db)
  /\ mcp_prompts (tables (delete_mcp_server sid db).2) = mcp_prompts (tables db).
Proof.
  intros db. destruct (built_database path ops) as [_ Hfk].
  fold db in Hfk. unfold delete_mcp_server, exec_delete_server.
  assert (Hoff : foreign_keys (_get_connection db) = false).
  { unfold as_opened in Hfk. unfold _get_connection.
    destruct (_connection db); [exact Hfk | reflexivity]. }
  rewrite Hoff. simpl. auto.
Qed.

(** X6: [update_mcp_server_status] under an id that is not stored changes
    no table, and on a database opened on a file returns [False]. *)
Theorem X6_status_update_of_unknown_id
    (db : AgentDatabase) (sid status now : string) (lv : option string) :
  get_mcp_server sid db = None ->
  tables (update_mcp_server_status sid status lv now db).2 = tables db
  /\ (_connection db = None ->
      (update_mcp_server_status sid status lv now db).1 = false).
Proof.
  intros Hnone. apply get_mcp_server_None in Hnone.
  unfold update_mcp_server_status, exec_update_status. simpl. split.
  - destruct (tables db) as [servers tl rs ps]. simpl in *. f_equal.
    unfold keep in Hnone. induction servers as [|r rows IH]; simpl in *; [reflexivity|].
    destruct (server_has_id sid r) eqn:E; [discriminate|]. f_equal. apply IH, Hnone.
  - intros Hc. unfold _get_connection. rewrite Hc, Hnone. reflexivity.
Qed.

Lemma X6_status_update_of_unknown_id_witness :
  tables (update_mcp_server_status "s2" "error" None t1 echo_registry).2
  = tables echo_registry
  /\ (_connection echo_registry = None ->
      (update_mcp_server_status "s2" "error" None t1 echo_registry).1 = false).
Proof.
  apply (X6_status_update_of_unknown_id echo_registry "s2" "error" t1 None).
  reflexivity.
Defined.

End RepositoryMore.

(** ** Searching, whatever the kind *)

Section SearchAnyKind.
Import Http Scenario Spec Terms.

Variable db : AgentDatabase.
Variable stype : option string.
Hypothesis Hpk : primary_key (tables db).

(** Under the primary key, the record read under the id of a stored row is
    made of that row. *)
Lemma get_row_record (s : ServerRow) :
  In s (mcp_servers (tables db)) ->
  get_mcp_server (srv_id s) db
  = Some {| server_id := srv_id s;
            server_type := srv_type s;
            server_description := srv_description s;
            server_config := json_loads (srv_config s);
            server_created_at := srv_created_at s;
            server_last_verified := srv_last_verified s;
            server_status := srv_status s;
            server_capabilities :=
              {| tools := map Database.tool_dict
                            (keep (tool_of (srv_id s)) (mcp_tools (tables db)));
                 resources := map Database.resource_dict
                                (keep (resource_of (srv_id s)) (mcp_resources (tables db)));
                 prompts := map Database.prompt_dict
                              (keep (prompt_of (srv_id s)) (mcp_prompts (tables db))) |} |}.
Proof.
  intros Hin. unfold get_mcp_server. rewrite (keep_primary_key _ _ Hpk Hin). reflexivity.
Qed.

Lemma where_server_type (s : ServerRow) :
  where_server stype s = true ->
  truthy_str stype = true -> stype = Some (srv_type s).
Proof.
  unfold where_server. intros H Ht. rewrite Ht in H.
  apply andb_true_iff in H as [_ H]. destruct stype as [ty|]; [|discriminate].
  apply String.eqb_eq in H. congruence.
Qed.

(** Every id a capability query selects is the id of a stored, active
    server of the requested type. *)
Lemma selected_id_resolves {Row} (owner : Row -> string) (where_row : Row -> bool)
    lim rows sid :
  In sid (select_server_ids owner where_row stype lim (mcp_servers (tables db)) rows) ->
  exists server,
    get_mcp_server sid db = Some server
    /\ server_id server = sid
    /\ server_status server = Some "active"
    /\ (truthy_str stype = true -> stype = Some (server_type server)).
Proof.
  intros Hin.
  apply select_server_ids_sound in Hin as (s & c & Hs & _ & <- & _ & Hsrv & _).
  eexists. split; [apply get_row_record, Hs|]. simpl. repeat split.
  - eapply where_server_active, Hsrv.
  - apply where_server_type, Hsrv.
Qed.

Lemma update_existing_absent sid upd results :
  update_existing sid upd results = None <-> ~ In sid (map e_server_id results).
Proof.
  induction results as [|r rest IH]; simpl; [tauto|].
  destruct (String.eqb_spec (e_server_id r) sid) as [->|Hne].
  - split; [discriminate | intros H; exfalso; apply H; now left].
  - destruct (update_existing sid upd rest); simpl.
    + split; [discriminate|]. intros H. exfalso.
      assert (Hsome : Some l <> None) by discriminate.
      apply Hsome, IH. intros Hin. apply H. now right.
    + split; [|reflexivity]. intros _ [H|H]; [contradiction|]. apply IH in H; auto.
Qed.

Lemma update_existing_present sid upd results results' (P : SearchEntry -> Prop) :
  (forall r, e_server_id (upd r) = e_server_id r) ->
  (forall r, P r -> P (upd r)) ->
  update_existing sid upd results = Some results' ->
  map e_server_id results' = map e_server_id results
  /\ (Forall P results -> Forall P results').
Proof.
  intros Hid HP. revert results'.
  induction results as [|r rest IH]; simpl; intros results'; [discriminate|].
  destruct (e_server_id r =? sid).
  - intros [= <-]. simpl. rewrite Hid. split; [reflexivity|].
    intros H. apply List.Forall_cons_iff in H as [Hr Hrest]. constructor; auto.
  - destruct (update_existing sid upd rest) as [rest'|]; [|discriminate].
    simpl. intros [= <-]. destruct (IH rest' eq_refl) as [Hm Hf]. simpl.
    rewrite Hm. split; [reflexivity|].
    intros H. apply List.Forall_cons_iff in H as [Hr Hrest]. constructor; auto.
Qed.

Local Abbreviation scoped := (Terms.scoped db stype).

Lemma entry_of_new_entry server sid mt mr mp :
  get_mcp_server sid db = Some server ->
  server_id server = sid ->
  server_status server = Some "active" ->
  (truthy_str stype = true -> stype = Some (server_type server)) ->
  entry_of_active_server db stype (new_entry server mt mr mp).
Proof.
  intros Hg Hid Hact Hty. exists server. simpl. rewrite Hid. repeat split; auto.
Qed.

(** One step of the resource loop or of the prompt loop. *)
Lemma merge_step_scoped (upd : SearchEntry -> SearchEntry) (fresh : SearchEntry)
    server sid results :
  (forall r, e_server_id (upd r) = e_server_id r) ->
  (forall r, entry_of_active_server db stype r ->
             entry_of_active_server db stype (upd r)) ->
  e_server_id fresh = sid ->
  entry_of_active_server db stype fresh ->
  server_id server = sid ->
  scoped results ->
  scoped match update_existing (server_id server) upd results with
         | Some results' => results'
         | None => (results ++ [fresh])%list
         end.
Proof.
  intros Hid HP Hfid Hfresh Hsid [Hnd Hall]. rewrite Hsid.
  destruct (update_existing sid upd results) as [results'|] eqn:E.
  - destruct (update_existing_present sid upd results results'
                (entry_of_active_server db stype) Hid HP E) as [Hm Hf].
    split; [rewrite Hm; exact Hnd | auto].
  - apply update_existing_absent in E. split.
    + rewrite map_app. simpl. apply List.NoDup_app; [exact Hnd | |].
      * repeat constructor. intros [].
      * intros x Hx [<-|[]]. rewrite Hfid in Hx. contradiction.
    + apply Forall_app. split; [exact Hall|]. constructor; [exact Hfresh|constructor].
Qed.

Lemma set_matched_resources_entry mr r :
  entry_of_active_server db stype r ->
  entry_of_active_server db stype (set_matched_resources mr r).
Proof. intros (server & H). exists server. exact H. Qed.

Lemma set_matched_prompts_entry mp r :
  entry_of_active_server db stype r ->
  entry_of_active_server db stype (set_matched_prompts mp r).
Proof. intros (server & H). exists server. exact H. Qed.

Lemma search_tools_scoped query ids :
  List.NoDup ids ->
  (forall sid, In sid ids ->
     exists server, get_mcp_server sid db = Some server /\ server_id server = sid
                    /\ server_status server = Some "active"
                    /\ (truthy_str stype = true -> stype = Some (server_type server))) ->
  scoped (search_tools query db ids []).
Proof.
  intros Hnd Hids. rewrite search_tools_app. simpl app.
  assert (Hmap : map e_server_id
                   (flat_map (fun sid =>
                      match get_mcp_server sid db with
                      | Some server =>
                          [new_entry server
                             (filter_tools query (tools (server_capabilities server)))
                             [] []]
                      | None => []
                      end) ids) = ids).
  { clear Hnd. induction ids as [|sid ids IH]; [reflexivity|]. simpl.
    rewrite map_app, IH by (intros; apply Hids; now right).
    destruct (Hids sid (or_introl eq_refl)) as (server & -> & Hid & _). simpl.
    rewrite Hid. reflexivity. }
  split; [rewrite Hmap; exact Hnd|].
  apply List.Forall_forall. intros e He. apply in_flat_map in He as (sid & Hsid & He).
  destruct (Hids sid Hsid) as (server & Hg & Hid & Hact & Hty).
  rewrite Hg in He. destruct He as [<-|[]]. eapply entry_of_new_entry; eassumption.
Qed.

Lemma search_resources_scoped query ids results :
  (forall sid, In sid ids ->
     exists server, get_mcp_server sid db = Some server /\ server_id server = sid
                    /\ server_status server = Some "active"
                    /\ (truthy_str stype = true -> stype = Some (server_type server))) ->
  scoped results -> scoped (search_resources query db ids results).
Proof.
  unfold search_resources. revert results.
  induction ids as [|sid ids IH]; intros results Hids Hsc; simpl; [exact Hsc|].
  apply IH; [intros; apply Hids; now right|].
  destruct (Hids sid (or_introl eq_refl)) as (server & Hg & Hid & Hact & Hty).
  rewrite Hg. cbv zeta.
  apply (merge_step_scoped _ _ server sid).
  - intros r. reflexivity.
  - intros r. apply set_matched_resources_entry.
  - simpl. exact Hid.
  - eapply entry_of_new_entry; eassumption.
  - exact Hid.
  - exact Hsc.
Qed.

Lemma search_prompts_scoped query ids results :
  (forall sid, In sid ids ->
     exists server, get_mcp_server sid db = Some server /\ server_id server = sid
                    /\ server_status server = Some "active"
                    /\ (truthy_str stype = true -> stype = Some (server_type server))) ->
  scoped results -> scoped (search_prompts query db ids results).
Proof.
  unfold search_prompts. revert results.
  induction ids as [|sid ids IH]; intros results Hids Hsc; simpl; [exact Hsc|].
  apply IH; [intros; apply Hids; now right|].
  destruct (Hids sid (or_introl eq_refl)) as (server & Hg & Hid & Hact & Hty).
  rewrite Hg. cbv zeta.
  apply (merge_step_scoped _ _ server sid).
  - intros r. reflexivity.
  - intros r. apply set_matched_prompts_entry.
  - simpl. exact Hid.
  - eapply entry_of_new_entry; eassumption.
  - exact Hid.
  - exact Hsc.
Qed.

Lemma scoped_nil : scoped [].
Proof. split; constructor. Qed.

Lemma search_scoped query capability_type lim :
  (0 <= lim)%Z ->
  let found := search_mcp_capabilities query capability_type stype lim db in
  scoped found /\ (Z.of_nat (length found) <= lim)%Z.
Proof.
  intros Hlim found. subst found. unfold search_mcp_capabilities. cbv zeta.
  set (r1 := if kind_selected capability_type "tool" then _ else _).
  set (r2 := if kind_selected capability_type "resource" then _ else _).
  set (r3 := if kind_selected capability_type "prompt" then _ else _).
  assert (H1 : scoped r1).
  { unfold r1. destruct (kind_selected capability_type "tool"); [|apply scoped_nil].
    apply search_tools_scoped;
      [apply select_server_ids_NoDup | intros sid; apply selected_id_resolves]. }
  assert (H2 : scoped r2).
  { unfold r2. destruct (kind_selected capability_type "resource"); [|exact H1].
    apply search_resources_scoped; [intros sid; apply selected_id_resolves | exact H1]. }
  assert (H3 : scoped r3).
  { unfold r3. destruct (kind_selected capability_type "prompt"); [|exact H2].
    apply search_prompts_scoped; [intros sid; apply selected_id_resolves | exact H2]. }
  clearbody r3. clear r1 r2 H1 H2. destruct H3 as [Hnd Hall].
  unfold slice_to. destruct (Z.ltb_spec lim 0) as [Hneg|_]; [lia|].
  repeat split.
  - rewrite <- firstn_map. apply NoDup_firstn, Hnd.
  - apply List.Forall_forall. intros e He. apply in_firstn in He.
    revert e He. apply List.Forall_forall, Hall.
  - pose proof (firstn_le_length (Z.to_nat lim) r3). lia.
Qed.

End SearchAnyKind.

Section SearchRoute.
Import Http Scenario Spec Terms.

(** X7: [GET /mcp/search] on a store with unique server ids.  A limit
    outside 1..1000 is refused with 422.  Otherwise the answer is 200 with
    at most [limit] entries, whatever the query and the kind; no server
    appears twice; and every entry is that of a stored server whose status
    is [active] and whose type is the requested one, with that server's
    type, description and config. *)
Theorem X7_search_route_scope
    (app : Main.App) (query capability_type stype : option string) (lim : Z) :
  primary_key (tables (Main.db app)) ->
  match Registry.search_mcp_capabilities_route query capability_type stype lim app with
  | HTTPException code _ => code = 422%Z /\ (lim < 1 \/ 1000 < lim)%Z
  | Respond code found =>
      code = 200%Z /\ (1 <= lim <= 1000)%Z
      /\ (Z.of_nat (length found) <= lim)%Z
      /\ List.NoDup (map e_server_id found)
      /\ Forall (entry_of_active_server (Main.db app) stype) found
  end.
Proof.
  intros Hpk. unfold Registry.search_mcp_capabilities_route.
  destruct (Z.ltb_spec lim 1) as [Hlow|Hlow]; simpl; [split; [reflexivity|lia]|].
  destruct (Z.ltb_spec 1000 lim) as [Hhigh|Hhigh]; simpl; [split; [reflexivity|lia]|].
  destruct (search_scoped (Main.db app) stype Hpk query capability_type lim)
    as [[Hnd Hall] Hlen]; [lia|].
  repeat split; auto; lia.
Qed.

Lemma X7_search_route_scope_witness :
  match Registry.search_mcp_capabilities_route (Some "echo") None None 100 echo_app with
  | HTTPException code _ => code = 422%Z /\ (100 < 1 \/ 1000 < 100)%Z
  | Respond code found =>
      code = 200%Z /\ (1 <= 100 <= 1000)%Z
      /\ (Z.of_nat (length found) <= 100)%Z
      /\ List.NoDup (map e_server_id found)
      /\ Forall (entry_of_active_server (Main.db echo_app) None) found
  end.
Proof.
  apply (X7_search_route_scope echo_app (Some "echo") None None 100).
  vm_compute. repeat constructor. intros [].
Defined.

(** X8: a [capability_type] that is none of [tool], [resource], [prompt]
    (and not empty) selects no loop: the search returns the empty list on
    every store, for every query and limit. *)
Theorem X8_search_of_unknown_kind_is_empty
    (db : AgentDatabase) (query stype : option string) (kind : string) (lim : Z) :
  kind <> "" -> kind <> "tool" -> kind <> "resource" -> kind <> "prompt" ->
  search_mcp_capabilities query (Some kind) stype lim db = [].
Proof.
  intros H0 H1 H2 H3. unfold search_mcp_capabilities, kind_selected. simpl.
  apply String.eqb_neq in H0, H1, H2, H3. rewrite H0, H1, H2, H3. simpl.
  unfold slice_to. destruct (lim <? 0)%Z; simpl; [reflexivity | apply firstn_nil].
Qed.

Lemma X8_search_of_unknown_kind_is_empty_witness :
  search_mcp_capabilities (Some "echo") (Some "tools") None 10 echo_registry = [].
Proof.
  apply (X8_search_of_unknown_kind_is_empty echo_registry (Some "echo") None "tools" 10);
    discriminate.
Defined.

End SearchRoute.

(** ** Listing the servers *)

Section Listing.
Import Scenario Spec Terms Catalog.

Lemma in_insert_desc r x l : In x (insert_desc r l) <-> x = r \/ In x l.
Proof.
  induction l as [|y l IH]; simpl; [intuition congruence|].
  destruct (String.leb (srv_created_at y) (srv_created_at r)); simpl;
    [intuition congruence|]. rewrite IH. intuition congruence.
Qed.

Lemma in_order_by x l : In x (order_by_created_at_desc l) <-> In x l.
Proof.
  induction l as [|y l IH]; simpl; [tauto|]. rewrite in_insert_desc, IH.
  intuition congruence.
Qed.

Lemma length_insert_desc r l : length (insert_desc r l) = S (length l).
Proof.
  induction l as [|y l IH]; simpl; [reflexivity|].
  destruct (String.leb (srv_created_at y) (srv_created_at r)); simpl; congruence.
Qed.

Lemma length_order_by l : length (order_by_created_at_desc l) = length l.
Proof. induction l as [|y l IH]; simpl; [reflexivity|]. rewrite length_insert_desc. congruence. Qed.

Lemma insert_desc_sorted r l : Sorted newer_row l -> Sorted newer_row (insert_desc r l).
Proof.
  induction l as [|y l IH]; simpl; intros Hs; [repeat constructor|].
  destruct (String.leb (srv_created_at y) (srv_created_at r)) eqn:E.
  - constructor; [exact Hs|]. constructor. exact E.
  - apply Sorted_inv in Hs as [Hs Hhd]. constructor; [apply IH, Hs|].
    assert (Hyr : newer_row y r).
    { unfold newer_row. destruct (String.leb_total (srv_created_at r) (srv_created_at y));
        [assumption | congruence]. }
    destruct l as [|z l]; simpl; [constructor; exact Hyr|].
    destruct (String.leb (srv_created_at z) (srv_created_at r));
      constructor; [exact Hyr|]. inversion Hhd; assumption.
Qed.

Lemma order_by_sorted l : Sorted newer_row (order_by_created_at_desc l).
Proof. induction l; simpl; [constructor | apply insert_desc_sorted; assumption]. Qed.

Lemma sorted_map_records (f : ServerRow -> option MCPServer) (g : ServerRow -> MCPServer)
    (rows : list ServerRow) :
  (forall r, In r rows -> f r = Some (g r)) ->
  (forall r, server_created_at (g r) = srv_created_at r) ->
  Sorted newer_row rows -> newest_first (map f rows).
Proof.
  intros Hf Hg Hs. unfold newest_first.
  induction Hs as [|r rows Hs IH Hhd]; simpl; [constructor|].
  constructor; [apply IH; intros; apply Hf; now right|].
  destruct Hhd as [|z rows' Hrz]; simpl; constructor.
  rewrite (Hf r), (Hf z) by (simpl; auto). simpl. rewrite !Hg. exact Hrz.
Qed.

(** X9: [list_mcp_servers] on a store with unique ids returns a full record
    for exactly the stored servers that pass the type and status filters
    (an absent or empty filter passes everything), one per server, ordered
    by [created_at] from the newest to the oldest. *)
Theorem X9_listing_is_filtered_and_newest_first
    (db : AgentDatabase) (stype status : option string) :
  primary_key (tables db) ->
  let listed := list_mcp_servers stype status db in
  newest_first listed
  /\ (forall rec, In (Some rec) listed <->
        exists row, In row (mcp_servers (tables db))
                    /\ where_listed stype status row = true
                    /\ get_mcp_server (srv_id row) db = Some rec)
  /\ ~ In None listed
  /\ length listed = length (keep (where_listed stype status) (mcp_servers (tables db))).
Proof.
  intros Hpk listed. subst listed. unfold list_mcp_servers.
  set (rows := order_by_created_at_desc
                 (keep (where_listed stype status) (mcp_servers (tables db)))).
  assert (Hrows : forall r, In r rows <->
            In r (mcp_servers (tables db)) /\ where_listed stype status r = true).
  { intros r. unfold rows. rewrite in_order_by. apply List.filter_In. }
  assert (Hrec : forall r, In r rows ->
            get_mcp_server (srv_id r) db
            = Some {| server_id := srv_id r; server_type := srv_type r;
                      server_description := srv_description r;
                      server_config := json_loads (srv_config r);
                      server_created_at := srv_created_at r;
                      server_last_verified := srv_last_verified r;
                      server_status := srv_status r;
                      server_capabilities :=
                        {| tools := map Database.tool_dict
                                      (keep (tool_of (srv_id r)) (mcp_tools (tables db)));
                           resources := map Database.resource_dict
                                          (keep (resource_of (srv_id r))
                                             (mcp_resources (tables db)));
                           prompts := map Database.prompt_dict
                                        (keep (prompt_of (srv_id r))
                                           (mcp_prompts (tables db))) |} |}).
  { intros r Hr. apply get_row_record; [exact Hpk | apply Hrows, Hr]. }
  split; [|split; [|split]].
  - eapply sorted_map_records; [exact Hrec | reflexivity | apply order_by_sorted].
  - intros rec. rewrite in_map_iff. split.
    + intros (r & Hg & Hr). exists r. destruct (proj1 (Hrows r) Hr). auto.
    + intros (r & Hin & Hw & Hg). exists r. split; [exact Hg|]. apply Hrows. auto.
  - rewrite in_map_iff. intros (r & Hg & Hr). rewrite (Hrec r Hr) in Hg. discriminate.
  - rewrite length_map. unfold rows. apply length_order_by.
Qed.

Lemma X9_listing_is_filtered_and_newest_first_witness :
  let listed := list_mcp_servers (Some "stdio") None echo_registry in
  newest_first listed
  /\ (forall rec, In (Some rec) listed <->
        exists row, In row (mcp_servers (tables echo_registry))
                    /\ where_listed (Some "stdio") None row = true
                    /\ get_mcp_server (srv_id row) echo_registry = Some rec)
  /\ ~ In None listed
  /\ length listed
     = length (keep (where_listed (Some "stdio") None) (mcp_servers (tables echo_registry))).
Proof.
  apply (X9_listing_is_filtered_and_newest_first echo_registry (Some "stdio") None).
  vm_compute. repeat constructor. intros [].
Defined.

End Listing.

(** ** The agents table *)

Section AgentsTable.
Import Scenario Spec Terms Agents.

Lemma dict_get_set_eq k v d : dict_get k (dict_set k v d) = Some v.
Proof.
  induction d as [|[k' v'] d IH]; simpl.
  - rewrite String.eqb_refl. reflexivity.
  - destruct (k' =? k) eqn:E; simpl; [rewrite String.eqb_refl; reflexivity|].
    rewrite E. exact IH.
Qed.

Lemma dict_get_set_ne k k' v d : k <> k' -> dict_get k (dict_set k' v d) = dict_get k d.
Proof.
  intros Hne. induction d as [|[k0 v0] d IH]; simpl.
  - destruct (String.eqb_spec k' k); [congruence | reflexivity].
  - destruct (String.eqb_spec k0 k') as [->|Hk0]; simpl.
    + destruct (String.eqb_spec k' k); [congruence | reflexivity].
    + destruct (k0 =? k); [reflexivity | exact IH].
Qed.

Lemma dict_set_set k v1 v2 d : dict_set k v2 (dict_set k v1 d) = dict_set k v2 d.
Proof.
  induction d as [|[k0 v0] d IH]; simpl.
  - rewrite String.eqb_refl. reflexivity.
  - destruct (k0 =? k) eqn:E; simpl; [rewrite String.eqb_refl; reflexivity|].
    rewrite E. f_equal. exact IH.
Qed.

(** What [get_agent] reports under the four metadata keys comes from the
    row, whatever the card holds under them; every other key comes from the
    card. *)
Lemma agent_data_keys (r : AgentRow) :
  dict_get "id" (agent_data r) = Some (JStr (ag_id r))
  /\ dict_get "owner" (agent_data r) = Some (opt_str (ag_owner r))
  /\ dict_get "created_at" (agent_data r) = Some (JStr (ag_created_at r))
  /\ dict_get "last_heartbeat" (agent_data r) = Some (opt_str (ag_last_heartbeat r))
  /\ (forall k, ~ In k metadata_keys ->
                dict_get k (agent_data r) = dict_get k (ag_card r)).
Proof.
  unfold agent_data, dict_update, metadata. simpl.
  repeat split.
  - rewrite !dict_get_set_ne by discriminate. apply dict_get_set_eq.
  - rewrite !dict_get_set_ne by discriminate. apply dict_get_set_eq.
  - rewrite !dict_get_set_ne by discriminate. apply dict_get_set_eq.
  - apply dict_get_set_eq.
  - intros k Hk. unfold metadata_keys in Hk. simpl in Hk.
    rewrite !dict_get_set_ne by (intros ->; tauto). reflexivity.
Qed.

(** X10: an agent inserted under an id not stored yet is read back with
    its card laid under the metadata: [id], [owner], [created_at] and
    [last_heartbeat] are those of the registration, also when the card has
    fields of these names, and every other field of the card is returned as
    it was given. *)
Theorem X10_agent_insert_then_get
    (s : AgentStore) (aid : string) (card : list (string * JSON))
    (owner : option string) (now : string) :
  get_agent aid s = None ->
  exists d,
    (insert_agent aid card owner now s).1 = Return d
    /\ get_agent aid (insert_agent aid card owner now s).2 = Some d
    /\ dict_get "id" d = Some (JStr aid)
    /\ dict_get "owner" d = Some (opt_str owner)
    /\ dict_get "created_at" d = Some (JStr now)
    /\ dict_get "last_heartbeat" d = Some (JStr now)
    /\ (forall k, ~ In k metadata_keys -> dict_get k d = dict_get k card).
Proof.
  intros Hnone. unfold get_agent in Hnone.
  destruct (keep (agent_has_id aid) (agents s)) as [|r0 rest] eqn:Hfresh; [|discriminate].
  set (row := {| ag_id := aid; ag_card := card; ag_owner := owner;
                 ag_created_at := now; ag_last_heartbeat := Some now |}).
  assert (Hget : get_agent aid
                   (leave_agents s (add_changes 1 (_get_connection (base s)))
                      (agents s ++ [row])) = Some (agent_data row)).
  { unfold get_agent, leave_agents. simpl. rewrite keep_app, Hfresh. simpl.
    unfold keep. simpl. unfold agent_has_id at 1. simpl. rewrite String.eqb_refl.
    reflexivity. }
  exists (agent_data row). unfold insert_agent. rewrite Hfresh. cbv zeta.
  fold row. rewrite Hget. simpl. rewrite Hget.
  destruct (agent_data_keys row) as (H1 & H2 & H3 & H4 & H5). auto 10.
Qed.

End AgentsTable.

Lemma X10_agent_insert_then_get_witness :
  exists d,
    (Agents.insert_agent "a1" Cases.planner_card (Some "ops") Scenario.t0
       Cases.no_agents).1 = Py.Return d
    /\ Agents.get_agent "a1" Cases.one_agent = Some d
    /\ Py.dict_get "id" d = Some (Py.JStr "a1")
    /\ Py.dict_get "owner" d = Some (Py.JStr "ops")
    /\ Py.dict_get "created_at" d = Some (Py.JStr Scenario.t0)
    /\ Py.dict_get "last_heartbeat" d = Some (Py.JStr Scenario.t0)
    /\ (forall k, ~ In k Agents.metadata_keys ->
                  Py.dict_get k d = Py.dict_get k Cases.planner_card).
Proof.
  apply (X10_agent_insert_then_get Cases.no_agents "a1" Cases.planner_card
           (Some "ops") Scenario.t0).
  reflexivity.
Defined.

(** ** Writes to the agents table *)

Section AgentsWrites.
Import Py Models Sqlite Database Scenario Spec Terms Agents Cases.

Lemma keep_map_same {A} (f : A -> bool) (g : A -> A) (l : list A) :
  (forall x, f (g x) = f x) ->
  keep f (map g l) = map g (keep f l).
Proof.
  intros Hfg. unfold keep. induction l as [|x l IH]; simpl; [reflexivity|].
  rewrite Hfg. destruct (f x); simpl; rewrite IH; reflexivity.
Qed.

Lemma keep_map_untouched {A} (f h : A -> bool) (g : A -> A) (l : list A) :
  (forall x, f (g x) = f x) ->
  (forall x, f x = true -> h x = false) ->
  (forall x, h x = false -> g x = x) ->
  keep f (map g l) = keep f l.
Proof.
  intros Hfg Hfh Hg. unfold keep. induction l as [|x l IH]; simpl; [reflexivity|].
  rewrite Hfg. destruct (f x) eqn:E; rewrite IH; [|reflexivity].
  rewrite Hg by auto. reflexivity.
Qed.

Lemma keep_drop_same {A} (f : A -> bool) (l : list A) : keep f (drop f l) = [].
Proof.
  unfold keep, drop. induction l as [|x l IH]; simpl; [reflexivity|].
  destruct (f x) eqn:E; simpl; [exact IH|]. rewrite E. exact IH.
Qed.

Lemma keep_drop_apart {A} (f h : A -> bool) (l : list A) :
  (forall x, f x = true -> h x = false) ->
  keep f (drop h l) = keep f l.
Proof.
  intros Hfh. unfold keep, drop. induction l as [|x l IH]; simpl; [reflexivity|].
  destruct (f x) eqn:E.
  - rewrite (Hfh x E). simpl. rewrite E, IH. reflexivity.
  - destruct (h x); simpl; [|rewrite E]; exact IH.
Qed.

Lemma agent_ids_apart (aid other : string) (r : AgentRow) :
  other <> aid -> agent_has_id other r = true -> agent_has_id aid r = false.
Proof.
  unfold agent_has_id. intros Hne H. apply String.eqb_eq in H.
  apply String.eqb_neq. congruence.
Qed.

Lemma get_agent_rows (aid : string) (s s' : AgentStore) :
  keep (agent_has_id aid) (agents s') = keep (agent_has_id aid) (agents s) ->
  get_agent aid s' = get_agent aid s.
Proof. unfold get_agent. intros ->. reflexivity. Qed.

(** X11: a heartbeat of a stored agent sets [last_heartbeat] to the time
    of the call and changes nothing else that [get_agent] reports, neither
    of this agent nor of any other; the number of agents stays the same. *)
Theorem X11_heartbeat_sets_last_heartbeat_only
    (s : AgentStore) (aid now : string) (d : list (string * JSON)) :
  get_agent aid s = Some d ->
  exists d',
    get_agent aid (update_heartbeat aid now s).2 = Some d'
    /\ dict_get "last_heartbeat" d' = Some (JStr now)
    /\ (forall k, k <> "last_heartbeat" -> dict_get k d' = dict_get k d)
    /\ (forall other, other <> aid ->
          get_agent other (update_heartbeat aid now s).2 = get_agent other s)
    /\ count_agents (update_heartbeat aid now s).2 = count_agents s.
Proof.
  intros Hget. unfold get_agent in Hget.
  destruct (keep (agent_has_id aid) (agents s)) as [|r rest] eqn:Hrows; [discriminate|].
  injection Hget as <-.
  set (beat := fun r : AgentRow =>
                 if agent_has_id aid r then
                   {| ag_id := ag_id r; ag_card := ag_card r; ag_owner := ag_owner r;
                      ag_created_at := ag_created_at r; ag_last_heartbeat := Some now |}
                 else r).
  assert (Hid : forall other x, agent_has_id other (beat x) = agent_has_id other x).
  { intros other x. unfold beat. destruct (agent_has_id aid x); reflexivity. }
  assert (Hr : agent_has_id aid r = true).
  { assert (Hin : In r (keep (agent_has_id aid) (agents s))) by (rewrite Hrows; left; reflexivity).
    unfold keep in Hin. apply List.filter_In in Hin. tauto. }
  exists (agent_data (beat r)). repeat split.
  - unfold get_agent, update_heartbeat. simpl. fold beat.
    rewrite (keep_map_same _ beat) by apply Hid. rewrite Hrows. reflexivity.
  - unfold beat. rewrite Hr. unfold agent_data, dict_update, metadata. simpl.
    apply dict_get_set_eq.
  - intros k Hk. unfold beat. rewrite Hr.
    unfold agent_data, dict_update, metadata. simpl.
    rewrite !(dict_get_set_ne k "last_heartbeat") by exact Hk. reflexivity.
  - intros other Hne. apply get_agent_rows. unfold update_heartbeat. simpl. fold beat.
    apply (keep_map_untouched _ (agent_has_id aid)).
    + apply Hid.
    + intros x. apply agent_ids_apart. exact Hne.
    + intros x Hx. unfold beat. rewrite Hx. reflexivity.
  - unfold count_agents, update_heartbeat. simpl. apply length_map.
Qed.

Lemma X11_heartbeat_sets_last_heartbeat_only_witness :
  exists d',
    get_agent "a1" (update_heartbeat "a1" t1 two_agents).2 = Some d'
    /\ dict_get "last_heartbeat" d' = Some (JStr t1)
    /\ (forall k, k <> "last_heartbeat" ->
          dict_get k d' = dict_get k (agent_data
                                        {| ag_id := "a1"; ag_card := planner_card;
                                           ag_owner := Some "ops"; ag_created_at := t0;
                                           ag_last_heartbeat := Some t0 |}))
    /\ (forall other, other <> "a1" ->
          get_agent other (update_heartbeat "a1" t1 two_agents).2
          = get_agent other two_agents)
    /\ count_agents (update_heartbeat "a1" t1 two_agents).2 = count_agents two_agents.
Proof.
  apply (X11_heartbeat_sets_last_heartbeat_only two_agents "a1" t1).
  reflexivity.
Defined.

(** X12: after [delete_agent] the agent is gone and every other agent is
    read back as before; on a database file the call returns [True]
    exactly when an agent was stored under the id. *)
Theorem X12_delete_agent_removes_that_agent_only (s : AgentStore) (aid : string) :
  _connection (base s) = None ->
  get_agent aid (delete_agent aid s).2 = None
  /\ (forall other, other <> aid ->
        get_agent other (delete_agent aid s).2 = get_agent other s)
  /\ ((delete_agent aid s).1 = true <-> get_agent aid s <> None)
  /\ (get_agent aid s = None -> agents (delete_agent aid s).2 = agents s).
Proof.
  intros Hfile. repeat split.
  - unfold get_agent, delete_agent. simpl. rewrite keep_drop_same. reflexivity.
  - intros other Hne. apply get_agent_rows. unfold delete_agent. simpl.
    apply keep_drop_apart. intros x. apply agent_ids_apart. exact Hne.
  - unfold delete_agent, get_agent, _get_connection. rewrite Hfile. simpl.
    destruct (keep (agent_has_id aid) (agents s)); simpl; [discriminate|].
    intros _. discriminate.
  - unfold delete_agent, get_agent, _get_connection. rewrite Hfile. simpl.
    destruct (keep (agent_has_id aid) (agents s)); simpl; [|reflexivity].
    intros H. contradiction H. reflexivity.
  - unfold get_agent, delete_agent. simpl.
    destruct (keep (agent_has_id aid) (agents s)) as [|r rest] eqn:Hrows; [|discriminate].
    intros _. unfold drop. unfold keep in Hrows.
    clear Hfile. induction (agents s) as [|x l IH]; simpl in *; [reflexivity|].
    destruct (agent_has_id aid x); [discriminate|]. simpl. f_equal. apply IH. exact Hrows.
Qed.

Lemma X12_delete_agent_removes_that_agent_only_witness :
  get_agent "a1" (delete_agent "a1" two_agents).2 = None
  /\ (forall other, other <> "a1" ->
        get_agent other (delete_agent "a1" two_agents).2 = get_agent other two_agents)
  /\ ((delete_agent "a1" two_agents).1 = true <-> get_agent "a1" two_agents <> None)
  /\ (get_agent "a1" two_agents = None ->
      agents (delete_agent "a1" two_agents).2 = agents two_agents).
Proof.
  apply (X12_delete_agent_removes_that_agent_only two_agents "a1").
  reflexivity.
Defined.

(** X13: on the in-memory database, whose one connection has changed rows
    before, [delete_agent] and [update_heartbeat] return [True] for every
    id, also for an id under which nothing is stored and nothing is
    changed. *)
Theorem X13_in_memory_agent_writes_report_true
    (s : AgentStore) (c : Connection) (aid now : string) :
  _connection (base s) = Some c ->
  0 < total_changes c ->
  (delete_agent aid s).1 = true
  /\ (update_heartbeat aid now s).1 = true
  /\ (get_agent aid s = None ->
      agents (delete_agent aid s).2 = agents s
      /\ agents (update_heartbeat aid now s).2 = agents s).
Proof.
  intros Hmem Hpos. unfold delete_agent, update_heartbeat, _get_connection.
  rewrite Hmem. simpl. repeat split.
  - apply Nat.ltb_lt. lia.
  - apply Nat.ltb_lt. lia.
  - unfold get_agent in H.
    destruct (keep (agent_has_id aid) (agents s)) as [|r rest] eqn:Hrows; [|discriminate].
    unfold drop. unfold keep in Hrows.
    clear Hmem. induction (agents s) as [|x l IH]; simpl in *; [reflexivity|].
    destruct (agent_has_id aid x); [discriminate|]. simpl. f_equal. apply IH; auto.
  - unfold get_agent in H.
    destruct (keep (agent_has_id aid) (agents s)) as [|r rest] eqn:Hrows; [|discriminate].
    unfold keep in Hrows.
    clear Hmem. induction (agents s) as [|x l IH]; simpl in *; [reflexivity|].
    destruct (agent_has_id aid x); [discriminate|]. f_equal. apply IH; auto.
Qed.

Lemma X13_in_memory_agent_writes_report_true_witness :
  (delete_agent "ghost" one_agent_in_memory).1 = true
  /\ (update_heartbeat "ghost" t1 one_agent_in_memory).1 = true
  /\ (get_agent "ghost" one_agent_in_memory = None ->
      agents (delete_agent "ghost" one_agent_in_memory).2 = agents one_agent_in_memory
      /\ agents (update_heartbeat "ghost" t1 one_agent_in_memory).2
         = agents one_agent_in_memory).
Proof.
  apply (X13_in_memory_agent_writes_report_true one_agent_in_memory
           {| total_changes := 1; foreign_keys := false |} "ghost" t1).
  - reflexivity.
  - simpl. lia.
Defined.

End AgentsWrites.

(** ** Updating an agent card *)

Section AgentsUpdate.
Import Py Models Sqlite Database Scenario Spec Terms Agents Cases.

Variable py_str : JSON -> string.

Lemma dict_get_filter_key (f : string -> bool) (k : string) (d : list (string * JSON)) :
  f k = true -> dict_get k (List.filter (fun kv => f (fst kv)) d) = dict_get k d.
Proof.
  intros Hk. induction d as [|[k' v] d IH]; simpl; [reflexivity|].
  destruct (String.eqb_spec k' k) as [->|Hne].
  - rewrite Hk. simpl. rewrite String.eqb_refl. reflexivity.
  - destruct (f k'); simpl; [|exact IH].
    destruct (String.eqb_spec k' k); [contradiction|exact IH].
Qed.

Lemma dict_get_without_metadata (k : string) (d : list (string * JSON)) :
  ~ In k metadata_keys -> dict_get k (without_metadata d) = dict_get k d.
Proof.
  intros Hk. unfold without_metadata.
  apply (dict_get_filter_key
           (fun key => negb (existsb (String.eqb key) metadata_keys))).
  apply negb_true_iff, not_true_is_false. intros Hex. apply existsb_exists in Hex.
  destruct Hex as (x & Hx & Heq). apply String.eqb_eq in Heq. subst x. tauto.
Qed.

Lemma apply_updates_snoc (updates : list (string * JSON)) (kv : string * JSON)
    (card : list (string * JSON)) :
  apply_updates py_str (updates ++ [kv]) card
  = dict_set (fst kv) (stored_value py_str kv) (apply_updates py_str updates card).
Proof.
  unfold apply_updates. rewrite fold_left_app. simpl. unfold stored_value.
  destruct (fst kv =? "url"); reflexivity.
Qed.

(** After the loop a key holds the value of its last item in [updates],
    and what the card held when [updates] does not name it. *)
Lemma dict_get_apply_updates (k : string) (updates card : list (string * JSON)) :
  dict_get k (apply_updates py_str updates card)
  = match assigned py_str k updates with
    | Some v => Some v
    | None => dict_get k card
    end.
Proof.
  induction updates as [|kv updates IH] using rev_ind; [reflexivity|].
  rewrite apply_updates_snoc. unfold assigned. rewrite rev_app_distr. simpl.
  destruct (String.eqb_spec (fst kv) k) as [<-|Hne].
  - apply dict_get_set_eq.
  - rewrite dict_get_set_ne by congruence. exact IH.
Qed.

(** X14: [update_agent] on a stored agent merges the updates into the
    card: read back, a field named in [updates] holds the value given for
    it (as a string when the field is [url]), every other field of the card
    is as before, and [id], [owner], [created_at] and [last_heartbeat] stay
    those of the row even when [updates] names them.  No other agent
    changes. *)
Theorem X14_update_agent_merges_into_the_card
    (s : AgentStore) (aid : string) (updates d : list (string * JSON)) :
  get_agent aid s = Some d ->
  exists d',
    get_agent aid (update_agent py_str aid updates s).2 = Some d'
    /\ (forall k, In k metadata_keys -> dict_get k d' = dict_get k d)
    /\ (forall k, ~ In k metadata_keys ->
          dict_get k d' = match assigned py_str k updates with
                          | Some v => Some v
                          | None => dict_get k d
                          end)
    /\ (forall other, other <> aid ->
          get_agent other (update_agent py_str aid updates s).2 = get_agent other s).
Proof.
  intros Hget. unfold update_agent. rewrite Hget.
  unfold get_agent in Hget.
  destruct (keep (agent_has_id aid) (agents s)) as [|r rest] eqn:Hrows; [discriminate|].
  injection Hget as <-.
  set (card' := apply_updates py_str updates (without_metadata (agent_data r))).
  set (put := fun r : AgentRow =>
                if agent_has_id aid r then
                  {| ag_id := ag_id r; ag_card := card'; ag_owner := ag_owner r;
                     ag_created_at := ag_created_at r;
                     ag_last_heartbeat := ag_last_heartbeat r |}
                else r).
  assert (Hid : forall other x, agent_has_id other (put x) = agent_has_id other x).
  { intros other x. unfold put. destruct (agent_has_id aid x); reflexivity. }
  assert (Hr : agent_has_id aid r = true).
  { assert (Hin : In r (keep (agent_has_id aid) (agents s)))
      by (rewrite Hrows; left; reflexivity).
    unfold keep in Hin. apply List.filter_In in Hin. tauto. }
  exists (agent_data (put r)). repeat split.
  - unfold get_agent. simpl. fold put.
    rewrite (keep_map_same _ put) by apply Hid. rewrite Hrows. reflexivity.
  - intros k Hk. unfold put. rewrite Hr.
    destruct (agent_data_keys r) as (H1 & H2 & H3 & H4 & _).
    destruct (agent_data_keys
                {| ag_id := ag_id r; ag_card := card'; ag_owner := ag_owner r;
                   ag_created_at := ag_created_at r;
                   ag_last_heartbeat := ag_last_heartbeat r |})
      as (G1 & G2 & G3 & G4 & _).
    simpl in G1, G2, G3, G4. unfold metadata_keys in Hk. simpl in Hk.
    destruct Hk as [<-|[<-|[<-|[<-|[]]]]]; congruence.
  - intros k Hk. unfold put. rewrite Hr.
    destruct (agent_data_keys r) as (_ & _ & _ & _ & H5).
    destruct (agent_data_keys
                {| ag_id := ag_id r; ag_card := card'; ag_owner := ag_owner r;
                   ag_created_at := ag_created_at r;
                   ag_last_heartbeat := ag_last_heartbeat r |})
      as (_ & _ & _ & _ & G5).
    rewrite (G5 k Hk). simpl. unfold card'. rewrite dict_get_apply_updates.
    rewrite dict_get_without_metadata by exact Hk. reflexivity.
  - intros other Hne. apply get_agent_rows. simpl. fold put.
    apply (keep_map_untouched _ (agent_has_id aid)).
    + apply Hid.
    + intros x. apply agent_ids_apart. exact Hne.
    + intros x Hx. unfold put. rewrite Hx. reflexivity.
Qed.

(** An update of an id under which nothing is stored returns [False] and
    writes nothing. *)
Lemma update_agent_of_unknown_id (s : AgentStore) (aid : string)
    (updates : list (string * JSON)) :
  get_agent aid s = None -> update_agent py_str aid updates s = (false, s).
Proof. intros H. unfold update_agent. rewrite H. reflexivity. Qed.

End AgentsUpdate.

Lemma X14_update_agent_merges_into_the_card_witness :
  exists d',
    Agents.get_agent "a1"
      (Agents.update_agent Cases.str_of "a1"
         [("owner", Py.JStr "mallory"); ("url", Py.JStr "http://a1");
          ("version", Py.JStr "2.0")] Cases.two_agents).2 = Some d'
    /\ (forall k, In k Agents.metadata_keys ->
          Py.dict_get k d'
          = Py.dict_get k (Agents.agent_data
                             {| Agents.ag_id := "a1"; Agents.ag_card := Cases.planner_card;
                                Agents.ag_owner := Some "ops";
                                Agents.ag_created_at := Scenario.t0;
                                Agents.ag_last_heartbeat := Some Scenario.t0 |}))
    /\ (forall k, ~ In k Agents.metadata_keys ->
          Py.dict_get k d'
          = match Cases.assigned Cases.str_of k
                    [("owner", Py.JStr "mallory"); ("url", Py.JStr "http://a1");
                     ("version", Py.JStr "2.0")] with
            | Some v => Some v
            | None =>
                Py.dict_get k (Agents.agent_data
                                 {| Agents.ag_id := "a1";
                                    Agents.ag_card := Cases.planner_card;
                                    Agents.ag_owner := Some "ops";
                                    Agents.ag_created_at := Scenario.t0;
                                    Agents.ag_last_heartbeat := Some Scenario.t0 |})
            end)
    /\ (forall other, other <> "a1" ->
          Agents.get_agent other
            (Agents.update_agent Cases.str_of "a1"
               [("owner", Py.JStr "mallory"); ("url", Py.JStr "http://a1");
                ("version", Py.JStr "2.0")] Cases.two_agents).2
          = Agents.get_agent other Cases.two_agents).
Proof.
  apply (X14_update_agent_merges_into_the_card Cases.str_of Cases.two_agents "a1").
  reflexivity.
Defined.

(** ** The pool: closing, idle cleanup, reuse, health *)

Section PoolMore.
Import Py Models Database Manager Monitor Scenario Spec Cases.

Lemma close_connection_effect env sid st :
  connections (_close_connection env sid st) = delete sid (connections st)
  /\ log (_close_connection env sid st)
     = (log st ++ match connections st !! sid with
                  | Some conn => teardown env conn
                  | None => []
                  end)%list
  /\ _locks (_close_connection env sid st) = _locks st
  /\ next_object (_close_connection env sid st) = next_object st.
Proof.
  unfold _close_connection. destruct (connections st !! sid) eqn:E; simpl.
  - auto.
  - rewrite delete_id by exact E. rewrite app_nil_r. auto.
Qed.

(** Closing a list of distinct ids, one after the other. *)
Lemma close_each env (ks : list string) (st : State) :
  List.NoDup ks ->
  let st' := fold_left (fun st sid => _close_connection env sid st) ks st in
  (forall k, In k ks -> connections st' !! k = None)
  /\ (forall k, ~ In k ks -> connections st' !! k = connections st !! k)
  /\ log st'
     = (log st ++ concat (map (fun k => match connections st !! k with
                                        | Some conn => teardown env conn
                                        | None => []
                                        end) ks))%list
  /\ _locks st' = _locks st.
Proof.
  intros Hnd. revert st. induction Hnd as [|k ks Hk Hnd IH]; intros st; simpl.
  - rewrite app_nil_r. repeat split. contradiction.
  - destruct (close_connection_effect env k st) as (Hc & Hl & Hlk & _).
    destruct (IH (_close_connection env k st)) as (H1 & H2 & H3 & H4).
    repeat split.
    + intros k' [<-|Hin]; [|auto].
      rewrite (H2 k Hk), Hc. apply lookup_delete_eq.
    + intros k' Hout.
      rewrite H2 by tauto. rewrite Hc. apply lookup_delete_ne. tauto.
    + rewrite H3, Hl, <- app_assoc. do 2 f_equal.
      f_equal. apply map_ext_in. intros k' Hin. rewrite Hc.
      rewrite lookup_delete_ne; [reflexivity|]. intros ->. contradiction.
    + congruence.
Qed.

Lemma NoDup_keys_filter {A} (f : string * A -> bool) (l : list (string * A)) :
  List.NoDup (map fst l) -> List.NoDup (map fst (List.filter f l)).
Proof.
  induction l as [|x l IH]; simpl; intros Hnd; [constructor|].
  apply List.NoDup_cons_iff in Hnd. destruct Hnd as [Hx Hnd].
  destruct (f x); simpl; [|auto].
  constructor; [|auto]. intros Hin. apply Hx.
  apply in_map_iff in Hin. destruct Hin as (y & Hy & Hin).
  apply List.filter_In in Hin. apply in_map_iff. exists y. tauto.
Qed.

Lemma NoDup_keys (m : gmap string MCPConnection) :
  List.NoDup (map fst (map_to_list m)).
Proof. apply NoDup_ListNoDup. apply (NoDup_fst_map_to_list m). Qed.

Lemma entry_of_map (m : gmap string MCPConnection) (kv : string * MCPConnection) :
  In kv (map_to_list m) <-> m !! kv.1 = Some kv.2.
Proof.
  destruct kv as [k v]. rewrite <- list_elem_of_In. apply elem_of_map_to_list.
Qed.

Lemma teardowns_of_entries env (m : gmap string MCPConnection)
    (l : list (string * MCPConnection)) :
  (forall kv, In kv l -> In kv (map_to_list m)) ->
  concat (map (fun k => match m !! k with
                        | Some conn => teardown env conn
                        | None => []
                        end) (map fst l))
  = concat (map (fun kv => teardown env kv.2) l).
Proof.
  intros Hsub. rewrite map_map. f_equal. apply map_ext_in. intros kv Hin.
  apply Hsub, entry_of_map in Hin. rewrite Hin. reflexivity.
Qed.

(** X15: [close_all_connections] leaves the pool empty.  Every connection
    that was pooled is torn down once, session context first and client
    context second, and nothing else happens: the locks stay as they
    were. *)
Theorem X15_close_all_empties_the_pool (env : Env) (st : State) :
  connections (close_all_connections env st) = ∅
  /\ log (close_all_connections env st)
     = (log st ++ concat (map (fun kv => teardown env kv.2)
                            (map_to_list (connections st))))%list
  /\ _locks (close_all_connections env st) = _locks st.
Proof.
  unfold close_all_connections.
  destruct (close_each env (map fst (map_to_list (connections st))) st
              (NoDup_keys _)) as (H1 & H2 & H3 & H4).
  repeat split.
  - apply map_eq. intros k. rewrite lookup_empty.
    destruct (connections st !! k) as [conn|] eqn:E.
    + apply H1. apply in_map_iff. exists (k, conn). split; [reflexivity|].
      apply entry_of_map. exact E.
    + rewrite H2; [exact E|]. intros Hin. apply in_map_iff in Hin.
      destruct Hin as (kv & <- & Hin). apply entry_of_map in Hin. congruence.
  - rewrite H3. f_equal. apply teardowns_of_entries. auto.
  - exact H4.
Qed.

(** X16: the idle cleanup closes the connections that have been idle for
    more than [idle_timeout] seconds and no other: such an entry leaves the
    pool, torn down once, while an entry idle for exactly the timeout or
    less stays as it is. *)
Theorem X16_idle_cleanup_closes_the_idle_only
    (env : Env) (idle_timeout : Z) (st : State) (sid : string) (conn : MCPConnection) :
  connections st !! sid = Some conn ->
  ((idle_timeout * 1000000 < clock env - last_activity conn)%Z ->
   connections (_cleanup_idle_connections env idle_timeout st) !! sid = None)
  /\ ((clock env - last_activity conn <= idle_timeout * 1000000)%Z ->
      connections (_cleanup_idle_connections env idle_timeout st) !! sid = Some conn)
  /\ log (_cleanup_idle_connections env idle_timeout st)
     = (log st
        ++ concat (map (fun kv => teardown env kv.2)
                     (List.filter (fun kv => is_idle idle_timeout (clock env) kv.2)
                        (map_to_list (connections st)))))%list
  /\ size (connections (_cleanup_idle_connections env idle_timeout st))
     <= size (connections st).
Proof.
  intros Hconn. unfold _cleanup_idle_connections.
  set (idle := fun kv : string * MCPConnection => is_idle idle_timeout (clock env) (snd kv)).
  destruct (close_each env (map fst (List.filter idle (map_to_list (connections st)))) st
              (NoDup_keys_filter idle _ (NoDup_keys _))) as (H1 & H2 & H3 & H4).
  assert (Hlisted : In sid (map fst (List.filter idle (map_to_list (connections st))))
                    <-> is_idle idle_timeout (clock env) conn = true).
  { rewrite in_map_iff. split.
    - intros (kv & <- & Hin). apply List.filter_In in Hin. destruct Hin as [Hin Hidle].
      apply entry_of_map in Hin. unfold idle in Hidle. congruence.
    - intros Hidle. exists (sid, conn). split; [reflexivity|].
      apply List.filter_In. split; [apply entry_of_map; exact Hconn | exact Hidle]. }
  repeat split.
  - intros Hlong. apply H1, Hlisted. unfold is_idle. apply Z.ltb_lt. exact Hlong.
  - intros Hshort. rewrite H2; [exact Hconn|]. rewrite Hlisted. unfold is_idle.
    intros Hidle. apply Z.ltb_lt in Hidle. lia.
  - rewrite H3. f_equal. apply teardowns_of_entries.
    intros kv Hin. apply List.filter_In in Hin. tauto.
  - apply map_subseteq_size, map_subseteq_spec. intros k v Hk.
    destruct (in_dec String.string_dec k
                (map fst (List.filter idle (map_to_list (connections st))))) as [Hin|Hout].
    + rewrite (H1 k Hin) in Hk. discriminate.
    + rewrite (H2 k Hout) in Hk. exact Hk.
Qed.

Lemma X16_idle_cleanup_closes_the_idle_only_witness :
  ((300 * 1000000 < clock at_400s - last_activity echo_connection)%Z ->
   connections (_cleanup_idle_connections at_400s 300 two_pool) !! "s1" = None)
  /\ ((clock at_400s - last_activity echo_connection <= 300 * 1000000)%Z ->
      connections (_cleanup_idle_connections at_400s 300 two_pool) !! "s1"
      = Some echo_connection)
  /\ log (_cleanup_idle_connections at_400s 300 two_pool)
     = (log two_pool
        ++ concat (map (fun kv => teardown at_400s kv.2)
                     (List.filter (fun kv => is_idle 300 (clock at_400s) kv.2)
                        (map_to_list (connections two_pool)))))%list
  /\ size (connections (_cleanup_idle_connections at_400s 300 two_pool))
     <= size (connections two_pool).
Proof.
  apply (X16_idle_cleanup_closes_the_idle_only at_400s 300 two_pool "s1" echo_connection).
  vm_compute. reflexivity.
Defined.

(** On that pool the cleanup at 400 seconds closes [s1], idle since time 0,
    and keeps [s2], used at 200 seconds. *)
Lemma idle_cleanup_on_two_pool :
  map fst (map_to_list (connections (_cleanup_idle_connections at_400s 300 two_pool)))
  = ["s2"]
  /\ log (_cleanup_idle_connections at_400s 300 two_pool)
     = (log two_pool ++ [SessionExit 1; ClientExit 0])%list.
Proof. vm_compute. split; reflexivity. Qed.

End PoolMore.

(** ** The pool: reuse, health checks and reconnection *)

Section PoolReuse.
Import Py Models Database Manager Monitor Routes Scenario Spec Cases.

(** A call that finds a healthy entry hands it out and touches nothing but
    that entry. *)
Lemma get_connection_warm env db sid st conn :
  connections st !! sid = Some conn ->
  is_healthy conn = true ->
  get_connection env db sid st
  = (Return (update_activity (clock env) conn),
     set_connections (insert sid (update_activity (clock env) conn)) st).
Proof.
  intros Hconn Hok. unfold get_connection. rewrite Hconn, Hok. reflexivity.
Qed.

(** X17: while the pool holds a healthy connection for a server, every
    [get_connection] for it returns that same session and opens nothing:
    after any number of calls the log and the locks are as before, the
    other entries are untouched, and the entry has counted one request per
    call. *)
Theorem X17_pooled_connection_is_reused
    (envs : list Env) (db : AgentDatabase) (sid : string) (st : State)
    (conn : MCPConnection) :
  connections st !! sid = Some conn ->
  is_healthy conn = true ->
  reused_from (session conn) (request_count conn) (get_connections envs db sid st).1
  /\ length (get_connections envs db sid st).1 = length envs
  /\ log (get_connections envs db sid st).2 = log st
  /\ _locks (get_connections envs db sid st).2 = _locks st
  /\ (forall other, other <> sid ->
        connections (get_connections envs db sid st).2 !! other
        = connections st !! other)
  /\ (exists conn',
        connections (get_connections envs db sid st).2 !! sid = Some conn'
        /\ session conn' = session conn
        /\ request_count conn' = request_count conn + length envs
        /\ connected_at conn' = connected_at conn).
Proof.
  revert st conn. induction envs as [|env envs IH]; intros st conn Hconn Hok.
  - simpl. repeat split; auto. exists conn. repeat split; auto.
  - simpl. rewrite (get_connection_warm env db sid st conn Hconn Hok).
    set (conn1 := update_activity (clock env) conn).
    set (st1 := set_connections (insert sid conn1) st).
    destruct (IH st1 conn1) as (H1 & H2 & H3 & H4 & H5 & (conn' & H6 & H7 & H8 & H9)).
    { unfold st1. simpl. apply lookup_insert_eq. }
    { exact Hok. }
    destruct (get_connections envs db sid st1) as [rs st2]. simpl in *.
    replace (request_count conn + 1) with (S (request_count conn)) in * by lia.
    repeat split; auto.
    + intros other Hne. rewrite H5 by exact Hne. apply lookup_insert_ne. congruence.
    + exists conn'. repeat split; auto. lia.
Qed.

Lemma X17_pooled_connection_is_reused_witness :
  reused_from 1 0 (get_connections [calm; at_200s; at_400s] echo_registry "s1" echo_pool).1
  /\ length (get_connections [calm; at_200s; at_400s] echo_registry "s1" echo_pool).1 = 3
  /\ log (get_connections [calm; at_200s; at_400s] echo_registry "s1" echo_pool).2
     = log echo_pool
  /\ _locks (get_connections [calm; at_200s; at_400s] echo_registry "s1" echo_pool).2
     = _locks echo_pool
  /\ (forall other, other <> "s1" ->
        connections (get_connections [calm; at_200s; at_400s] echo_registry "s1"
                       echo_pool).2 !! other
        = connections echo_pool !! other)
  /\ (exists conn',
        connections (get_connections [calm; at_200s; at_400s] echo_registry "s1"
                       echo_pool).2 !! "s1" = Some conn'
        /\ session conn' = 1
        /\ request_count conn' = 0 + 3
        /\ connected_at conn' = 0%Z).
Proof.
  apply (X17_pooled_connection_is_reused [calm; at_200s; at_400s] echo_registry "s1"
           echo_pool echo_connection).
  - vm_compute. reflexivity.
  - reflexivity.
Defined.

Lemma well_configured_key stype config :
  well_configured stype config ->
  exists key v, required_key stype = Some key /\ config_get key config = Some v.
Proof.
  unfold well_configured, required_key, Client.config_get, config_get.
  intros [[-> H]|[[->| ->] H]]; simpl.
  - exists "command". destruct config; try discriminate.
    destruct (dict_get "command" l); [eauto|discriminate].
  - exists "url". destruct config; try discriminate.
    destruct (dict_get "url" l); [eauto|discriminate].
  - exists "url". destruct config; try discriminate.
    destruct (dict_get "url" l); [eauto|discriminate].
Qed.

(** A successful open from a pool without an entry for the id. *)
Lemma get_connection_cold_success env db sid st server :
  connections st !! sid = None ->
  get_mcp_server sid db = Some server ->
  well_configured (server_type server) (server_config server) ->
  open_outcome env = OpenOk ->
  let conn := new_connection sid server (clock env) (next_object st) (S (next_object st)) in
  (get_connection env db sid st).1 = Return conn
  /\ connections (get_connection env db sid st).2 = <[sid := conn]> (connections st)
  /\ log (get_connection env db sid st).2
     = (log st ++ [ClientEnter sid (next_object st);
                   SessionEnter sid (S (next_object st));
                   SessionInitialize sid (S (next_object st))])%list
  /\ locked sid (get_connection env db sid st).2 = false.
Proof.
  intros Hcold Hserver Hcfg Hopen.
  destruct (well_configured_key _ _ Hcfg) as (key & v & Hkey & Hv).
  assert (Hrun : get_connection env db sid st
                 = let '(r, st') :=
                     under_lock env db sid (acquire sid (_get_lock sid st)) in
                   (r, release sid st')).
  { unfold get_connection. rewrite Hcold. reflexivity. }
  rewrite Hrun. clear Hrun. unfold under_lock.
  assert (Hc : connections (acquire sid (_get_lock sid st)) = connections st).
  { unfold acquire, _get_lock. destruct (_locks st !! sid); reflexivity. }
  assert (Hn : next_object (acquire sid (_get_lock sid st)) = next_object st).
  { unfold acquire, _get_lock. destruct (_locks st !! sid); reflexivity. }
  assert (Hl : log (acquire sid (_get_lock sid st)) = log st).
  { unfold acquire, _get_lock. destruct (_locks st !! sid); reflexivity. }
  rewrite Hc, Hcold. unfold _create_connection, begin_open.
  rewrite Hserver, Hkey, Hv. unfold finish_open. rewrite Hopen. simpl.
  assert (Hg : connections (_get_lock sid st) = connections st
               /\ next_object (_get_lock sid st) = next_object st
               /\ log (_get_lock sid st) = log st).
  { unfold _get_lock. destruct (_locks st !! sid); auto. }
  destruct Hg as (-> & -> & ->). rewrite <- app_assoc. simpl.
  replace (next_object st + 1) with (S (next_object st)) by lia.
  repeat split. unfold locked, release. simpl. rewrite lookup_insert_eq. reflexivity.
Qed.

(** X18: a failed health check marks the pooled connection: the status
    route reports [error] with the text of the failure.  The next
    [get_connection] for the server closes that connection (session
    context, then client context) and opens a new one, which replaces it in
    the pool with its counters at zero. *)
Theorem X18_failed_health_check_forces_reconnect
    (e : Exn) (env : Env) (db : AgentDatabase) (sid : string) (st : State)
    (conn : MCPConnection) (server : MCPServer) :
  connections st !! sid = Some conn ->
  get_mcp_server sid db = Some server ->
  well_configured (server_type server) (server_config server) ->
  open_outcome env = OpenOk ->
  let checked := health_check (Raise e) sid st in
  let fresh := new_connection sid server (clock env)
                 (next_object st) (S (next_object st)) in
  checked.1 = false
  /\ cs_status (get_connection_status_route sid checked.2) = "error"
  /\ cs_error_message (get_connection_status_route sid checked.2) = Some (Client.str e)
  /\ cs_request_count (get_connection_status_route sid checked.2) = request_count conn
  /\ (get_connection env db sid checked.2).1 = Return fresh
  /\ connections (get_connection env db sid checked.2).2 !! sid = Some fresh
  /\ log (get_connection env db sid checked.2).2
     = (log st ++ teardown env conn
        ++ [ClientEnter sid (next_object st);
            SessionEnter sid (S (next_object st));
            SessionInitialize sid (S (next_object st))])%list
  /\ cs_status (get_connection_status_route sid (get_connection env db sid checked.2).2)
     = "connected".
Proof.
  intros Hconn Hserver Hcfg Hopen checked fresh.
  set (marked := (conn_health_check (Raise e) conn).2).
  assert (Hchecked : checked = (false, set_connections (insert sid marked) st)).
  { unfold checked, health_check. rewrite Hconn. reflexivity. }
  rewrite Hchecked. simpl.
  set (st1 := set_connections (insert sid marked) st).
  assert (Hmarked : connections st1 !! sid = Some marked).
  { unfold st1. simpl. apply lookup_insert_eq. }
  assert (Hstatus : get_connection_status_route sid st1 = get_status marked).
  { unfold get_connection_status_route, Monitor.get_connection_status.
    rewrite Hmarked. reflexivity. }
  rewrite Hstatus.
  assert (Hrun : get_connection env db sid st1
                 = get_connection env db sid (_close_connection env sid st1)).
  { unfold get_connection at 1. rewrite Hmarked. simpl.
    unfold get_connection.
    assert (Hgone : connections (_close_connection env sid st1) !! sid = None).
    { unfold _close_connection. rewrite Hmarked. simpl. apply lookup_delete_eq. }
    rewrite Hgone. reflexivity. }
  rewrite Hrun.
  set (st2 := _close_connection env sid st1).
  assert (Hst2 : connections st2 !! sid = None
                 /\ log st2 = (log st ++ teardown env conn)%list
                 /\ next_object st2 = next_object st).
  { unfold st2, _close_connection. rewrite Hmarked. simpl.
    rewrite lookup_delete_eq. auto. }
  destruct Hst2 as (Hcold & Hlog & Hnext).
  destruct (get_connection_cold_success env db sid st2 server Hcold Hserver Hcfg Hopen)
    as (G1 & G2 & G3 & _).
  rewrite Hnext in G1, G2, G3. fold fresh in G1, G2.
  repeat split; auto.
  - rewrite G2. apply lookup_insert_eq.
  - rewrite G3, Hlog, <- app_assoc. reflexivity.
  - unfold get_connection_status_route, Monitor.get_connection_status.
    rewrite G2, lookup_insert_eq. reflexivity.
Qed.

Lemma X18_failed_health_check_forces_reconnect_witness :
  let checked := health_check (Raise (OtherError "broken pipe")) "s1" echo_pool in
  let fresh := new_connection "s1"
                 {| server_id := "s1"; server_type := "stdio";
                    server_description := None; server_config := echo_config;
                    server_created_at := t0; server_last_verified := Some t0;
                    server_status := Some "active";
                    server_capabilities := echo_caps |}
                 (clock at_200s) (next_object echo_pool) (S (next_object echo_pool)) in
  checked.1 = false
  /\ cs_status (get_connection_status_route "s1" checked.2) = "error"
  /\ cs_error_message (get_connection_status_route "s1" checked.2)
     = Some (Client.str (OtherError "broken pipe"))
  /\ cs_request_count (get_connection_status_route "s1" checked.2)
     = request_count echo_connection
  /\ (get_connection at_200s echo_registry "s1" checked.2).1 = Return fresh
  /\ connections (get_connection at_200s echo_registry "s1" checked.2).2 !! "s1"
     = Some fresh
  /\ log (get_connection at_200s echo_registry "s1" checked.2).2
     = (log echo_pool ++ teardown at_200s echo_connection
        ++ [ClientEnter "s1" (next_object echo_pool);
            SessionEnter "s1" (S (next_object echo_pool));
            SessionInitialize "s1" (S (next_object echo_pool))])%list
  /\ cs_status (get_connection_status_route "s1"
                  (get_connection at_200s echo_registry "s1" checked.2).2)
     = "connected".
Proof.
  apply (X18_failed_health_check_forces_reconnect (OtherError "broken pipe") at_200s
           echo_registry "s1" echo_pool echo_connection).
  - vm_compute. reflexivity.
  - vm_compute. reflexivity.
  - left. split; reflexivity.
  - reflexivity.
Defined.

End PoolReuse.

(** ** The gateway routes *)

Section GatewayMore.
Import Py Models Database Manager Monitor Http Gateway Routes Scenario Spec Cases.

Lemma get_connection_unknown env db sid st :
  connections st !! sid = None ->
  get_mcp_server sid db = None ->
  get_connection env db sid st
  = (Raise (ValueError ("Server not found: " ++ sid)),
     release sid (acquire sid (_get_lock sid st))).
Proof.
  intros Hcold Hnone.
  assert (Hrun : get_connection env db sid st
                 = let '(r, st') :=
                     under_lock env db sid (acquire sid (_get_lock sid st)) in
                   (r, release sid st')).
  { unfold get_connection. rewrite Hcold. reflexivity. }
  rewrite Hrun. unfold under_lock.
  assert (Hc : connections (acquire sid (_get_lock sid st)) = connections st).
  { unfold acquire, _get_lock. destruct (_locks st !! sid); reflexivity. }
  rewrite Hc, Hcold. unfold _create_connection, begin_open. rewrite Hnone. reflexivity.
Qed.

(** X19: for an id that is neither pooled nor registered every gateway
    endpoint that needs a connection answers 404 with [Server not found:
    <id>], and the event stream consists of that error and [disconnected].
    The pool and the log are left as they were; a lock for the id, not
    held, stays behind in [_locks]. *)
Theorem X19_unknown_server_is_not_found
    (env : Env) (db : AgentDatabase) (sessions : nat -> Session) (sid : string)
    (st : State) (message : JSONRPCRequest) (tool uri name : string)
    (arguments : JSON) (prompt_arguments : option JSON)
    (polls : list bool) (ending : Ending) :
  connections st !! sid = None ->
  get_mcp_server sid db = None ->
  (gateway_message_proxy env db sessions sid message st).1
  = HTTPException 404 ("Server not found: " ++ sid)
  /\ (call_tool_direct env db sessions sid tool arguments st).1
     = HTTPException 404 ("Server not found: " ++ sid)
  /\ (read_resource_direct env db sessions sid uri st).1
     = HTTPException 404 ("Server not found: " ++ sid)
  /\ (get_prompt_direct env db sessions sid name prompt_arguments st).1
     = HTTPException 404 ("Server not found: " ++ sid)
  /\ (event_generator env db sid polls ending st).1
     = [Error ("Server not found: " ++ sid); Disconnected]
  /\ connections (get_connection env db sid st).2 = connections st
  /\ log (get_connection env db sid st).2 = log st
  /\ _locks (get_connection env db sid st).2 !! sid = Some false.
Proof.
  intros Hcold Hnone.
  unfold gateway_message_proxy, call_tool_direct, read_resource_direct,
    get_prompt_direct, event_generator.
  rewrite (get_connection_unknown env db sid st Hcold Hnone). simpl.
  repeat split.
  - unfold _get_lock. destruct (_locks st !! sid); reflexivity.
  - unfold _get_lock. destruct (_locks st !! sid); reflexivity.
  - apply lookup_insert_eq.
Qed.

Lemma X19_unknown_server_is_not_found_witness :
  (gateway_message_proxy calm echo_registry (fun _ => deaf_session) "s9"
     bogus_request echo_pool).1
  = HTTPException 404 ("Server not found: " ++ "s9")
  /\ (call_tool_direct calm echo_registry (fun _ => deaf_session) "s9" "echo"
        (JObj []) echo_pool).1
     = HTTPException 404 ("Server not found: " ++ "s9")
  /\ (read_resource_direct calm echo_registry (fun _ => deaf_session) "s9" "file:///a"
        echo_pool).1
     = HTTPException 404 ("Server not found: " ++ "s9")
  /\ (get_prompt_direct calm echo_registry (fun _ => deaf_session) "s9" "hello" None
        echo_pool).1
     = HTTPException 404 ("Server not found: " ++ "s9")
  /\ (event_generator calm echo_registry "s9" [false; false] Cancelled echo_pool).1
     = [Error ("Server not found: " ++ "s9"); Disconnected]
  /\ connections (get_connection calm echo_registry "s9" echo_pool).2
     = connections echo_pool
  /\ log (get_connection calm echo_registry "s9" echo_pool).2 = log echo_pool
  /\ _locks (get_connection calm echo_registry "s9" echo_pool).2 !! "s9" = Some false.
Proof.
  apply (X19_unknown_server_is_not_found calm echo_registry (fun _ => deaf_session)
           "s9" echo_pool bogus_request "echo" "file:///a" "hello" (JObj []) None
           [false; false] Cancelled).
  - vm_compute. reflexivity.
  - vm_compute. reflexivity.
Defined.



(** X21: the REST shortcuts do what the JSON-RPC proxy does for the same
    request.  For a tool name and a resource uri that are not empty, the
    shortcut and the proxy leave the manager in the same state and answer
    with the same status code; when the call succeeds the shortcut returns
    the content that the proxy wraps into the JSON-RPC result. *)
Theorem X21_shortcuts_agree_with_the_proxy
    (env : Env) (db : AgentDatabase) (sessions : nat -> Session) (sid : string)
    (st : State) (id : option RequestId) (tool uri : string) (arguments : JSON) :
  tool <> "" ->
  uri <> "" ->
  let direct := call_tool_direct env db sessions sid tool arguments st in
  let proxied := gateway_message_proxy env db sessions sid
                   (tools_call id tool arguments) st in
  let read := read_resource_direct env db sessions sid uri st in
  let proxied_read := gateway_message_proxy env db sessions sid
                        (resources_read id uri) st in
  direct.2 = proxied.2
  /\ status_of direct.1 = status_of proxied.1
  /\ (forall content isError,
        direct.1 = Respond 200 {| tc_tool := tool; tc_content := content;
                                  tc_isError := isError |}
        <-> proxied.1 = Respond 200
                          (rpc_result id (JObj [("content", content);
                                                ("isError", JBool isError)])))
  /\ read.2 = proxied_read.2
  /\ status_of read.1 = status_of proxied_read.1
  /\ (forall contents,
        read.1 = Respond 200 {| rd_uri := uri; rd_contents := contents |}
        <-> proxied_read.1 = Respond 200 (rpc_result id (JObj [("contents", contents)]))).
Proof.
  intros Htool Huri. cbv zeta.
  unfold call_tool_direct, read_resource_direct, gateway_message_proxy.
  destruct (get_connection env db sid st) as [[e|conn] st']; simpl.
  - repeat split; try (destruct e; reflexivity);
      try (intros H; destruct e; discriminate H).
  - assert (Ht : (tool =? "") = false) by (apply String.eqb_neq; exact Htool).
    assert (Hu : (uri =? "") = false) by (apply String.eqb_neq; exact Huri).
    unfold dispatch, tools_call, resources_read, get_arguments, params_or_empty.
    simpl. rewrite Ht, Hu. simpl.
    repeat split.
    + destruct (call_tool (sessions (session conn)) (JStr tool) arguments)
        as [e|[content isError]]; [destruct e|]; reflexivity.
    + destruct (call_tool (sessions (session conn)) (JStr tool) arguments)
        as [e|[content' isError']]; [destruct e; discriminate|].
      intros [= -> ->]. reflexivity.
    + destruct (call_tool (sessions (session conn)) (JStr tool) arguments)
        as [e|[content' isError']]; [destruct e; discriminate|].
      intros [= -> ->]. reflexivity.
    + destruct (read_resource (sessions (session conn)) (JStr uri))
        as [e|contents]; [destruct e|]; reflexivity.
    + destruct (read_resource (sessions (session conn)) (JStr uri))
        as [e|contents']; [destruct e; discriminate|].
      intros [= ->]. reflexivity.
    + destruct (read_resource (sessions (session conn)) (JStr uri))
        as [e|contents']; [destruct e; discriminate|].
      intros [= ->]. reflexivity.
Qed.

Lemma X21_shortcuts_agree_with_the_proxy_witness :
  let direct := call_tool_direct calm echo_registry (fun _ => echo_session) "s1"
                  "echo" (JObj [("text", JStr "hi")]) echo_pool in
  let proxied := gateway_message_proxy calm echo_registry (fun _ => echo_session) "s1"
                   (tools_call (Some (IdInt 7)) "echo" (JObj [("text", JStr "hi")]))
                   echo_pool in
  let read := read_resource_direct calm echo_registry (fun _ => echo_session) "s1"
                "file:///a" echo_pool in
  let proxied_read := gateway_message_proxy calm echo_registry (fun _ => echo_session)
                        "s1" (resources_read (Some (IdInt 7)) "file:///a") echo_pool in
  direct.2 = proxied.2
  /\ status_of direct.1 = status_of proxied.1
  /\ (forall content isError,
        direct.1 = Respond 200 {| tc_tool := "echo"; tc_content := content;
                                  tc_isError := isError |}
        <-> proxied.1 = Respond 200
                          (rpc_result (Some (IdInt 7))
                             (JObj [("content", content);
                                    ("isError", JBool isError)])))
  /\ read.2 = proxied_read.2
  /\ status_of read.1 = status_of proxied_read.1
  /\ (forall contents,
        read.1 = Respond 200 {| rd_uri := "file:///a"; rd_contents := contents |}
        <-> proxied_read.1 = Respond 200 (rpc_result (Some (IdInt 7))
                                            (JObj [("contents", contents)]))).
Proof.
  apply (X21_shortcuts_agree_with_the_proxy calm echo_registry (fun _ => echo_session)
           "s1" echo_pool (Some (IdInt 7)) "echo" "file:///a"
           (JObj [("text", JStr "hi")])); discriminate.
Defined.

End GatewayMore.

(** ** Gateway health and the event stream *)

Section GatewayHealth.
Import Py Models Database Manager Monitor Http Gateway Routes Scenario Spec Cases.









(** On the pools of the scenarios: all healthy, one of two failing, the
    only one failing. *)
Lemma gateway_health_on_the_pools :
  gh_status (gateway_health two_pool) = "healthy"
  /\ gh_status (gateway_health two_pool_degraded) = "degraded"
  /\ gh_active_servers (gateway_health two_pool_degraded) = 1
  /\ gh_status (gateway_health echo_pool_unhealthy) = "unhealthy"
  /\ gh_status (gateway_health idle_manager) = "healthy".
Proof. vm_compute. repeat split; reflexivity. Qed.

Lemma count_events_app f l1 l2 :
  count_events f (l1 ++ l2) = count_events f l1 + count_events f l2.
Proof. unfold count_events. rewrite List.filter_app, length_app. reflexivity. Qed.

Lemma error_event_is_error (e : Exn) : exists detail, error_event e = Error detail.
Proof. destruct e; simpl; eauto. Qed.

(** The keep-alive loop sends one ping per poll that finds the client
    there, then at most one error, then [disconnected]. *)
Lemma keep_alive_shape (polls : list bool) (ending : Ending) :
  exists body,
    keep_alive polls ending = (body ++ [Disconnected])%list
    /\ count_events is_disconnected_event body = 0
    /\ count_events is_connected_event body = 0
    /\ count_events is_ping_event body = polls_before_leave polls.
Proof.
  induction polls as [|[|] polls IH]; simpl.
  - destruct ending as [|e].
    + exists []. repeat split.
    + exists [error_event e]. destruct (error_event_is_error e) as [d ->].
      repeat split.
  - exists []. repeat split.
  - destruct IH as (body & -> & H1 & H2 & H3).
    exists (Ping :: body). unfold count_events in *. simpl. repeat split; auto.
Qed.

(** X23: the event stream of a server always ends with [disconnected],
    sent once.  It begins with [connected], sent once, exactly when the
    connection was obtained, and then carries one ping for every poll that
    found the client still there; when the connection was not obtained it
    carries the error and nothing else. *)
Theorem X23_event_stream_shape
    (env : Env) (db : AgentDatabase) (sid : string) (polls : list bool)
    (ending : Ending) (st : State) :
  exists body,
    (event_generator env db sid polls ending st).1 = (body ++ [Disconnected])%list
    /\ count_events is_disconnected_event body = 0
    /\ match (get_connection env db sid st).1 with
       | Return _ =>
           exists rest,
             body = Connected :: rest
             /\ count_events is_connected_event rest = 0
             /\ count_events is_ping_event rest = polls_before_leave polls
       | Raise e => body = [error_event e]
       end
    /\ (event_generator env db sid polls ending st).2 = (get_connection env db sid st).2.
Proof.
  unfold event_generator.
  destruct (get_connection env db sid st) as [[e|conn] st']; simpl.
  - exists [error_event e]. destruct (error_event_is_error e) as [d ->].
    repeat split.
  - destruct (keep_alive_shape polls ending) as (body & -> & H1 & H2 & H3).
    exists (Connected :: body). repeat split; [exact H1|]. exists body. auto.
Qed.

End GatewayHealth.

(** ** The agent routes *)

Section AgentRoutesFacts.
Import Py Models Sqlite Database Http Scenario Spec Terms Agents Cases.

Lemma agent_data_after_heartbeat (r : AgentRow) (now : string) :
  agent_data {| ag_id := ag_id r; ag_card := ag_card r; ag_owner := ag_owner r;
                ag_created_at := ag_created_at r; ag_last_heartbeat := Some now |}
  = dict_set "last_heartbeat" (JStr now) (agent_data r).
Proof.
  unfold agent_data, dict_update, metadata. simpl. rewrite dict_set_set. reflexivity.
Qed.

(** X24: the heartbeat route answers 404 exactly when no agent is stored
    under the id, on a database file and in memory alike (there the second
    lookup catches what the result of [update_heartbeat] lets through), and
    otherwise the agent's record with [last_heartbeat] set to the time of
    the call.  The delete route on a database file answers 404 for an
    unknown id and 204 for a stored one. *)
Theorem X24_heartbeat_route_finds_the_agent (s : AgentStore) (aid now : string) :
  (AgentRoutes.heartbeat aid now s).1
  = match get_agent aid s with
    | None => HTTPException 404 "Agent not found"
    | Some d => Respond 200 (dict_set "last_heartbeat" (JStr now) d)
    end
  /\ (get_agent aid s = None -> agents (AgentRoutes.heartbeat aid now s).2 = agents s)
  /\ (_connection (base s) = None ->
      (AgentRoutes.delete_agent aid s).1
      = match get_agent aid s with
        | None => HTTPException 404 "Agent not found"
        | Some _ => Respond 204 tt
        end).
Proof.
  set (beat := fun r : AgentRow =>
                 if agent_has_id aid r then
                   {| ag_id := ag_id r; ag_card := ag_card r; ag_owner := ag_owner r;
                      ag_created_at := ag_created_at r; ag_last_heartbeat := Some now |}
                 else r).
  assert (Hid : forall x, agent_has_id aid (beat x) = agent_has_id aid x).
  { intros x. unfold beat. destruct (agent_has_id aid x) eqn:E; [|exact E].
    unfold agent_has_id in *. exact E. }
  assert (Hrows : keep (agent_has_id aid) (map beat (agents s))
                  = map beat (keep (agent_has_id aid) (agents s))).
  { apply keep_map_same. exact Hid. }
  repeat split.
  - unfold AgentRoutes.heartbeat, update_heartbeat, AgentRoutes.fetch_agent, get_agent.
    cbv zeta. fold beat.
    destruct ((0 <? total_changes
                      (add_changes (length (keep (agent_has_id aid) (agents s)))
                         (_get_connection (base s))))%nat) eqn:Hsuccess; simpl.
    + rewrite Hrows.
      destruct (keep (agent_has_id aid) (agents s)) as [|r rest] eqn:Hkeep;
        [reflexivity|]. simpl.
      assert (Hr : agent_has_id aid r = true).
      { assert (Hin : In r (keep (agent_has_id aid) (agents s)))
          by (rewrite Hkeep; left; reflexivity).
        unfold keep in Hin. apply List.filter_In in Hin. tauto. }
      unfold beat at 1. rewrite Hr. rewrite agent_data_after_heartbeat. reflexivity.
    + destruct (keep (agent_has_id aid) (agents s)) as [|r rest]; [reflexivity|].
      apply Nat.ltb_ge in Hsuccess. simpl in Hsuccess. lia.
  - intros Hnone. unfold get_agent in Hnone.
    destruct (keep (agent_has_id aid) (agents s)) as [|r rest] eqn:Hkeep; [|discriminate].
    assert (Hsame : map beat (agents s) = agents s).
    { unfold keep in Hkeep. clear Hrows.
      induction (agents s) as [|x l IH]; simpl in *; [reflexivity|].
      unfold beat at 1. destruct (agent_has_id aid x); [discriminate|].
      f_equal. apply IH. exact Hkeep. }
    unfold AgentRoutes.heartbeat, update_heartbeat. cbv zeta. fold beat.
    destruct (negb _); simpl; exact Hsame.
  - intros Hfile. unfold AgentRoutes.delete_agent, Agents.delete_agent, get_agent,
      _get_connection. rewrite Hfile. simpl.
    destruct (keep (agent_has_id aid) (agents s)); reflexivity.
Qed.

(** In memory, after the registration of [a1], a heartbeat for an id that
    was never registered is still answered with 404. *)
Lemma heartbeat_of_unknown_agent_in_memory :
  (update_heartbeat "ghost" t1 one_agent_in_memory).1 = true
  /\ (AgentRoutes.heartbeat "ghost" t1 one_agent_in_memory).1
     = HTTPException 404 "Agent not found"
  /\ (AgentRoutes.delete_agent "ghost" one_agent_in_memory).1 = Respond 204 tt.
Proof. vm_compute. repeat split; reflexivity. Qed.

End AgentRoutesFacts.

(** ** Registration requests and discovery *)

Section Registration.
Import Py Models Database Http Scenario Spec Terms Registry Cases Checks.

(** X25: when the two validators accept the [command] and the [url] of a
    request of one of the three transport types, [get_config] gives a
    configuration that goes with the type: a non-empty command for stdio,
    a non-empty url for http and sse, under the key the connection manager
    indexes.  The fields of the other transport are left out, and the
    optional fields are never null. *)
Theorem X25_accepted_request_is_well_configured (r : MCPServerRegister) :
  In (rq_type r) ["stdio"; "http"; "sse"] ->
  (exists v, validate_stdio_command (rq_command r) (rq_type r) = Return v) ->
  (exists v, validate_http_url (rq_url r) (rq_type r) = Return v) ->
  well_configured (rq_type r) (get_config r)
  /\ (exists key v, Manager.required_key (rq_type r) = Some key
                    /\ Manager.config_get key (get_config r) = Some v)
  /\ (rq_type r = "stdio" ->
      Client.config_get "url" (get_config r) = None
      /\ Client.config_get "headers" (get_config r) = None
      /\ Client.config_get "args" (get_config r)
         = Some (JArr (map JStr (default [] (rq_args r))))
      /\ Client.config_get "env" (get_config r) = Some (str_dict (default [] (rq_env r))))
  /\ (rq_type r <> "stdio" ->
      Client.config_get "command" (get_config r) = None
      /\ Client.config_get "args" (get_config r) = None
      /\ Client.config_get "env" (get_config r) = None
      /\ Client.config_get "headers" (get_config r)
         = Some (str_dict (default [] (rq_headers r)))).
Proof.
  intros Hty [v1 Hcmd] [v2 Hurl].
  unfold validate_stdio_command in Hcmd. unfold validate_http_url in Hurl.
  simpl in Hty. destruct Hty as [Hty|[Hty|[Hty|[]]]]; rewrite <- Hty in *.
  - destruct (rq_command r) as [c|] eqn:Hc; [|discriminate Hcmd].
    destruct (c =? "") eqn:Ec; [simpl in Hcmd; rewrite Ec in Hcmd; discriminate Hcmd|].
    assert (Hcfg : get_config r
                   = JObj [("command", JStr c);
                           ("args", JArr (map JStr (default [] (rq_args r))));
                           ("env", str_dict (default [] (rq_env r)))]).
    { unfold get_config. rewrite <- Hty, Hc. reflexivity. }
    rewrite Hcfg. split; [|split; [|split]].
    + left. split; [reflexivity|]. simpl. rewrite Ec. reflexivity.
    + exists "command", (JStr c). split; reflexivity.
    + intros _. repeat split; reflexivity.
    + intros H. contradiction H. reflexivity.
  - destruct (rq_url r) as [u|] eqn:Hu; [|discriminate Hurl].
    destruct (u =? "") eqn:Eu; [simpl in Hurl; rewrite Eu in Hurl; discriminate Hurl|].
    assert (Hcfg : get_config r
                   = JObj [("url", JStr u);
                           ("headers", str_dict (default [] (rq_headers r)))]).
    { unfold get_config. rewrite <- Hty, Hu. reflexivity. }
    rewrite Hcfg. split; [|split; [|split]].
    + right. split; [left; reflexivity|]. simpl. rewrite Eu. reflexivity.
    + exists "url", (JStr u). split; reflexivity.
    + intros H. discriminate H.
    + intros _. repeat split; reflexivity.
  - destruct (rq_url r) as [u|] eqn:Hu; [|discriminate Hurl].
    destruct (u =? "") eqn:Eu; [simpl in Hurl; rewrite Eu in Hurl; discriminate Hurl|].
    assert (Hcfg : get_config r
                   = JObj [("url", JStr u);
                           ("headers", str_dict (default [] (rq_headers r)))]).
    { unfold get_config. rewrite <- Hty, Hu. reflexivity. }
    rewrite Hcfg. split; [|split; [|split]].
    + right. split; [right; reflexivity|]. simpl. rewrite Eu. reflexivity.
    + exists "url", (JStr u). split; reflexivity.
    + intros H. discriminate H.
    + intros _. repeat split; reflexivity.
Qed.

Lemma X25_accepted_request_is_well_configured_witness :
  well_configured (rq_type echo_request) (get_config echo_request)
  /\ (exists key v, Manager.required_key (rq_type echo_request) = Some key
                    /\ Manager.config_get key (get_config echo_request) = Some v)
  /\ (rq_type echo_request = "stdio" ->
      Client.config_get "url" (get_config echo_request) = None
      /\ Client.config_get "headers" (get_config echo_request) = None
      /\ Client.config_get "args" (get_config echo_request)
         = Some (JArr (map JStr (default [] (rq_args echo_request))))
      /\ Client.config_get "env" (get_config echo_request)
         = Some (str_dict (default [] (rq_env echo_request))))
  /\ (rq_type echo_request <> "stdio" ->
      Client.config_get "command" (get_config echo_request) = None
      /\ Client.config_get "args" (get_config echo_request) = None
      /\ Client.config_get "env" (get_config echo_request) = None
      /\ Client.config_get "headers" (get_config echo_request)
         = Some (str_dict (default [] (rq_headers echo_request)))).
Proof.
  apply (X25_accepted_request_is_well_configured echo_request).
  - left. reflexivity.
  - exists (Some "echo-mcp"). reflexivity.
  - exists (Some "http://ignored"). reflexivity.
Defined.

(** The validators refuse a stdio request without a command and an http
    or sse request without a url, an empty string counting as none. *)
Lemma validators_refuse_missing_fields :
  validate_stdio_command None "stdio"
  = Raise (ValueError "command is required for stdio type")
  /\ validate_stdio_command (Some "") "stdio"
     = Raise (ValueError "command is required for stdio type")
  /\ validate_http_url None "sse"
     = Raise (ValueError "url is required for http and sse types")
  /\ validate_http_url (Some "") "http"
     = Raise (ValueError "url is required for http and sse types")
  /\ validate_stdio_command None "http" = Return None.
Proof. repeat split; reflexivity. Qed.

(** Every failure of a discovery reaches the caller as [MCPClientError]. *)
Lemma discovery_raises_client_error stype config srv e :
  Client.discover_capabilities stype config srv = Raise e ->
  exists m, e = MCPClientError m.
Proof.
  unfold Client.discover_capabilities, Client._discover_stdio_capabilities,
    Client._discover_http_capabilities.
  destruct (stype =? "stdio").
  - destruct (negb (truthy_opt (Client.config_get "command" config)));
      [intros [= <-]; eauto|].
    destruct (Client.discover_in_session srv) as [e0|caps]; [|discriminate].
    destruct e0; intros [= <-]; eauto.
  - destruct ((stype =? "http") || (stype =? "sse")).
    + destruct (negb (truthy_opt (Client.config_get "url" config)));
        [intros [= <-]; eauto|].
      destruct (Client.discover_in_session srv) as [e0|caps]; [|discriminate].
      destruct e0; intros [= <-]; eauto.
    + intros [= <-]. eauto.
Qed.

(** A configuration that does not go with the type fails before the server
    is contacted, with an error that does not depend on the server. *)
Lemma discovery_of_misconfigured_fails stype config :
  ~ well_configured stype config ->
  exists m, forall srv,
    Client.discover_capabilities stype config srv = Raise (MCPClientError m).
Proof.
  unfold well_configured, Client.discover_capabilities,
    Client._discover_stdio_capabilities, Client._discover_http_capabilities.
  intros Hbad.
  destruct (String.eqb_spec stype "stdio") as [->|Hs].
  - destruct (truthy_opt (Client.config_get "command" config)) eqn:E; simpl; [|eauto].
    contradiction Hbad. left. auto.
  - destruct (String.eqb_spec stype "http") as [->|Hh]; simpl.
    + destruct (truthy_opt (Client.config_get "url" config)) eqn:E; simpl; [|eauto].
      contradiction Hbad. right. auto.
    + destruct (String.eqb_spec stype "sse") as [->|He]; simpl; [|eauto].
      destruct (truthy_opt (Client.config_get "url" config)) eqn:E; simpl; [|eauto].
      contradiction Hbad. right. auto.
Qed.

(** X26: on a configuration that is a JSON object, [test_mcp_connection]
    reports success with the discovered capabilities exactly when the
    discovery returns them, and otherwise the text of the [MCPClientError]:
    its branch for unexpected errors is never taken, since every failure of
    a discovery is raised as [MCPClientError].  A configuration that does
    not go with the transport type is reported as an error whatever the
    server does. *)
Theorem X26_connection_test_reports_the_discovery
    (stype : string) (config : JSON) (srv : Client.Server) :
  is_object config ->
  match test_mcp_connection stype config srv with
  | Success caps => Client.discover_capabilities stype config srv = Return caps
  | Failure m => Client.discover_capabilities stype config srv = Raise (MCPClientError m)
  end
  /\ (forall e, Client.discover_capabilities stype config srv = Raise e ->
                exists m, e = MCPClientError m)
  /\ (~ well_configured stype config ->
      exists m, test_mcp_connection stype config srv = Failure m
                /\ forall srv', test_mcp_connection stype config srv' = Failure m).
Proof.
  intros _. repeat split.
  - unfold test_mcp_connection.
    destruct (Client.discover_capabilities stype config srv) as [e|caps] eqn:E;
      [|reflexivity].
    destruct (discovery_raises_client_error _ _ _ _ E) as [m ->]. reflexivity.
  - apply discovery_raises_client_error.
  - intros Hbad. unfold test_mcp_connection.
    destruct (discovery_of_misconfigured_fails stype config Hbad) as [m Hm].
    exists m. split; [|intros srv']; rewrite Hm; reflexivity.
Qed.

Lemma X26_connection_test_reports_the_discovery_witness :
  match test_mcp_connection "stdio" echo_config refusing_server with
  | Success caps =>
      Client.discover_capabilities "stdio" echo_config refusing_server = Return caps
  | Failure m =>
      Client.discover_capabilities "stdio" echo_config refusing_server
      = Raise (MCPClientError m)
  end
  /\ (forall e, Client.discover_capabilities "stdio" echo_config refusing_server = Raise e ->
                exists m, e = MCPClientError m)
  /\ (~ well_configured "stdio" echo_config ->
      exists m, test_mcp_connection "stdio" echo_config refusing_server = Failure m
                /\ forall srv', test_mcp_connection "stdio" echo_config srv' = Failure m).
Proof.
  apply (X26_connection_test_reports_the_discovery "stdio" echo_config refusing_server).
  exact I.
Defined.

End Registration.

(** ** Registering and verifying through the routes *)

Section RegisterVerify.
Import Py Models Database Http Scenario Spec Terms Registry Cases Checks.

Lemma insert_fresh_record sid stype description config caps now db :
  get_mcp_server sid db = None ->
  exists stored_caps,
    let record := {| server_id := sid; server_type := stype;
                     server_description := description; server_config := config;
                     server_created_at := now; server_last_verified := Some now;
                     server_status := Some "active";
                     server_capabilities := stored_caps |} in
    (insert_mcp_server sid stype description config caps now db).1 = Return record
    /\ get_mcp_server sid (insert_mcp_server sid stype description config caps now db).2
       = Some record.
Proof.
  intros Hnone. apply get_mcp_server_None in Hnone.
  unfold insert_mcp_server. rewrite Hnone. cbv zeta.
  match goal with |- context [get_mcp_server sid ?d] => set (db' := d) end.
  assert (Hget : exists stored_caps,
            get_mcp_server sid db'
            = Some {| server_id := sid; server_type := stype;
                      server_description := description; server_config := config;
                      server_created_at := now; server_last_verified := Some now;
                      server_status := Some "active";
                      server_capabilities := stored_caps |}).
  { unfold get_mcp_server, db'. simpl. rewrite keep_app, Hnone. simpl.
    unfold keep. simpl. unfold server_has_id at 1. simpl. rewrite String.eqb_refl.
    simpl. eauto. }
  destruct Hget as [stored_caps Hget]. exists stored_caps.
  rewrite Hget. simpl. split; [reflexivity|exact Hget].
Qed.

(** X27: a registration under a fresh id whose discovery succeeds answers
    201 with the stored record, and a GET of the id afterwards answers 200
    with the same record: the type, description and configuration of the
    request, status [active], both timestamps the time of the call.  When
    the discovery fails the registration answers 500 and stores nothing.
    The connection manager is not involved either way. *)
Theorem X27_register_then_get
    (sid : string) (r : MCPServerRegister) (srv : Client.Server) (now : string)
    (app : Main.App) :
  get_mcp_server sid (Main.db app) = None ->
  match Client.discover_capabilities (rq_type r) (get_config r) srv with
  | Return _ =>
      exists record,
        (register sid r srv now app).1 = Respond 201 record
        /\ get_mcp_server_route sid (register sid r srv now app).2 = Respond 200 record
        /\ server_id record = sid
        /\ server_type record = rq_type r
        /\ server_description record = rq_description r
        /\ server_config record = get_config r
        /\ server_created_at record = now
        /\ server_last_verified record = Some now
        /\ server_status record = Some "active"
        /\ Main.connection_manager (register sid r srv now app).2
           = Main.connection_manager app
  | Raise _ =>
      status_of (register sid r srv now app).1 = 500%Z
      /\ (register sid r srv now app).2 = app
  end.
Proof.
  intros Hfresh. unfold register, Main.register_mcp_server, get_mcp_server_route.
  destruct (Client.discover_capabilities (rq_type r) (get_config r) srv) as [e|caps].
  - split; reflexivity.
  - destruct (insert_fresh_record sid (rq_type r) (rq_description r) (get_config r)
                caps now (Main.db app) Hfresh) as (stored_caps & Hret & Hget).
    cbv zeta in Hret, Hget.
    destruct (insert_mcp_server sid (rq_type r) (rq_description r) (get_config r)
                caps now (Main.db app)) as [res db'].
    simpl in Hret, Hget. subst res. simpl. rewrite Hget.
    eexists. repeat split.
Qed.

Lemma X27_register_then_get_witness :
  match Client.discover_capabilities (rq_type echo_request) (get_config echo_request)
          no_resources_server with
  | Return _ =>
      exists record,
        (register "s1" echo_request no_resources_server t0 new_app).1
        = Respond 201 record
        /\ get_mcp_server_route "s1"
             (register "s1" echo_request no_resources_server t0 new_app).2
           = Respond 200 record
        /\ server_id record = "s1"
        /\ server_type record = rq_type echo_request
        /\ server_description record = rq_description echo_request
        /\ server_config record = get_config echo_request
        /\ server_created_at record = t0
        /\ server_last_verified record = Some t0
        /\ server_status record = Some "active"
        /\ Main.connection_manager
             (register "s1" echo_request no_resources_server t0 new_app).2
           = Main.connection_manager new_app
  | Raise _ =>
      status_of (register "s1" echo_request no_resources_server t0 new_app).1 = 500%Z
      /\ (register "s1" echo_request no_resources_server t0 new_app).2 = new_app
  end.
Proof.
  apply (X27_register_then_get "s1" echo_request no_resources_server t0 new_app).
  reflexivity.
Defined.

(** X28: when the rediscovery of a registered server fails, the verify
    route answers 503 and stores the status [error] with the time of the
    call, the rest of the record staying as it was; from then on no search
    returns the server, a search listing active servers only.  The
    connection manager is not involved. *)
Theorem X28_failed_verification_hides_the_server
    (app : Main.App) (sid : string) (srv : Client.Server) (now : string)
    (server : MCPServer) (e : Exn)
    (query capability_type stype : option string) (lim : Z) :
  primary_key (tables (Main.db app)) ->
  get_mcp_server sid (Main.db app) = Some server ->
  is_object (server_config server) ->
  Client.discover_capabilities (server_type server) (server_config server) srv = Raise e ->
  let out := Main.verify_mcp_server sid srv now app in
  (exists m, e = MCPClientError m
             /\ out.1 = HTTPException 503 ("Server verification failed: " ++ m))
  /\ get_mcp_server sid (Main.db out.2) = Some (reverified "error" now server)
  /\ match search_mcp_capabilities_route query capability_type stype lim out.2 with
     | Respond _ found => ~ In sid (map e_server_id found)
     | HTTPException code _ => code = 422%Z
     end
  /\ Main.connection_manager out.2 = Main.connection_manager app.
Proof.
  intros Hpk Hserver _ Hdisc out.
  destruct (discovery_raises_client_error _ _ _ _ Hdisc) as [m ->].
  pose proof (update_status_get sid "error" now (Main.db app) server Hserver) as Hget.
  pose proof (primary_key_update sid "error" None now (Main.db app) Hpk) as Hpk'.
  assert (Hout : out = (HTTPException 503 ("Server verification failed: " ++ m),
                        Main.with_db app
                          (update_mcp_server_status sid "error" None now (Main.db app)).2)).
  { unfold out, Main.verify_mcp_server. rewrite Hserver, Hdisc.
    destruct (update_mcp_server_status sid "error" None now (Main.db app)). reflexivity. }
  rewrite Hout. simpl.
  set (db' := (update_mcp_server_status sid "error" None now (Main.db app)).2) in *.
  split; [eauto|]. split; [exact Hget|]. split; [|reflexivity].
  unfold search_mcp_capabilities_route. simpl.
  destruct (Z.ltb_spec lim 1) as [Hlow|Hlow]; simpl; [reflexivity|].
  destruct (Z.ltb_spec 1000 lim) as [Hhigh|Hhigh]; simpl; [reflexivity|].
  destruct (search_scoped db' stype Hpk' query capability_type lim) as [[_ Hall] _];
    [lia|].
  intros Hin. apply in_map_iff in Hin. destruct Hin as (entry & Hid & Hin).
  rewrite List.Forall_forall in Hall. destruct (Hall entry Hin) as (s' & Hs' & Hact & _).
  rewrite Hid, Hget in Hs'. injection Hs' as <-. simpl in Hact. discriminate.
Qed.

Lemma X28_failed_verification_hides_the_server_witness :
  let out := Main.verify_mcp_server "s1" refusing_server t1 echo_app in
  (exists m, MCPClientError "Failed to connect to stdio server: connection refused"
             = MCPClientError m
             /\ out.1 = HTTPException 503 ("Server verification failed: " ++ m))
  /\ get_mcp_server "s1" (Main.db out.2)
     = Some (reverified "error" t1
               {| server_id := "s1"; server_type := "stdio";
                  server_description := None; server_config := echo_config;
                  server_created_at := t0; server_last_verified := Some t0;
                  server_status := Some "active";
                  server_capabilities := echo_caps |})
  /\ match search_mcp_capabilities_route (Some "echo") None None 100 out.2 with
     | Respond _ found => ~ In "s1" (map e_server_id found)
     | HTTPException code _ => code = 422%Z
     end
  /\ Main.connection_manager out.2 = Main.connection_manager echo_app.
Proof.
  apply (X28_failed_verification_hides_the_server echo_app "s1" refusing_server t1
           {| server_id := "s1"; server_type := "stdio";
              server_description := None; server_config := echo_config;
              server_created_at := t0; server_last_verified := Some t0;
              server_status := Some "active";
              server_capabilities := echo_caps |}
           (MCPClientError "Failed to connect to stdio server: connection refused")
           (Some "echo") None None 100).
  - unfold primary_key. simpl. repeat constructor. intros [].
  - reflexivity.
  - exact I.
  - reflexivity.
Defined.

End RegisterVerify.

(** ** Checking every pooled connection *)

Section HealthCheckAll.
Import Py Models Database Manager Monitor Scenario Spec Cases Checks.

Lemma health_check_effect probe sid st :
  (health_check probe sid st).1
  = match connections st !! sid with
    | Some _ => probe_ok probe
    | None => false
    end
  /\ connections (health_check probe sid st).2
     = match connections st !! sid with
       | Some conn => <[sid := (conn_health_check probe conn).2]> (connections st)
       | None => connections st
       end
  /\ log (health_check probe sid st).2 = log st
  /\ _locks (health_check probe sid st).2 = _locks st.
Proof.
  unfold health_check. destruct (connections st !! sid) as [conn|]; [|auto].
  destruct probe; simpl; auto.
Qed.

Lemma health_check_each (probes : string -> Result unit) (ks : list string)
    (res : gmap string bool) (st : State) :
  List.NoDup ks ->
  let out := fold_left
               (fun acc sid =>
                  let '(ok, st') := health_check (probes sid) sid acc.2 in
                  (<[sid := ok]> acc.1, st'))
               ks (res, st) in
  (forall k, In k ks ->
     out.1 !! k = Some (match connections st !! k with
                        | Some _ => probe_ok (probes k)
                        | None => false
                        end)
     /\ connections out.2 !! k
        = (fun conn => (conn_health_check (probes k) conn).2) <$> connections st !! k)
  /\ (forall k, ~ In k ks ->
        out.1 !! k = res !! k /\ connections out.2 !! k = connections st !! k)
  /\ log out.2 = log st
  /\ _locks out.2 = _locks st.
Proof.
  intros Hnd. revert res st. induction Hnd as [|k ks Hk Hnd IH]; intros res st; simpl.
  - split; [intros k []|]. repeat split.
  - destruct (health_check_effect (probes k) k st) as (Hok & Hconns & Hlog & Hlocks).
    destruct (health_check (probes k) k st) as [ok st1]. simpl in *.
    destruct (IH (<[k := ok]> res) st1) as (H1 & H2 & H3 & H4).
    split; [|split; [|split]].
    + intros k' [<-|Hin].
      * destruct (H2 k Hk) as [Hres Hc]. rewrite Hres, Hc, lookup_insert_eq, Hconns, Hok.
        split; [reflexivity|].
        destruct (connections st !! k) as [conn|] eqn:E; [|exact E].
        rewrite lookup_insert_eq. reflexivity.
      * assert (Hne : k <> k') by (intros ->; contradiction).
        destruct (H1 k' Hin) as [Hres Hc]. rewrite Hres, Hc, Hconns.
        destruct (connections st !! k) as [conn|];
          [rewrite lookup_insert_ne by exact Hne|]; auto.
    + intros k' Hout.
      assert (Hne : k <> k') by tauto.
      destruct (H2 k') as [Hres Hc]; [tauto|].
      rewrite Hres, Hc, Hconns, lookup_insert_ne by exact Hne.
      destruct (connections st !! k) as [conn|];
        [rewrite lookup_insert_ne by exact Hne|]; auto.
    + congruence.
    + congruence.
Qed.

(** X29: [health_check_all] reports one result for each pooled connection
    and none for any other id: [True] where the probe succeeded, [False]
    where it failed.  It marks each connection accordingly, healthy or
    unhealthy with the text of the failure, and changes nothing else: no
    connection is closed or opened, counters and sessions stay. *)
Theorem X29_health_check_all_marks_every_connection
    (probes : string -> Result unit) (st : State) (sid : string) :
  (health_check_all probes st).1 !! sid
  = (fun _ => probe_ok (probes sid)) <$> connections st !! sid
  /\ connections (health_check_all probes st).2 !! sid
     = (fun conn => (conn_health_check (probes sid) conn).2) <$> connections st !! sid
  /\ (is_healthy <$> connections (health_check_all probes st).2 !! sid)
     = ((fun _ => probe_ok (probes sid)) <$> connections st !! sid)
  /\ (session <$> connections (health_check_all probes st).2 !! sid)
     = (session <$> connections st !! sid)
  /\ (request_count <$> connections (health_check_all probes st).2 !! sid)
     = (request_count <$> connections st !! sid)
  /\ log (health_check_all probes st).2 = log st.
Proof.
  unfold health_check_all.
  destruct (health_check_each probes (map fst (map_to_list (connections st))) ∅ st
              (NoDup_keys _)) as (H1 & H2 & H3 & _).
  set (out := fold_left _ _ _) in *.
  assert (Hboth : out.1 !! sid
                  = (fun _ => probe_ok (probes sid)) <$> connections st !! sid
                  /\ connections out.2 !! sid
                     = (fun conn => (conn_health_check (probes sid) conn).2)
                         <$> connections st !! sid).
  { destruct (connections st !! sid) as [conn|] eqn:E.
    - destruct (H1 sid) as [Hres Hc].
      { apply in_map_iff. exists (sid, conn). split; [reflexivity|].
        apply entry_of_map. exact E. }
      rewrite Hres, Hc, E. split; reflexivity.
    - destruct (H2 sid) as [Hres Hc].
      { intros Hin. apply in_map_iff in Hin. destruct Hin as (kv & <- & Hin).
        apply entry_of_map in Hin. congruence. }
      rewrite Hres, Hc, E. split; [apply lookup_empty|reflexivity]. }
  destruct Hboth as [Hres Hc]. rewrite Hc.
  split; [exact Hres|]. split; [reflexivity|].
  destruct (connections st !! sid) as [conn|]; simpl;
    [destruct (probes sid); simpl|]; auto.
Qed.

(** On the pool of two connections, with [s1] not answering. *)
Lemma health_check_all_on_two_pool :
  map_to_list (health_check_all s1_down two_pool).1 = [("s1", false); ("s2", true)]
  /\ (health_check_all s1_down two_pool).2 = two_pool_degraded.
Proof. vm_compute. split; reflexivity. Qed.

End HealthCheckAll.

(** ** Closes that overlap *)

Section OverlappingCloses.
Import Py Models Database Manager Tasks Scenario Spec Cases.

(** Two callers that find the same unhealthy entry both enter
    [_close_connection] (it is called outside the lock, and its guard is
    passed before the first await): the connection is torn down once by
    each of them. *)
Lemma overlapping_closers_tear_down_twice
    (env0 env1 : Env) (db : AgentDatabase) (sid : string) (st : State)
    (conn : MCPConnection) :
  connections st !! sid = Some conn ->
  is_healthy conn = false ->
  exists st2,
    run_schedule db sid [(0, env0); (1, env1)] (start st 2)
    = Some {| manager := st2; tasks := [Closing; Closing] |}
    /\ log st2 = (log st ++ teardown env0 conn ++ teardown env1 conn)%list
    /\ connections st2 = connections st.
Proof.
  intros Hconn Hbad. unfold run_schedule, run_task, start. simpl.
  rewrite Hconn, Hbad. simpl. rewrite Hconn, Hbad. simpl.
  eexists. split; [reflexivity|]. simpl. rewrite <- app_assoc. split; reflexivity.
Qed.

(** A caller that comes back from the [__aexit__] calls after another one
    has deleted the entry fails in its own [del]. *)
Lemma late_closer_raises_key_error (env : Env) (db : AgentDatabase) (sid : string)
    (st : State) :
  connections st !! sid = None ->
  task_step env db sid Closing st = Some (Finished (Raise (KeyError sid)), st).
Proof. intros Hgone. unfold task_step. rewrite Hgone. reflexivity. Qed.

(** C4 at the failing input: the connection of [s1], created by the
    manager with session context 1 and client context 0 and marked
    unhealthy by a failed health check, and two callers of
    [get_connection("s1")] whose closes overlap.  Each close exits the
    session context before the client context, but the two contexts are
    exited twice, and the second call of [_close_connection] is no no-op:
    it ends in [KeyError], which its caller gets instead of a connection.
    The other caller reopens and gets the new connection. *)
Theorem C4_overlapping_closes_exit_the_contexts_twice :
  (exists conn,
     connections echo_pool_unhealthy !! "s1" = Some conn
     /\ session_context conn = Some 1
     /\ client_context conn = Some 0
     /\ is_healthy conn = false)
  /\ exists sys,
       run_schedule echo_registry "s1" two_closers (start echo_pool_unhealthy 2)
       = Some sys
       /\ log (manager sys)
          = (log echo_pool_unhealthy
             ++ [SessionExit 1; ClientExit 0; SessionExit 1; ClientExit 0;
                 ClientEnter "s1" 2; SessionEnter "s1" 3; SessionInitialize "s1" 3])%list
       /\ tasks sys !! 1 = Some (Finished (Raise (KeyError "s1")))
       /\ (exists fresh,
             tasks sys !! 0 = Some (Finished (Return fresh))
             /\ connections (manager sys) !! "s1" = Some fresh
             /\ session fresh = 3).
Proof.
  split.
  - eexists. vm_compute. repeat split; reflexivity.
  - eexists. split; [vm_compute; reflexivity|]. vm_compute.
    repeat split. eexists. repeat split; reflexivity.
Qed.

End OverlappingCloses.
